(** * KS236 ultrasonic probes over RS485: protocol engine

    A shallow embedding of the four scripts of the repository

      - [ks236_energy_get.py]  (module [EnergyGet])
      - [ks236_p_get.py]       (module [PGet])
      - [ks236_energy_set.py]  (module [EnergySet])
      - [ks236_p_set.py]       (module [PSet])

    Python [int] is [Z]; a [bytes] object is a list of [Z] (the constructor
    [bytes([...])] is modelled with its range check); the serial port is an
    interface ([Serial]) whose calls may raise; every method that talks to the
    port is a computation in a state-and-exception monad over the port and a
    chronological log of the calls made.  Console output ([print]) is not
    modelled. *)

From Stdlib Require Import ZArith List String Ascii DecimalString Bool Lia QArith.
Import ListNotations.
Close Scope Q_scope.
Open Scope Z_scope.

(** ** Python values *)

Definition bytes := list Z.

Inductive exn : Type :=
| ValueError          (* bytes() of a value outside range(256); bad probe number *)
| KeyError            (* dict[key] on a missing key *)
| PortError.          (* anything the serial port raises *)

Inductive result (A : Type) : Type :=
| Ok (a : A)
| Raise (e : exn).
Arguments Ok {A} a.
Arguments Raise {A} e.

(** [len(x)] *)
Definition len {A} (l : list A) : Z := Z.of_nat (List.length l).

(** [bytes([...])]: raises ValueError unless every element is in range(256). *)
Definition is_byte (b : Z) : bool := (0 <=? b) && (b <? 256).

Definition mk_bytes (l : list Z) : result bytes :=
  if forallb is_byte l then Ok l else Raise ValueError.

(** [x[i]] for a non-negative literal index.  Every use below sits under a
    length test of [x], so the default is never returned. *)
Definition at_ (x : list Z) (i : nat) : Z := nth i x 0.

(** [x[-1]] and [x[:-1]] *)
Definition last_byte (x : list Z) : Z := last x 0.
Definition but_last (x : list Z) : list Z := removelast x.

(** [x[a:b]] for literal bounds [0 <= a <= b] *)
Definition slice (x : list Z) (a b : nat) : list Z := firstn (b - a) (skipn a x).

Arguments len : simpl never.
Arguments at_ : simpl never.
Arguments slice : simpl never.
Arguments last_byte : simpl never.
Arguments but_last : simpl never.

(** [k in table] / [table[k]] for the probe-number dictionaries *)
Fixpoint lookup (k : Z) (table : list (Z * Z)) : option Z :=
  match table with
  | [] => None
  | (k', v) :: rest => if k =? k' then Some v else lookup k rest
  end.

(** [range(n)] *)
Definition range (n : Z) : list Z := map Z.of_nat (seq 0 (Z.to_nat n)).

(** [range(a, b)] *)
Definition range_from (a b : Z) : list Z := map (fun i => a + i) (range (b - a)).

(** [f"{b:02X}"] for a byte [b] *)
Definition hex_digit (d : Z) : ascii :=
  if d <? 10 then ascii_of_nat (48 + Z.to_nat d) else ascii_of_nat (55 + Z.to_nat d).

Definition hex02 (b : Z) : string :=
  String (hex_digit (b / 16)) (String (hex_digit (b mod 16)) EmptyString).

(** ** The serial port and the effect monad *)

(** The four calls the scripts make on [self.serial_port].  Each call returns
    its value or raises, and leaves the port in a new state. *)
Class Serial (port : Type) : Type := {
  dev_reset_input_buffer : port -> result unit * port;
  dev_write : bytes -> port -> result Z * port;
  dev_flush : port -> result unit * port;
  dev_read : Z -> port -> result bytes * port
}.

(** What the script does to the outside world, in order.  Sleeps carry their
    nominal duration in milliseconds. *)
Inductive event : Type :=
| EvReset
| EvWrite (data : bytes)
| EvFlush
| EvRead (n : Z)
| EvSleep (ms : Z).

Record world (port : Type) : Type := World { dev : port; log : list event }.
Arguments World {port} dev log.
Arguments dev {port} w.
Arguments log {port} w.

Definition M (port A : Type) : Type := world port -> result A * world port.

Definition ret {port A} (a : A) : M port A := fun w => (Ok a, w).

Definition bind {port A B} (m : M port A) (k : A -> M port B) : M port B :=
  fun w => match m w with
           | (Ok a, w') => k a w'
           | (Raise e, w') => (Raise e, w')
           end.

Definition lift {port A} (r : result A) : M port A := fun w => (r, w).

(** [try: m  except Exception as e: h] *)
Definition try_except {port A} (m : M port A) (h : exn -> M port A) : M port A :=
  fun w => match m w with
           | (Ok a, w') => (Ok a, w')
           | (Raise e, w') => h e w'
           end.

(** [try: m  finally: f]: [f] runs whether [m] returns or raises; what [m]
    raised is raised again afterwards, unless [f] itself raises. *)
Definition try_finally {port A} (m : M port A) (f : M port unit) : M port A :=
  fun w => let (r, w') := m w in
           match f w' with
           | (Ok _, w'') => (r, w'')
           | (Raise e, w'') => (Raise e, w'')
           end.

Declare Scope io_scope.
Delimit Scope io_scope with io.
Notation "x <- m ;; k" := (bind m (fun x => k))
  (at level 100, m at next level, right associativity) : io_scope.
Notation "m ;; k" := (bind m (fun _ => k))
  (at level 100, right associativity) : io_scope.

(** How one pass through a [for] body ends: it falls off the end or hits
    [continue] ([Next]), or it executes [return a]. *)
Inductive flow (A : Type) : Type :=
| Next
| Return (a : A).
Arguments Next {A}.
Arguments Return {A} a.

(** [for attempt in attempts: body]  followed by [after]. *)
Fixpoint for_each {port A} (body : Z -> M port (flow A)) (attempts : list Z)
         (after : M port A) : M port A :=
  match attempts with
  | [] => after
  | a :: rest =>
      fun w => match body a w with
               | (Ok (Return r), w') => (Ok r, w')
               | (Ok Next, w') => for_each body rest after w'
               | (Raise e, w') => (Raise e, w')
               end
  end.

Section PortCalls.
Context {port : Type} `{Serial port}.

Definition call {A} (ev : event) (op : port -> result A * port) : M port A :=
  fun w => let (r, p) := op (dev w) in (r, World p (log w ++ [ev])).

Definition reset_input_buffer : M port unit := call EvReset dev_reset_input_buffer.
Definition write (data : bytes) : M port Z := call (EvWrite data) (dev_write data).
Definition flush : M port unit := call EvFlush dev_flush.
Definition read (n : Z) : M port bytes := call (EvRead n) (dev_read n).

(** [time.sleep(ms / 1000)] *)
Definition sleep (ms : Z) : M port unit :=
  fun w => (Ok tt, World (dev w) (log w ++ [EvSleep ms])).
End PortCalls.

(** Observations on a log. *)
Definition is_reset (e : event) : bool := match e with EvReset => true | _ => false end.
Definition is_write (e : event) : bool := match e with EvWrite _ => true | _ => false end.

(** Every attempt of every retry loop starts with one [reset_input_buffer]. *)
Definition attempts_in (l : list event) : Z := len (filter is_reset l).
Definition writes_in (l : list event) : Z := len (filter is_write l).

Definition written (l : list event) : list bytes :=
  flat_map (fun e => match e with EvWrite d => [d] | _ => [] end) l.

(** ** A replaying port

    A port that accepts every write in full and answers successive reads with
    the replies of a script (cut to the requested size); once the script is
    used up every read returns [idle]. *)
Record replay : Type := Replay { pending : list bytes; idle : bytes }.

#[export] Instance replay_serial : Serial replay := {
  dev_reset_input_buffer := fun p => (Ok tt, p);
  dev_write := fun data p => (Ok (len data), p);
  dev_flush := fun p => (Ok tt, p);
  dev_read := fun n p =>
    match pending p with
    | [] => (Ok (firstn (Z.to_nat n) (idle p)), p)
    | r :: rest => (Ok (firstn (Z.to_nat n) r), Replay rest (idle p))
    end
}.

(** ** Two ports with a fixed behaviour

    [mute]: a line on which nothing ever answers (every read times out with
    no byte).  [stubborn]: a probe that answers every read with the same
    acknowledgement, whose status byte 0x01 is none of 0x00, 0x02, 0xFF. *)
Inductive mute : Type := Mute.

#[export] Instance mute_serial : Serial mute := {
  dev_reset_input_buffer := fun p => (Ok tt, p);
  dev_write := fun data p => (Ok (len data), p);
  dev_flush := fun p => (Ok tt, p);
  dev_read := fun _ p => (Ok [], p)
}.

Inductive stubborn : Type := Stubborn.

Definition stubborn_ack : bytes := [0xE8; 0x99; 0xB1; 0x01; 0xC1].

#[export] Instance stubborn_serial : Serial stubborn := {
  dev_reset_input_buffer := fun p => (Ok tt, p);
  dev_write := fun data p => (Ok (len data), p);
  dev_flush := fun p => (Ok tt, p);
  dev_read := fun n p => (Ok (firstn (Z.to_nat n) stubborn_ack), p)
}.

Definition boot {port} (p : port) : world port := World p [].

(** ** ks236_energy_get.py *)
Module EnergyGet.

Definition ADDR_CODE : Z := 0xE8.
Definition CMD_CODE : Z := 0x99.
Definition PROBE_PARAMS : list (Z * Z) :=
  [(1, 0xD1); (2, 0xD2); (3, 0xD3); (4, 0xD4); (5, 0xD5);
   (6, 0xD6); (7, 0xD7); (8, 0xD8); (9, 0xD9)].
Definition EXPECTED_RESPONSE_LENGTH : Z := 15.

Definition calculate_bcc (data : bytes) : Z :=
  fold_left (fun bcc byte => Z.lxor bcc byte) data 0.

Definition create_query_command (probe_num : Z) : result bytes :=
  match lookup probe_num PROBE_PARAMS with
  | None => Raise ValueError
  | Some param =>
      let bcc := Z.lxor (Z.lxor ADDR_CODE CMD_CODE) param in
      mk_bytes [ADDR_CODE; CMD_CODE; param; bcc]
  end.

Definition validate_response (response : bytes) (expected_probe_num : Z) : result bool :=
  if negb (len response =? EXPECTED_RESPONSE_LENGTH) then Ok false
  else if negb (at_ response 0 =? ADDR_CODE) || negb (at_ response 1 =? CMD_CODE)
  then Ok false
  else match lookup expected_probe_num PROBE_PARAMS with
       | None => Raise KeyError
       | Some expected_param =>
           if negb (at_ response 2 =? expected_param) then Ok false
           else
             let expected_bcc := calculate_bcc (but_last response) in
             if negb (last_byte response =? expected_bcc) then Ok false
             else Ok true
       end.

Record range_params : Type := RangeParams { energy : Z; time : Z; threshold : Z }.

Record probe_data : Type := ProbeData {
  probe_num : Z;
  probe_id : string;
  range_2_5m : range_params;
  range_1_5m : range_params;
  range_6_5m : range_params;
  fixed_params : string * string;      (* param1, param2 *)
  bcc : string;
  raw_response : string
}.

Definition parse_response (response : bytes) (probe : Z) : probe_data :=
  {| probe_num := probe;
     probe_id := "0x" ++ hex02 (at_ response 2);
     range_2_5m := RangeParams (at_ response 3) (at_ response 4) (at_ response 5);
     range_1_5m := RangeParams (at_ response 6) (at_ response 7) (at_ response 8);
     range_6_5m := RangeParams (at_ response 9) (at_ response 10) (at_ response 11);
     fixed_params := ("0x" ++ hex02 (at_ response 12), "0x" ++ hex02 (at_ response 13));
     bcc := "0x" ++ hex02 (at_ response 14);
     raw_response := String.concat " " (map hex02 response) |}%string.

Section WithPort.
Context {port : Type} `{Serial port}.
Local Open Scope io_scope.

(** One pass through the body of the retry loop of [query_probe]. *)
Definition query_attempt (probe : Z) (command : bytes) (max_retries attempt : Z)
  : M port (flow (option probe_data)) :=
  try_except
    (reset_input_buffer ;;
     bytes_sent <- write command ;;
     flush ;;
     if negb (bytes_sent =? len command) then ret Next
     else
       sleep (100 + attempt * 100) ;;
       response <- read EXPECTED_RESPONSE_LENGTH ;;
       valid <- (if len response =? EXPECTED_RESPONSE_LENGTH
                 then lift (validate_response response probe)
                 else ret false) ;;
       if valid then ret (Return (Some (parse_response response probe)))
       else
         (if attempt <? max_retries - 1 then sleep 200 else ret tt) ;;
         ret Next)
    (fun _ => ret Next).

Definition query_probe (probe : Z) (max_retries : Z) : M port (option probe_data) :=
  command <- lift (create_query_command probe) ;;
  for_each (query_attempt probe command max_retries) (range max_retries) (ret None).

(** The loop of [read_all_probes] over the probe numbers still to query;
    [results] is the list built so far. *)
Fixpoint read_each (probes : list Z) (results : list probe_data)
  : M port (list probe_data) :=
  match probes with
  | [] => ret results
  | probe_num :: rest =>
      result <- query_probe probe_num 3 ;;
      let results := match result with
                     | Some r => results ++ [r]
                     | None => results
                     end in
      sleep 100 ;;
      read_each rest results
  end.

(** [read_all_probes].  Opening and closing the serial device are the
    methods [connect] (which answers whether the device could be opened) and
    [disconnect]; they are taken as they come. *)
Definition read_all_probes (connect : M port bool) (disconnect : M port unit)
  : M port (list probe_data) :=
  connected <- connect ;;
  if negb connected then ret []
  else try_finally (read_each (range_from 1 10) []) disconnect.

End WithPort.
End EnergyGet.


(** ** ks236_p_get.py *)
Module PGet.

Definition ADDR_CODE : Z := 0xE8.
Definition CMD_CODE : Z := 0x99.
Definition PROBE_PARAMS : list (Z * Z) :=
  [(1, 0xE1); (2, 0xE2); (3, 0xE3); (4, 0xE4); (5, 0xE5);
   (6, 0xE6); (7, 0xE7); (8, 0xE8); (9, 0xE9)].
Definition EXPECTED_RESPONSE_LENGTH : Z := 21.

Definition P_DESCRIPTIONS : list (string * string) :=
  [("P1", "22.5 ~ 42.5 cm"); ("P2", "42.5 ~ 59.5 cm"); ("P3", "59.5 ~ 76.5 cm");
   ("P4", "76.5 ~ 110 cm"); ("P5", "110 ~ 144 cm"); ("P6", "144 ~ 178 cm");
   ("P7", "178 ~ 212 cm"); ("P8", "212 ~ 246 cm"); ("P9", "246 ~ 280 cm");
   ("P10", "280 ~ 348 cm"); ("P11", "348 ~ 416 cm"); ("P12", "416 cm+");
   ("P13", "Auxiliary param 13"); ("P14", "Auxiliary param 14");
   ("P15", "Auxiliary param 15"); ("P16", "Auxiliary param 16");
   ("P17", "Auxiliary param 17")]%string.

Definition DEFAULT_AUX_VALUES : list (string * Z) :=
  [("P13", 0x00); ("P14", 0x03); ("P15", 0x01); ("P16", 0x00); ("P17", 0x01)]%string.

Definition calculate_bcc (data : bytes) : Z :=
  fold_left (fun bcc byte => Z.lxor bcc byte) data 0.

Definition create_query_command (probe_num : Z) : result bytes :=
  match lookup probe_num PROBE_PARAMS with
  | None => Raise ValueError
  | Some param =>
      let bcc := Z.lxor (Z.lxor ADDR_CODE CMD_CODE) param in
      mk_bytes [ADDR_CODE; CMD_CODE; param; bcc]
  end.

Definition validate_response (response : bytes) (expected_probe_num : Z) : result bool :=
  if negb (len response =? EXPECTED_RESPONSE_LENGTH) then Ok false
  else if negb (at_ response 0 =? ADDR_CODE) || negb (at_ response 1 =? CMD_CODE)
  then Ok false
  else match lookup expected_probe_num PROBE_PARAMS with
       | None => Raise KeyError
       | Some expected_param =>
           if negb (at_ response 2 =? expected_param) then Ok false
           else
             let expected_bcc := calculate_bcc (but_last response) in
             if negb (last_byte response =? expected_bcc) then Ok false
             else Ok true
       end.

(** [table[key]] on the two string-keyed tables; [parse_response] only asks
    for the names P1..P17 (resp. P13..P17), which are all present. *)
Fixpoint item {V} (key : string) (table : list (string * V)) (absent : V) : V :=
  match table with
  | [] => absent
  | (k, v) :: rest => if String.eqb key k then v else item key rest absent
  end.

(** [f'P{i+1}'] *)
Definition p_name_of (i : Z) : string :=
  ("P" ++ DecimalString.NilZero.string_of_uint (N.to_uint (Z.to_N (i + 1))))%string.

Record main_entry : Type := MainEntry {
  main_value : Z; main_hex : string; main_range : string }.

Record aux_entry : Type := AuxEntry {
  aux_value : Z; aux_hex : string; aux_description : string;
  aux_default : string; aux_is_default : bool }.

Record probe_data : Type := ProbeData {
  probe_num : Z;
  probe_id : string;
  main_phase_params : list (string * main_entry);
  auxiliary_params : list (string * aux_entry);
  bcc : string;
  raw_response : string
}.

Definition parse_response (response : bytes) (probe : Z) : probe_data :=
  let p_values := slice response 3 20 in
  {| probe_num := probe;
     probe_id := "0x" ++ hex02 (at_ response 2);
     main_phase_params :=
       map (fun i =>
              let p_name := p_name_of i in
              let v := at_ p_values (Z.to_nat i) in
              (p_name, MainEntry v ("0x" ++ hex02 v) (item p_name P_DESCRIPTIONS "")))
           (range 12);
     auxiliary_params :=
       map (fun i =>
              let p_name := p_name_of i in
              let v := at_ p_values (Z.to_nat i) in
              let d := item p_name DEFAULT_AUX_VALUES 0 in
              (p_name, AuxEntry v ("0x" ++ hex02 v) (item p_name P_DESCRIPTIONS "")
                                ("0x" ++ hex02 d) (Z.eqb v d)))
           (map (fun i => 12 + i) (range 5));
     bcc := "0x" ++ hex02 (at_ response 20);
     raw_response := String.concat " " (map hex02 response) |}%string.

Section WithPort.
Context {port : Type} `{Serial port}.
Local Open Scope io_scope.

(** One pass through the body of the retry loop of [query_probe]; unlike the
    energy reader, the exception handler also waits before the next attempt. *)
Definition query_attempt (probe : Z) (command : bytes) (max_retries attempt : Z)
  : M port (flow (option probe_data)) :=
  try_except
    (reset_input_buffer ;;
     bytes_sent <- write command ;;
     flush ;;
     if negb (bytes_sent =? len command) then ret Next
     else
       sleep (100 + attempt * 50) ;;
       response <- read EXPECTED_RESPONSE_LENGTH ;;
       valid <- (if len response =? EXPECTED_RESPONSE_LENGTH
                 then lift (validate_response response probe)
                 else ret false) ;;
       if valid then ret (Return (Some (parse_response response probe)))
       else
         (if attempt <? max_retries - 1 then sleep 200 else ret tt) ;;
         ret Next)
    (fun _ =>
       (if attempt <? max_retries - 1 then sleep 200 else ret tt) ;;
       ret Next).

Definition query_probe (probe : Z) (max_retries : Z) : M port (option probe_data) :=
  command <- lift (create_query_command probe) ;;
  for_each (query_attempt probe command max_retries) (range max_retries) (ret None).

(** The loop of [read_all_probes] over the probe numbers still to query. *)
Fixpoint read_each (probes : list Z) (results : list probe_data) (failed_probes : list Z)
  : M port (list probe_data) :=
  match probes with
  | [] => ret results
  | probe_num :: rest =>
      result <- query_probe probe_num 3 ;;
      let results' := match result with
                      | Some r => results ++ [r]
                      | None => results
                      end in
      let failed_probes' := match result with
                            | Some _ => failed_probes
                            | None => failed_probes ++ [probe_num]
                            end in
      sleep 100 ;;
      read_each rest results' failed_probes'
  end.

Definition read_all_probes : M port (list probe_data) :=
  read_each (range_from 1 10) [] [].

End WithPort.
End PGet.


(** ** ks236_energy_set.py *)
Module EnergySet.

Definition ADDR_CODE : Z := 0xE8.
Definition CMD_CODE : Z := 0x99.

Definition PROBE_TEMP_PARAMS : list (Z * Z) :=
  [(1, 0xB1); (2, 0xB2); (3, 0xB3); (4, 0xB4); (5, 0xB5); (6, 0xB6);
   (7, 0xB7); (8, 0xB8); (9, 0xB9); (10, 0xBA); (11, 0xBB); (12, 0xBC)].

Definition PROBE_PERM_PARAMS : list (Z * Z) :=
  [(1, 0x71); (2, 0x72); (3, 0x73); (4, 0x74); (5, 0x75); (6, 0x76);
   (7, 0x77); (8, 0x78); (9, 0x79); (10, 0x7A); (11, 0x7B); (12, 0x7C)].

Definition PROBE_QUERY_PARAMS : list (Z * Z) :=
  [(1, 0xD1); (2, 0xD2); (3, 0xD3); (4, 0xD4); (5, 0xD5); (6, 0xD6);
   (7, 0xD7); (8, 0xD8); (9, 0xD9); (10, 0xDA); (11, 0xDB); (12, 0xDC)].

(** The keys of [RANGE_NAMES]; a Python float is a rational here. *)
Definition RANGE_NAMES : list Q := [5 # 2; 3 # 2; 13 # 2]%Q.

Definition FIXED_PARAMS : Z * Z := (0x2C, 0x40).

Definition calculate_bcc (data : bytes) : Z :=
  fold_left (fun bcc byte => Z.lxor bcc byte) data 0.

(** The dictionary returned by [read_probe_params], with its nine keys. *)
Record params : Type := Params {
  energy1 : Z; time1 : Z; threshold1 : Z;
  energy2 : Z; time2 : Z; threshold2 : Z;
  energy3 : Z; time3 : Z; threshold3 : Z
}.

(** [range_m in self.RANGE_NAMES] *)
Definition in_range_names (range_m : Q) : bool :=
  existsb (fun k => Qeq_bool range_m k) RANGE_NAMES.

(** [0 <= v <= hi] *)
Definition within (v hi : Z) : bool := (0 <=? v) && (v <=? hi).

(** The frame built by [set_probe_params] from the parameter code and the
    nine values: [command + bytes([bcc])]. *)
Definition full_command (param1 energy1 time1 threshold1 energy2 time2 threshold2
                         energy3 time3 threshold3 : Z) : result bytes :=
  match mk_bytes [ADDR_CODE; CMD_CODE; param1;
                  energy1; time1; threshold1;
                  energy2; time2; threshold2;
                  energy3; time3; threshold3;
                  fst FIXED_PARAMS; snd FIXED_PARAMS] with
  | Raise e => Raise e
  | Ok command =>
      let bcc := calculate_bcc command in
      match mk_bytes [bcc] with
      | Raise e => Raise e
      | Ok tail => Ok (command ++ tail)
      end
  end.

(** [d['energy1'] = v] and its eight siblings. *)
Definition with_energy1 (v : Z) (d : params) : params :=
  Params v (time1 d) (threshold1 d) (energy2 d) (time2 d) (threshold2 d)
         (energy3 d) (time3 d) (threshold3 d).
Definition with_time1 (v : Z) (d : params) : params :=
  Params (energy1 d) v (threshold1 d) (energy2 d) (time2 d) (threshold2 d)
         (energy3 d) (time3 d) (threshold3 d).
Definition with_threshold1 (v : Z) (d : params) : params :=
  Params (energy1 d) (time1 d) v (energy2 d) (time2 d) (threshold2 d)
         (energy3 d) (time3 d) (threshold3 d).
Definition with_energy2 (v : Z) (d : params) : params :=
  Params (energy1 d) (time1 d) (threshold1 d) v (time2 d) (threshold2 d)
         (energy3 d) (time3 d) (threshold3 d).
Definition with_time2 (v : Z) (d : params) : params :=
  Params (energy1 d) (time1 d) (threshold1 d) (energy2 d) v (threshold2 d)
         (energy3 d) (time3 d) (threshold3 d).
Definition with_threshold2 (v : Z) (d : params) : params :=
  Params (energy1 d) (time1 d) (threshold1 d) (energy2 d) (time2 d) v
         (energy3 d) (time3 d) (threshold3 d).
Definition with_energy3 (v : Z) (d : params) : params :=
  Params (energy1 d) (time1 d) (threshold1 d) (energy2 d) (time2 d) (threshold2 d)
         v (time3 d) (threshold3 d).
Definition with_time3 (v : Z) (d : params) : params :=
  Params (energy1 d) (time1 d) (threshold1 d) (energy2 d) (time2 d) (threshold2 d)
         (energy3 d) v (threshold3 d).
Definition with_threshold3 (v : Z) (d : params) : params :=
  Params (energy1 d) (time1 d) (threshold1 d) (energy2 d) (time2 d) (threshold2 d)
         (energy3 d) (time3 d) v.

(** [if v is not None: d = set v d] *)
Definition when_given (v : option Z) (set : Z -> params -> params) (d : params) : params :=
  match v with
  | Some x => set x d
  | None => d
  end.

(** The new parameters prepared by [set_range_energy]: a copy of [current]
    with the fields of the named range overwritten. *)
Definition overlay (current : params) (range_m : Q) (energy : Z)
           (time_val threshold : option Z) : params :=
  let new_params := current in
  if Qeq_bool range_m (5 # 2) then
    when_given threshold with_threshold1
      (when_given time_val with_time1 (with_energy1 energy new_params))
  else if Qeq_bool range_m (3 # 2) then
    when_given threshold with_threshold2
      (when_given time_val with_time2 (with_energy2 energy new_params))
  else if Qeq_bool range_m (13 # 2) then
    when_given threshold with_threshold3
      (when_given time_val with_time3 (with_energy3 energy new_params))
  else new_params.

(** The check [set_range_energy] makes on the re-read parameters. *)
Definition change_applied (range_m : Q) (energy : Z) (updated : params) : bool :=
  if Qeq_bool range_m (5 # 2) && (energy1 updated =? energy) then true
  else if Qeq_bool range_m (3 # 2) && (energy2 updated =? energy) then true
  else if Qeq_bool range_m (13 # 2) && (energy3 updated =? energy) then true
  else false.

Section WithPort.
Context {port : Type} `{Serial port}.
Local Open Scope io_scope.

Definition read_probe_params (probe_num : Z) : M port (option params) :=
  match lookup probe_num PROBE_QUERY_PARAMS with
  | None => ret None
  | Some param =>
      let bcc := Z.lxor (Z.lxor ADDR_CODE CMD_CODE) param in
      command <- lift (mk_bytes [ADDR_CODE; CMD_CODE; param; bcc]) ;;
      try_except
        (reset_input_buffer ;;
         write command ;;
         flush ;;
         sleep 200 ;;
         response <- read 15 ;;
         if (len response =? 15)
            && ((at_ response 0 =? ADDR_CODE) && (at_ response 1 =? CMD_CODE))
         then ret (Some (Params (at_ response 3) (at_ response 4) (at_ response 5)
                                (at_ response 6) (at_ response 7) (at_ response 8)
                                (at_ response 9) (at_ response 10) (at_ response 11)))
         else ret None)
        (fun _ => ret None)
  end.

(** One pass through the body of the retry loop of [set_probe_params]. *)
Definition set_attempt (command : bytes) (max_retries attempt : Z) : M port (flow bool) :=
  try_except
    (reset_input_buffer ;;
     bytes_sent <- write command ;;
     flush ;;
     if negb (bytes_sent =? len command) then ret Next
     else
       sleep 500 ;;
       response <- read 5 ;;
       let retry :=
         ((if attempt <? max_retries - 1 then sleep 300 else ret tt) ;; ret Next) in
       if len response >=? 5 then
         if (at_ response 0 =? ADDR_CODE) && (at_ response 1 =? CMD_CODE) then
           let status := at_ response 3 in
           if status =? 0x00 then ret (Return true)
           else if status =? 0x02 then ret (Return false)
           else if status =? 0xFF then ret (Return false)
           else retry
         else retry
       else retry)
    (fun _ =>
       (if attempt <? max_retries - 1 then sleep 300 else ret tt) ;;
       ret Next).

Definition set_probe_params (probe_num : Z)
           (energy1 time1 threshold1 energy2 time2 threshold2
            energy3 time3 threshold3 : Z)
           (permanent : bool) (max_retries : Z) : M port bool :=
  match lookup probe_num PROBE_TEMP_PARAMS with
  | None => ret false
  | Some _ =>
      if negb (within energy1 7 && within energy2 7 && within energy3 7)
      then ret false
      else if negb (within time1 7 && within time2 7 && within time3 7)
      then ret false
      else if negb (within threshold1 3 && within threshold2 3 && within threshold3 3)
      then ret false
      else
        let probe_params := if permanent then PROBE_PERM_PARAMS else PROBE_TEMP_PARAMS in
        param1 <- lift (match lookup probe_num probe_params with
                        | Some c => Ok c
                        | None => Raise KeyError
                        end) ;;
        command <- lift (full_command param1 energy1 time1 threshold1
                                      energy2 time2 threshold2
                                      energy3 time3 threshold3) ;;
        for_each (set_attempt command max_retries) (range max_retries) (ret false)
  end.

(** The tail of [set_range_energy]: what follows the call of
    [set_probe_params], whose result is [success]. *)
Definition verify_range_energy (probe_num : Z) (range_m : Q) (energy : Z)
           (success verify : bool) : M port bool :=
  if success && verify then
    sleep 500 ;;
    updated <- read_probe_params probe_num ;;
    match updated with
    | Some updated => ret (change_applied range_m energy updated)
    | None => ret success
    end
  else ret success.

Definition set_range_energy (probe_num : Z) (range_m : Q) (energy : Z)
           (time_val threshold : option Z) (permanent verify : bool) : M port bool :=
  if negb (in_range_names range_m) then ret false
  else
    current <- read_probe_params probe_num ;;
    match current with
    | None => ret false
    | Some current =>
        let new_params := overlay current range_m energy time_val threshold in
        success <- set_probe_params probe_num
                     (energy1 new_params) (time1 new_params) (threshold1 new_params)
                     (energy2 new_params) (time2 new_params) (threshold2 new_params)
                     (energy3 new_params) (time3 new_params) (threshold3 new_params)
                     permanent 3 ;;
        verify_range_energy probe_num range_m energy success verify
    end.

End WithPort.
End EnergySet.


(** ** ks236_p_set.py *)
Module PSet.

Definition ADDR_CODE : Z := 0xE8.
Definition CMD_CODE : Z := 0x99.

Definition PROBE_TEMP_PARAMS : list (Z * Z) :=
  [(1, 0xC1); (2, 0xC2); (3, 0xC3); (4, 0xC4); (5, 0xC5);
   (6, 0xC6); (7, 0xC7); (8, 0xC8); (9, 0xC9)].

Definition PROBE_PERM_PARAMS : list (Z * Z) :=
  [(1, 0x81); (2, 0x82); (3, 0x83); (4, 0x84); (5, 0x85);
   (6, 0x86); (7, 0x87); (8, 0x88); (9, 0x89)].

Definition PROBE_QUERY_PARAMS : list (Z * Z) :=
  [(1, 0xE1); (2, 0xE2); (3, 0xE3); (4, 0xE4); (5, 0xE5);
   (6, 0xE6); (7, 0xE7); (8, 0xE8); (9, 0xE9)].

Definition P_DESCRIPTIONS : list (string * string) :=
  [("P1", "22.5 ~ 42.5 cm"); ("P2", "42.5 ~ 59.5 cm"); ("P3", "59.5 ~ 76.5 cm");
   ("P4", "76.5 ~ 110 cm"); ("P5", "110 ~ 144 cm"); ("P6", "144 ~ 178 cm");
   ("P7", "178 ~ 212 cm"); ("P8", "212 ~ 246 cm"); ("P9", "246 ~ 280 cm");
   ("P10", "280 ~ 348 cm"); ("P11", "348 ~ 416 cm"); ("P12", "416 cm+");
   ("P13", "Auxiliary param 13"); ("P14", "Auxiliary param 14");
   ("P15", "Auxiliary param 15"); ("P16", "Auxiliary param 16");
   ("P17", "Auxiliary param 17")]%string.

Record preset : Type := Preset {
  preset_name : string; preset_description : string; preset_values : list Z }.

Definition BEAM_PRESETS : list (string * preset) :=
  [("narrow",
    Preset "Narrow Beam (50°x16°)" "Maximum range, narrow field of view"
           [31; 31; 31; 30; 26; 21; 16; 16; 13; 0; 0; 0; 0; 3; 1; 0; 1]);
   ("medium",
    Preset "Medium Beam (90°x44°)" "Balanced range and coverage"
           [24; 24; 23; 21; 18; 13; 10; 10; 6; 0; 0; 0; 0; 3; 1; 0; 1]);
   ("wide",
    Preset "Wide Beam (100°x50°)" "Good coverage, moderate range"
           [15; 15; 15; 15; 10; 10; 5; 5; 0; 0; 0; 0; 0; 3; 1; 0; 1]);
   ("ultra_wide",
    Preset "Ultra Wide Beam (135°x64°)" "Maximum coverage, shorter range"
           [10; 10; 7; 7; 6; 3; 2; 0; 0; 0; 0; 0; 0; 3; 1; 0; 1]);
   ("default",
    Preset "Default Configuration" "Factory default P values"
           [19; 19; 19; 31; 31; 31; 31; 31; 31; 31; 31; 31; 0; 3; 1; 0; 1])]%string.

Definition calculate_bcc (data : bytes) : Z :=
  fold_left (fun bcc byte => Z.lxor bcc byte) data 0.

(** [key in table] / [table[key]] for the string-keyed tables *)
Fixpoint find_key {V} (key : string) (table : list (string * V)) : option V :=
  match table with
  | [] => None
  | (k, v) :: rest => if String.eqb key k then Some v else find_key key rest
  end.

(** [int(s)] on a string of ASCII decimal digits, [None] standing for
    ValueError.  It is only applied to the tail of a key of
    [P_DESCRIPTIONS]. *)
Definition digit_val (c : ascii) : option Z :=
  let n := Z.of_nat (nat_of_ascii c) in
  if (48 <=? n) && (n <=? 57) then Some (n - 48) else None.

Fixpoint int_acc (s : string) (acc : Z) : option Z :=
  match s with
  | EmptyString => Some acc
  | String c rest =>
      match digit_val c with
      | Some d => int_acc rest (10 * acc + d)
      | None => None
      end
  end.

Definition int_of (s : string) : option Z :=
  match s with
  | EmptyString => None
  | _ => int_acc s 0
  end.

(** [s[1:]] *)
Definition tail_str (s : string) : string :=
  match s with
  | EmptyString => EmptyString
  | String _ rest => rest
  end.

(** [int(p_name[1:]) - 1] *)
Definition p_index_of (p_name : string) : result Z :=
  match int_of (tail_str p_name) with
  | Some n => Ok (n - 1)
  | None => Raise ValueError
  end.

(** [l[i] = v] for an index inside the list (the caller has checked
    [0 <= i <= 16] on a list of 17 values). *)
Fixpoint assign (l : list Z) (i : nat) (v : Z) : list Z :=
  match l, i with
  | [], _ => []
  | _ :: rest, O => v :: rest
  | x :: rest, S j => x :: assign rest j v
  end.

(** The frame built by [set_probe_p_values]: [command + bytes([bcc])]. *)
Definition full_command (param1 : Z) (p_values : list Z) : result bytes :=
  match mk_bytes ([ADDR_CODE; CMD_CODE; param1] ++ p_values) with
  | Raise e => Raise e
  | Ok command =>
      let bcc := calculate_bcc command in
      match mk_bytes [bcc] with
      | Raise e => Raise e
      | Ok tail => Ok (command ++ tail)
      end
  end.

(** The update loop of [set_individual_p_values], starting from the copy
    [new_values]: [Ok None] is its [return False], [Ok (Some l)] the list it
    leaves in [new_values]. *)
Fixpoint apply_updates (new_values : list Z) (p_updates : list (string * Z))
  : result (option (list Z)) :=
  match p_updates with
  | [] => Ok (Some new_values)
  | (p_name, p_value) :: rest =>
      match find_key p_name P_DESCRIPTIONS with
      | None => Ok None
      | Some _ =>
          match p_index_of p_name with
          | Raise e => Raise e
          | Ok p_index =>
              if negb ((0 <=? p_index) && (p_index <=? 16)) then Ok None
              else if negb ((0 <=? p_value) && (p_value <=? 31)) then Ok None
              else apply_updates (assign new_values (Z.to_nat p_index) p_value) rest
          end
      end
  end.

(** The verification loop of [set_individual_p_values]: the final value of
    [all_correct]. *)
Fixpoint all_correct (updated_values : list Z) (p_updates : list (string * Z))
  : result bool :=
  match p_updates with
  | [] => Ok true
  | (p_name, expected_value) :: rest =>
      match p_index_of p_name with
      | Raise e => Raise e
      | Ok p_index =>
          let actual_value := at_ updated_values (Z.to_nat p_index) in
          match all_correct updated_values rest with
          | Raise e => Raise e
          | Ok others => Ok (if negb (actual_value =? expected_value) then false else others)
          end
      end
  end.

(** [a == b] on lists of integers *)
Definition list_eqb (a b : list Z) : bool :=
  if list_eq_dec Z.eq_dec a b then true else false.

(** [load_profile_from_file].  [document] stands for what [open] and
    [json.load] produce, as far as this method looks at it: [Raise] when
    anything on the way raises, [Ok None] when the object has no member
    'p_values', [Ok (Some l)] when that member is the array of integers
    [l]. *)
Definition load_profile_from_file (document : result (option (list Z)))
  : option (list Z) :=
  match document with
  | Raise _ => None
  | Ok None => None
  | Ok (Some p_values) =>
      if len p_values =? 17 then
        if forallb (fun p_val => (0 <=? p_val) && (p_val <=? 31)) p_values
        then Some p_values
        else None
      else None
  end.

Section WithPort.
Context {port : Type} `{Serial port}.
Local Open Scope io_scope.

Definition read_probe_p_values (probe_num : Z) : M port (option (list Z)) :=
  match lookup probe_num PROBE_QUERY_PARAMS with
  | None => ret None
  | Some param =>
      let bcc := Z.lxor (Z.lxor ADDR_CODE CMD_CODE) param in
      command <- lift (mk_bytes [ADDR_CODE; CMD_CODE; param; bcc]) ;;
      try_except
        (reset_input_buffer ;;
         write command ;;
         flush ;;
         sleep 200 ;;
         response <- read 21 ;;
         if (len response =? 21)
            && ((at_ response 0 =? ADDR_CODE) && (at_ response 1 =? CMD_CODE))
            && (at_ response 20 =? calculate_bcc (but_last response))
         then ret (Some (slice response 3 20))
         else ret None)
        (fun _ => ret None)
  end.

(** One pass through the body of the retry loop of [set_probe_p_values]. *)
Definition set_attempt (command : bytes) (max_retries attempt : Z) : M port (flow bool) :=
  try_except
    (reset_input_buffer ;;
     bytes_sent <- write command ;;
     flush ;;
     if negb (bytes_sent =? len command) then ret Next
     else
       sleep 500 ;;
       response <- read 5 ;;
       let retry :=
         ((if attempt <? max_retries - 1 then sleep 300 else ret tt) ;; ret Next) in
       if len response >=? 5 then
         if (at_ response 0 =? ADDR_CODE) && (at_ response 1 =? CMD_CODE) then
           let status := at_ response 3 in
           if status =? 0x00 then ret (Return true)
           else if status =? 0x02 then ret (Return false)
           else if status =? 0xFF then ret (Return false)
           else retry
         else retry
       else retry)
    (fun _ =>
       (if attempt <? max_retries - 1 then sleep 300 else ret tt) ;;
       ret Next).

Definition set_probe_p_values (probe_num : Z) (p_values : list Z)
           (permanent : bool) (max_retries : Z) : M port bool :=
  match lookup probe_num PROBE_TEMP_PARAMS with
  | None => ret false
  | Some _ =>
      if negb (len p_values =? 17) then ret false
      else if negb (forallb (fun p_val => (0 <=? p_val) && (p_val <=? 31)) p_values)
      then ret false
      else
        let probe_params := if permanent then PROBE_PERM_PARAMS else PROBE_TEMP_PARAMS in
        param1 <- lift (match lookup probe_num probe_params with
                        | Some c => Ok c
                        | None => Raise KeyError
                        end) ;;
        command <- lift (full_command param1 p_values) ;;
        for_each (set_attempt command max_retries) (range max_retries) (ret false)
  end.

(** The tail of [set_individual_p_values]: what follows the call of
    [set_probe_p_values], whose result is [success]. *)
Definition verify_updates (probe_num : Z) (p_updates : list (string * Z))
           (success verify : bool) : M port bool :=
  if success && verify then
    sleep 500 ;;
    updated_values <- read_probe_p_values probe_num ;;
    match updated_values with
    | Some (u :: us) =>
        ok <- lift (all_correct (u :: us) p_updates) ;;
        if ok then ret true else ret false
    | _ => ret success
    end
  else ret success.

Definition set_individual_p_values (probe_num : Z) (p_updates : list (string * Z))
           (permanent verify : bool) : M port bool :=
  current_values <- read_probe_p_values probe_num ;;
  match current_values with
  | Some (v :: vs) =>
      new_values <- lift (apply_updates (v :: vs) p_updates) ;;
      match new_values with
      | None => ret false
      | Some new_values =>
          success <- set_probe_p_values probe_num new_values permanent 3 ;;
          verify_updates probe_num p_updates success verify
      end
  | _ => ret false
  end.

(** The tail of [apply_preset]: what follows the call of
    [set_probe_p_values], whose result is [success]. *)
Definition verify_preset (probe_num : Z) (values : list Z)
           (success verify : bool) : M port bool :=
  if success && verify then
    sleep 500 ;;
    updated_values <- read_probe_p_values probe_num ;;
    match updated_values with
    | Some (u :: us) =>
        if list_eqb (u :: us) values then ret true else ret false
    | _ => ret success
    end
  else ret success.

Definition apply_preset (probe_num : Z) (name : string)
           (permanent verify : bool) : M port bool :=
  match find_key name BEAM_PRESETS with
  | None => ret false
  | Some preset =>
      success <- set_probe_p_values probe_num (preset_values preset) permanent 3 ;;
      verify_preset probe_num (preset_values preset) success verify
  end.

(** The branch of [main] that loads a profile from a file and applies it;
    its result is the final value of [success]. *)
Definition main_apply_profile (probe : Z) (document : result (option (list Z)))
           (permanent verify : bool) : M port bool :=
  match load_profile_from_file document with
  | Some (v :: vs) =>
      let p_values := v :: vs in
      success <- set_probe_p_values probe p_values permanent 3 ;;
      if success && verify then
        sleep 500 ;;
        updated <- read_probe_p_values probe ;;
        match updated with
        | Some u => if list_eqb u p_values then ret success else ret false
        | None => ret false
        end
      else ret success
  | _ => ret false
  end.

End WithPort.
End PSet.


(** ** Specification-side notions *)

(** The XOR-fold of a sequence of at least one byte, in the words of the
    specification: the first byte, combined left to right with every
    following byte.  (The value on the empty sequence is a convention.) *)
Definition xor_fold (seq : list Z) : Z :=
  match seq with
  | [] => 0
  | b :: rest => fold_left Z.lxor rest b
  end.

(** The value a partial update asks for in one field: the given one, or the
    current one when none is given. *)
Definition requested (given : option Z) (current : Z) : Z :=
  match given with
  | Some v => v
  | None => current
  end.

(** A full-length acknowledgement with a correct header whose status byte is
    none of 0x00, 0x02, 0xFF. *)
Definition unknown_status (reply : bytes) : Prop :=
  5 <= len reply /\ at_ reply 0 = 0xE8 /\ at_ reply 1 = 0x99 /\
  at_ reply 3 <> 0x00 /\ at_ reply 3 <> 0x02 /\ at_ reply 3 <> 0xFF.

(** An acknowledgement that is a communication failure: absent or short, or
    with a wrong header. *)
Definition communication_failure (reply : bytes) : Prop :=
  len reply < 5 \/ at_ reply 0 <> 0xE8 \/ at_ reply 1 <> 0x99.

(** The passes of a loop over [attempts] lead from [w] to [w'] and none of
    them returns or raises: each one falls through to the next. *)
Fixpoint passed_over {port A} (body : Z -> M port (flow A)) (attempts : list Z)
         (w w' : world port) : Prop :=
  match attempts with
  | [] => w' = w
  | a :: rest => exists w1, body a w = (Ok Next, w1) /\ passed_over body rest w1 w'
  end.

(** The sequence [l] with the element at position [i] replaced by [v]. *)
Fixpoint replace_at (l : list Z) (i : nat) (v : Z) : list Z :=
  match l, i with
  | [], _ => []
  | _ :: rest, O => v :: rest
  | x :: rest, S j => x :: replace_at rest j v
  end.

(** The entries that a sweep appends to its result list, given the outcome
    of each query in turn: the outcomes that are not [None], in order. *)
Definition answered {A} (outcomes : list (option A)) : list A :=
  flat_map (fun o => match o with Some d => [d] | None => [] end) outcomes.

(** ** Observations on a run *)

(** From [w0] to [w], [n] attempts were made and the only bytes written are
    copies of [command], at most one per attempt. *)
Definition sent_only {port} (command : bytes) (w0 : world port) (n : Z)
           (w : world port) : Prop :=
  attempts_in (log w) = attempts_in (log w0) + n /\
  exists j : nat, Z.of_nat j <= n /\
                  written (log w) = written (log w0) ++ repeat command j.


(** The world once [time.sleep(ms / 1000)] has returned. *)
Definition after_sleep {port} (ms : Z) (w : world port) : world port :=
  World (dev w) (log w ++ [EvSleep ms]).

(** A sweep over [probes] leads from [w] to [w']: the probes are queried one
    after the other in the order of the list, each query is followed by a
    pause of 100 ms, no query raises, and [outcomes] holds what the queries
    returned, in that order. *)
Fixpoint swept {port A} (query : Z -> M port (option A)) (probes : list Z)
         (outcomes : list (option A)) (w w' : world port) : Prop :=
  match probes, outcomes with
  | [], [] => w' = w
  | probe :: rest, o :: others =>
      exists w1, query probe w = (Ok o, w1) /\
                 swept query rest others (after_sleep 100 w1) w'
  | _, _ => False
  end.

(** From [w0] to [w], [n] more attempts were made, and [n] more writes when
    the port lets [reset_input_buffer] through. *)
Definition counted {port} `{Serial port} (w0 : world port) (n : Z) (w : world port) : Prop :=
  attempts_in (log w) = attempts_in (log w0) + n /\
  ((forall p, fst (dev_reset_input_buffer p) = Ok tt) ->
   writes_in (log w) = writes_in (log w0) + n).

(** One full exchange on the port from state [p]: it lets
    [reset_input_buffer], the write of [command] (in full) and [flush]
    through, and answers the read of [n] bytes with [reply]. *)
Definition exchange {port} `{Serial port} (p : port) (command : bytes) (n : Z)
           (reply : bytes) (p' : port) : Prop :=
  exists p1 p2 p3,
    dev_reset_input_buffer p = (Ok tt, p1) /\
    dev_write command p1 = (Ok (len command), p2) /\
    dev_flush p2 = (Ok tt, p3) /\
    dev_read n p3 = (Ok reply, p').

(** The calls of one attempt of a write that reads its acknowledgement. *)
Definition one_write_attempt (command : bytes) : list event :=
  [EvReset; EvWrite command; EvFlush; EvSleep 500; EvRead 5].

(** ** Replies used in the examples *)

(** A body followed by its BCC. *)
Definition framed_reply (body : bytes) : bytes := body ++ [xor_fold body].

(** The scenario frame of the specification: fourteen bytes and their BCC. *)
Definition scenario_body : bytes :=
  [0xE8; 0x99; 0xD3; 0x02; 0x02; 0x02; 0x01; 0x00; 0x02; 0x05; 0x06; 0x02; 0x2C; 0x40].

Definition scenario_frame : bytes := framed_reply scenario_body.

(** Probe 1 reporting the energy profile 3/2/2, 1/0/2, 5/6/2. *)
Definition energy_reply : bytes :=
  framed_reply [0xE8; 0x99; 0xD1; 3; 2; 2; 1; 0; 2; 5; 6; 2; 0x2C; 0x40].

(** Probe 1 reporting a profile whose second-range time has drifted to 7
    while the first-range energy is 4. *)
Definition drifted_reply : bytes :=
  framed_reply [0xE8; 0x99; 0xD1; 4; 2; 2; 1; 7; 2; 5; 6; 2; 0x2C; 0x40].

(** A 15-byte reply to the energy query of probe 1 with a correct header and
    a last byte that is not the XOR of the others. *)
Definition corrupted_reply : bytes :=
  [0xE8; 0x99; 0xD1; 7; 7; 3; 7; 7; 3; 7; 7; 3; 0x2C; 0x40; 0x00].

(** Probe 1 reporting the factory P-values. *)
Definition p_reply : bytes :=
  framed_reply ([0xE8; 0x99; 0xE1]
                  ++ [19; 19; 19; 31; 31; 31; 31; 31; 31; 31; 31; 31; 0; 3; 1; 0; 1]).

(** Probe 1 reporting the factory P-values with P1 = 15 and P3 = 20. *)
Definition updated_p_reply : bytes :=
  framed_reply ([0xE8; 0x99; 0xE1]
                  ++ [15; 19; 20; 31; 31; 31; 31; 31; 31; 31; 31; 31; 0; 3; 1; 0; 1]).

(** Probe 1 reporting the values of the narrow-beam preset. *)
Definition narrow_reply : bytes :=
  framed_reply ([0xE8; 0x99; 0xE1]
                  ++ [31; 31; 31; 30; 26; 21; 16; 16; 13; 0; 0; 0; 0; 3; 1; 0; 1]).

(** A 21-byte reply to the P-value query of probe 1 with a correct header
    and a last byte that is not the XOR of the others. *)
Definition corrupted_p_reply : bytes :=
  [0xE8; 0x99; 0xE1] ++ [19; 19; 19; 31; 31; 31; 31; 31; 31; 31; 31; 31; 0; 3; 1; 0; 1]
    ++ [0x00].

(** Acknowledgements of a write with the given status byte. *)
Definition ack (status : Z) : bytes := framed_reply [0xE8; 0x99; 0xB1; status].


(** * Properties *)

(** ** Bytes and checksums *)

Lemma is_byte_iff (b : Z) : is_byte b = true <-> 0 <= b < 256.
Proof. unfold is_byte. rewrite andb_true_iff, Z.leb_le, Z.ltb_lt. tauto. Qed.

Lemma lxor_is_byte (a b : Z) :
  is_byte a = true -> is_byte b = true -> is_byte (Z.lxor a b) = true.
Proof.
  rewrite !is_byte_iff. intros [Ha Ha'] [Hb Hb'].
  assert (Hx : 0 <= Z.lxor a b) by (apply Z.lxor_nonneg; tauto).
  split; [exact Hx|].
  destruct (Z.eq_dec (Z.lxor a b) 0) as [E|E]; [rewrite E; lia|].
  apply (Z.log2_lt_pow2 _ 8); [lia|].
  assert (La : Z.log2 a < 8).
  { destruct (Z.eq_dec a 0) as [->|]; [reflexivity|]. apply Z.log2_lt_pow2; lia. }
  assert (Lb : Z.log2 b < 8).
  { destruct (Z.eq_dec b 0) as [->|]; [reflexivity|]. apply Z.log2_lt_pow2; lia. }
  pose proof (Z.log2_lxor a b Ha Hb). lia.
Qed.

Lemma fold_lxor_is_byte (l : list Z) :
  forall acc, is_byte acc = true -> forallb is_byte l = true ->
              is_byte (fold_left (fun bcc byte => Z.lxor bcc byte) l acc) = true.
Proof.
  induction l as [|x l IH]; intros acc Hacc Hl; simpl in *; [exact Hacc|].
  apply andb_true_iff in Hl as [Hx Hl].
  apply IH; [apply lxor_is_byte; assumption | exact Hl].
Qed.

Lemma bcc_is_xor_fold (l : list Z) :
  fold_left (fun bcc byte => Z.lxor bcc byte) l 0 = xor_fold l.
Proof. destruct l as [|b rest]; simpl; [reflexivity|]. reflexivity. Qed.

Lemma mk_bytes_ok (l : list Z) (b : bytes) : mk_bytes l = Ok b -> b = l.
Proof. unfold mk_bytes. destruct (forallb is_byte l); congruence. Qed.

Lemma len_app {A} (l l' : list A) : len (l ++ l') = len l + len l'.
Proof. unfold len. rewrite length_app. lia. Qed.

Lemma last_byte_snoc (l : list Z) (b : Z) : last_byte (l ++ [b]) = b.
Proof. unfold last_byte. apply last_last. Qed.

Lemma but_last_snoc (l : list Z) (b : Z) : but_last (l ++ [b]) = l.
Proof. unfold but_last. apply removelast_last. Qed.

(** A frame made of a body and the checksum of the body. *)
Lemma framed (body : list Z) :
  last_byte (body ++ [fold_left (fun bcc byte => Z.lxor bcc byte) body 0])
  = xor_fold (but_last (body ++ [fold_left (fun bcc byte => Z.lxor bcc byte) body 0])).
Proof. rewrite last_byte_snoc, but_last_snoc. apply bcc_is_xor_fold. Qed.

(** C8: the checksum function is the left-to-right XOR-fold of its argument,
    for every sequence of at least one byte, and every frame the scripts
    build (the 4-byte query, the 15-byte energy write and the 21-byte P-value
    write) ends with the XOR of all the bytes before it. *)
Theorem C8_checksum_and_frames :
  (forall seq : bytes, 1 <= len seq ->
     EnergyGet.calculate_bcc seq = xor_fold seq /\
     PGet.calculate_bcc seq = xor_fold seq /\
     EnergySet.calculate_bcc seq = xor_fold seq /\
     PSet.calculate_bcc seq = xor_fold seq)
  /\ (forall probe frame, EnergyGet.create_query_command probe = Ok frame ->
        len frame = 4 /\ last_byte frame = xor_fold (but_last frame))
  /\ (forall probe frame, PGet.create_query_command probe = Ok frame ->
        len frame = 4 /\ last_byte frame = xor_fold (but_last frame))
  /\ (forall param1 e1 t1 th1 e2 t2 th2 e3 t3 th3 frame,
        EnergySet.full_command param1 e1 t1 th1 e2 t2 th2 e3 t3 th3 = Ok frame ->
        len frame = 15 /\ last_byte frame = xor_fold (but_last frame))
  /\ (forall param1 p_values frame,
        len p_values = 17 ->
        PSet.full_command param1 p_values = Ok frame ->
        len frame = 21 /\ last_byte frame = xor_fold (but_last frame)).
Proof.
  split; [|split; [|split; [|split]]].
  - intros seq _. repeat split; apply bcc_is_xor_fold.
  - intros probe frame. unfold EnergyGet.create_query_command.
    destruct (lookup probe EnergyGet.PROBE_PARAMS) as [param|]; [|discriminate].
    intros E. apply mk_bytes_ok in E. subst frame. split; [reflexivity|].
    unfold last_byte, but_last, xor_fold. simpl. reflexivity.
  - intros probe frame. unfold PGet.create_query_command.
    destruct (lookup probe PGet.PROBE_PARAMS) as [param|]; [|discriminate].
    intros E. apply mk_bytes_ok in E. subst frame. split; [reflexivity|].
    unfold last_byte, but_last, xor_fold. simpl. reflexivity.
  - intros param1 e1 t1 th1 e2 t2 th2 e3 t3 th3 frame.
    unfold EnergySet.full_command.
    destruct (mk_bytes _) as [command|] eqn:Ec; [|discriminate].
    destruct (mk_bytes [EnergySet.calculate_bcc command]) as [tail|] eqn:Et; [|discriminate].
    intros E. injection E as <-.
    apply mk_bytes_ok in Ec, Et. subst tail.
    split; [rewrite len_app; subst command; reflexivity|].
    apply framed.
  - intros param1 p_values frame Hlen.
    unfold PSet.full_command.
    destruct (mk_bytes _) as [command|] eqn:Ec; [|discriminate].
    destruct (mk_bytes [PSet.calculate_bcc command]) as [tail|] eqn:Et; [|discriminate].
    intros E. injection E as <-.
    apply mk_bytes_ok in Ec, Et. subst tail.
    split; [|apply framed].
    subst command. rewrite !len_app, Hlen. reflexivity.
Qed.

Lemma C8_checksum_and_frames_witness :
  (1 <= len [0xE8; 0x99; 0xD3]
   /\ EnergyGet.calculate_bcc [0xE8; 0x99; 0xD3] = xor_fold [0xE8; 0x99; 0xD3])
  /\ (EnergyGet.create_query_command 3 = Ok [0xE8; 0x99; 0xD3; 0xA2]
      /\ last_byte [0xE8; 0x99; 0xD3; 0xA2] = xor_fold (but_last [0xE8; 0x99; 0xD3; 0xA2]))
  /\ (PGet.create_query_command 3 = Ok [0xE8; 0x99; 0xE3; 0x92]
      /\ last_byte [0xE8; 0x99; 0xE3; 0x92] = xor_fold (but_last [0xE8; 0x99; 0xE3; 0x92]))
  /\ (EnergySet.full_command 0xB3 2 2 2 1 0 2 5 6 2
      = Ok [0xE8; 0x99; 0xB3; 2; 2; 2; 1; 0; 2; 5; 6; 2; 0x2C; 0x40; 0xAE]
      /\ len [0xE8; 0x99; 0xB3; 2; 2; 2; 1; 0; 2; 5; 6; 2; 0x2C; 0x40; 0xAE] = 15)
  /\ (len [31; 31; 31; 30; 26; 21; 16; 16; 13; 0; 0; 0; 0; 3; 1; 0; 1] = 17
      /\ PSet.full_command 0xC1 [31; 31; 31; 30; 26; 21; 16; 16; 13; 0; 0; 0; 0; 3; 1; 0; 1]
         = Ok [0xE8; 0x99; 0xC1; 31; 31; 31; 30; 26; 21; 16; 16; 13; 0; 0; 0; 0; 3; 1; 0; 1; 0xB0]
      /\ len [0xE8; 0x99; 0xC1; 31; 31; 31; 30; 26; 21; 16; 16; 13; 0; 0; 0; 0; 3; 1; 0; 1; 0xB0] = 21).
Proof.
  destruct C8_checksum_and_frames as (Hbcc & Hq & Hpq & He & Hp).
  split; [|split; [|split; [|split]]].
  - split; [unfold len; simpl; lia|]. apply (Hbcc [0xE8; 0x99; 0xD3]). unfold len; simpl; lia.
  - split; [reflexivity|]. apply (Hq 3). reflexivity.
  - split; [reflexivity|]. apply (Hpq 3). reflexivity.
  - split; [reflexivity|]. apply (He 0xB3 2 2 2 1 0 2 5 6 2). reflexivity.
  - split; [reflexivity|]. split; [reflexivity|].
    apply (Hp 0xC1 [31; 31; 31; 30; 26; 21; 16; 16; 13; 0; 0; 0; 0; 3; 1; 0; 1]);
      reflexivity.
Defined.

(** ** The response classifier *)

Lemma energy_get_domain (probe : Z) :
  1 <= probe <= 9 -> lookup probe EnergyGet.PROBE_PARAMS = Some (0xD0 + probe).
Proof.
  intros Hp.
  assert (Hc : probe = 1 \/ probe = 2 \/ probe = 3 \/ probe = 4 \/ probe = 5 \/
               probe = 6 \/ probe = 7 \/ probe = 8 \/ probe = 9) by lia.
  repeat (destruct Hc as [-> | Hc]; [reflexivity|]). subst; reflexivity.
Qed.

Lemma p_get_domain (probe : Z) :
  1 <= probe <= 9 -> lookup probe PGet.PROBE_PARAMS = Some (0xE0 + probe).
Proof.
  intros Hp.
  assert (Hc : probe = 1 \/ probe = 2 \/ probe = 3 \/ probe = 4 \/ probe = 5 \/
               probe = 6 \/ probe = 7 \/ probe = 8 \/ probe = 9) by lia.
  repeat (destruct Hc as [-> | Hc]; [reflexivity|]). subst; reflexivity.
Qed.

(** Boolean tests of the classifier, read as propositions. *)
Ltac bool_to_prop :=
  repeat match goal with
         | H : negb _ = true |- _ => apply negb_true_iff in H
         | H : negb _ = false |- _ => apply negb_false_iff in H
         | H : (_ || _)%bool = false |- _ => apply orb_false_iff in H; destruct H
         | H : (_ || _)%bool = true |- _ => apply orb_true_iff in H
         | H : (_ && _)%bool = true |- _ => apply andb_true_iff in H; destruct H
         | H : (_ && _)%bool = false |- _ => apply andb_false_iff in H
         | H : (_ =? _) = true |- _ => apply Z.eqb_eq in H
         | H : (_ =? _) = false |- _ => apply Z.eqb_neq in H
         | H : (_ <=? _) = true |- _ => apply Z.leb_le in H
         | H : (_ <=? _) = false |- _ => apply Z.leb_gt in H
         | H : (_ <? _) = true |- _ => apply Z.ltb_lt in H
         | H : (_ <? _) = false |- _ => apply Z.ltb_ge in H
         | H : (_ >=? _) = true |- _ => rewrite Z.geb_leb in H
         | H : (_ >=? _) = false |- _ => rewrite Z.geb_leb in H
         end.

(** The shape of a response the classifier accepts, for a table entry
    [param] and an expected length. *)
Lemma energy_validate_spec (response : bytes) (probe param : Z) :
  lookup probe EnergyGet.PROBE_PARAMS = Some param ->
  exists b, EnergyGet.validate_response response probe = Ok b /\
    (b = true <->
       len response = 15 /\ at_ response 0 = 0xE8 /\ at_ response 1 = 0x99 /\
       at_ response 2 = param /\ last_byte response = xor_fold (but_last response)).
Proof.
  intros Hl. unfold EnergyGet.validate_response. rewrite Hl.
  unfold EnergyGet.calculate_bcc, EnergyGet.EXPECTED_RESPONSE_LENGTH,
    EnergyGet.ADDR_CODE, EnergyGet.CMD_CODE.
  rewrite bcc_is_xor_fold.
  destruct (negb (len response =? 15)) eqn:E1;
    [eexists; split; [reflexivity|]; bool_to_prop; split; [discriminate|tauto]|].
  destruct (negb (at_ response 0 =? 232) || negb (at_ response 1 =? 153))%bool eqn:E2;
    [eexists; split; [reflexivity|]; bool_to_prop;
     split; [discriminate|]; intros (_ & ? & ? & _); destruct E2; bool_to_prop; lia|].
  destruct (negb (at_ response 2 =? param)) eqn:E3;
    [eexists; split; [reflexivity|]; bool_to_prop; split; [discriminate|tauto]|].
  destruct (negb (last_byte response =? xor_fold (but_last response))) eqn:E4;
    [eexists; split; [reflexivity|]; bool_to_prop; split; [discriminate|tauto]|].
  eexists; split; [reflexivity|]. bool_to_prop. tauto.
Qed.

Lemma p_validate_spec (response : bytes) (probe param : Z) :
  lookup probe PGet.PROBE_PARAMS = Some param ->
  exists b, PGet.validate_response response probe = Ok b /\
    (b = true <->
       len response = 21 /\ at_ response 0 = 0xE8 /\ at_ response 1 = 0x99 /\
       at_ response 2 = param /\ last_byte response = xor_fold (but_last response)).
Proof.
  intros Hl. unfold PGet.validate_response. rewrite Hl.
  unfold PGet.calculate_bcc, PGet.EXPECTED_RESPONSE_LENGTH,
    PGet.ADDR_CODE, PGet.CMD_CODE.
  rewrite bcc_is_xor_fold.
  destruct (negb (len response =? 21)) eqn:E1;
    [eexists; split; [reflexivity|]; bool_to_prop; split; [discriminate|tauto]|].
  destruct (negb (at_ response 0 =? 232) || negb (at_ response 1 =? 153))%bool eqn:E2;
    [eexists; split; [reflexivity|]; bool_to_prop;
     split; [discriminate|]; intros (_ & ? & ? & _); destruct E2; bool_to_prop; lia|].
  destruct (negb (at_ response 2 =? param)) eqn:E3;
    [eexists; split; [reflexivity|]; bool_to_prop; split; [discriminate|tauto]|].
  destruct (negb (last_byte response =? xor_fold (but_last response))) eqn:E4;
    [eexists; split; [reflexivity|]; bool_to_prop; split; [discriminate|tauto]|].
  eexists; split; [reflexivity|]. bool_to_prop. tauto.
Qed.

(** C1: for a probe number of the query table and any byte sequence, the
    classifier of either reader answers, and it answers [True] exactly when
    the length is the expected one (15 for energy, 21 for P-values), the
    address byte is 0xE8, the command byte is 0x99, the third byte is the
    parameter code of the requested probe, and the last byte is the XOR of
    all the bytes before it; every other response is rejected. *)
Theorem C1_classifier_accepts_iff_well_formed :
  forall (probe : Z) (response : bytes),
    1 <= probe <= 9 ->
    (exists b, EnergyGet.validate_response response probe = Ok b /\
       (b = true <->
          len response = 15 /\ at_ response 0 = 0xE8 /\ at_ response 1 = 0x99 /\
          lookup probe EnergyGet.PROBE_PARAMS = Some (at_ response 2) /\
          last_byte response = xor_fold (but_last response)))
    /\
    (exists b, PGet.validate_response response probe = Ok b /\
       (b = true <->
          len response = 21 /\ at_ response 0 = 0xE8 /\ at_ response 1 = 0x99 /\
          lookup probe PGet.PROBE_PARAMS = Some (at_ response 2) /\
          last_byte response = xor_fold (but_last response))).
Proof.
  intros probe response Hp. split.
  - destruct (energy_validate_spec response probe _ (energy_get_domain probe Hp))
      as (b & Hb & Hiff).
    exists b. split; [exact Hb|]. rewrite Hiff, (energy_get_domain probe Hp).
    split; intros (H1 & H2 & H3 & H4 & H5); repeat split; try assumption; congruence.
  - destruct (p_validate_spec response probe _ (p_get_domain probe Hp))
      as (b & Hb & Hiff).
    exists b. split; [exact Hb|]. rewrite Hiff, (p_get_domain probe Hp).
    split; intros (H1 & H2 & H3 & H4 & H5); repeat split; try assumption; congruence.
Qed.

Lemma C1_classifier_accepts_iff_well_formed_witness :
  1 <= 3 <= 9 /\
  (exists b, EnergyGet.validate_response scenario_frame 3 = Ok b /\
     (b = true <->
        len scenario_frame = 15 /\ at_ scenario_frame 0 = 0xE8 /\
        at_ scenario_frame 1 = 0x99 /\
        lookup 3 EnergyGet.PROBE_PARAMS = Some (at_ scenario_frame 2) /\
        last_byte scenario_frame = xor_fold (but_last scenario_frame))).
Proof.
  split; [lia|].
  apply (C1_classifier_accepts_iff_well_formed 3 scenario_frame); lia.
Defined.

(** C9: the 15-byte frame E8 99 D3 02 02 02 01 00 02 05 06 02 2C 40 followed
    by the XOR of those fourteen bytes is accepted for probe 3 and parses to
    the ranges {2,2,2}, {1,0,2} and {5,6,2}; a query of probe 3 against a
    port that answers with that frame returns that parsed result. *)
Theorem C9_scenario_probe_3 :
  EnergyGet.validate_response scenario_frame 3 = Ok true /\
  (let parsed := EnergyGet.parse_response scenario_frame 3 in
   EnergyGet.range_2_5m parsed = EnergyGet.RangeParams 2 2 2 /\
   EnergyGet.range_1_5m parsed = EnergyGet.RangeParams 1 0 2 /\
   EnergyGet.range_6_5m parsed = EnergyGet.RangeParams 5 6 2 /\
   fst (EnergyGet.query_probe 3 3 (boot (Replay [scenario_frame] [])))
   = Ok (Some parsed)).
Proof. repeat split; vm_compute; reflexivity. Qed.

(** ** Retry loops *)

Lemma attempts_in_snoc (l : list event) (e : event) :
  attempts_in (l ++ [e]) = attempts_in l + (if is_reset e then 1 else 0).
Proof.
  unfold attempts_in, len. rewrite filter_app, length_app. simpl.
  destruct (is_reset e); simpl; lia.
Qed.

Lemma writes_in_snoc (l : list event) (e : event) :
  writes_in (l ++ [e]) = writes_in l + (if is_write e then 1 else 0).
Proof.
  unfold writes_in, len. rewrite filter_app, length_app. simpl.
  destruct (is_write e); simpl; lia.
Qed.

Lemma len_range (n : Z) : 0 <= n -> len (range n) = n.
Proof.
  intros Hn. unfold len, range. rewrite length_map, length_seq. lia.
Qed.

Lemma len_cons {A} (x : A) (l : list A) : len (x :: l) = 1 + len l.
Proof. unfold len. simpl List.length. lia. Qed.

(** A loop whose every pass ends in [Next] runs all its passes and then the
    code after the loop; an invariant indexed by the number of passes follows
    it. *)
Lemma for_each_exhausts {port A} (body : Z -> M port (flow A)) (after : M port A)
      (P : Z -> world port -> Prop) :
  (forall a w n, P n w -> exists w', body a w = (Ok Next, w') /\ P (n + 1) w') ->
  forall attempts w n, P n w ->
    exists w', for_each body attempts after w = after w' /\ P (n + len attempts) w'.
Proof.
  intros Hbody attempts. induction attempts as [|a rest IH]; intros w n Hn.
  - exists w. split; [reflexivity|]. unfold len; simpl. now rewrite Z.add_0_r.
  - destruct (Hbody a w n Hn) as (w1 & E1 & H1).
    destruct (IH w1 (n + 1) H1) as (w2 & E2 & H2).
    exists w2. split.
    + simpl. rewrite E1. exact E2.
    + rewrite len_cons. now replace (n + (1 + len rest)) with (n + 1 + len rest) by lia.
Qed.

(** A loop whose first pass returns stops there. *)
Lemma for_each_returns {port A} (body : Z -> M port (flow A)) (after : M port A)
      (a : Z) (rest : list Z) (w w' : world port) (r : A) :
  body a w = (Ok (Return r), w') ->
  for_each body (a :: rest) after w = (Ok r, w').
Proof. intros E. simpl. now rewrite E. Qed.

(** Passes that fall through leave the rest of the loop to run. *)
Lemma for_each_after_passes {port A} (body : Z -> M port (flow A)) (after : M port A)
      (done rest : list Z) :
  forall w w1 : world port,
    passed_over body done w w1 ->
    for_each body (done ++ rest) after w = for_each body rest after w1.
Proof.
  induction done as [|a done IH]; intros w w1 Hp; simpl in *.
  - now subst w1.
  - destruct Hp as (w2 & E & Hp). rewrite E. now apply IH.
Qed.

Lemma passed_over_snoc {port A} (body : Z -> M port (flow A)) (done : list Z) (a : Z) :
  forall w w1 w2 : world port,
    passed_over body done w w1 ->
    body a w1 = (Ok Next, w2) ->
    passed_over body (done ++ [a]) w w2.
Proof.
  induction done as [|b done IH]; intros w w1 w2 Hp E; simpl in *.
  - subst w1. now exists w2.
  - destruct Hp as (w3 & E3 & Hp). exists w3. split; [exact E3|]. now apply (IH w3 w1).
Qed.

(** A loop that ends without raising either returned from one of its passes,
    after passes that all fell through, or fell through all its passes and
    ended with the code after the loop. *)
Lemma for_each_found {port A} (body : Z -> M port (flow A)) (after : M port A)
      (attempts : list Z) :
  forall (w w' : world port) (r : A),
    for_each body attempts after w = (Ok r, w') ->
    (exists done a rest w1,
        attempts = done ++ a :: rest /\ passed_over body done w w1 /\
        body a w1 = (Ok (Return r), w'))
    \/ (exists w1, passed_over body attempts w w1 /\ after w1 = (Ok r, w')).
Proof.
  induction attempts as [|a rest IH]; intros w w' r E; simpl in E.
  - right. exists w. split; [reflexivity | exact E].
  - destruct (body a w) as [[[|x]|e] w1] eqn:Eb.
    + destruct (IH w1 w' r E) as [(done & b & rest' & w2 & -> & Hp & Er) | (w2 & Hp & Ea)].
      * left. exists (a :: done), b, rest', w2. split; [reflexivity|].
        split; [exists w1; split; [exact Eb | exact Hp] | exact Er].
      * right. exists w2. split; [exists w1; split; [exact Eb | exact Hp] | exact Ea].
    + injection E as <- <-. left. exists [], a, rest, w.
      split; [reflexivity|]. split; [reflexivity | exact Eb].
    + discriminate E.
Qed.

Lemma range_snoc (j : Z) : 0 <= j -> range (j + 1) = range j ++ [j].
Proof.
  intros Hj. unfold range.
  replace (Z.to_nat (j + 1)) with (S (Z.to_nat j)) by lia.
  rewrite seq_S, map_app. cbn [map]. simpl Nat.add. now rewrite Z2Nat.id.
Qed.

Lemma range_split_at (n j : Z) : 0 <= j < n -> exists rest, range n = range j ++ j :: rest.
Proof.
  intros Hj. unfold range.
  replace (Z.to_nat n) with (Z.to_nat j + S (Z.to_nat (n - j - 1)))%nat by lia.
  rewrite seq_app, map_app. cbn [seq map]. simpl Nat.add.
  rewrite Z2Nat.id by lia. now eexists.
Qed.

Lemma seq_prefix (done rest : list nat) (a : nat) :
  forall s n : nat, seq s n = done ++ a :: rest ->
                    (a < s + n)%nat /\ a = (s + List.length done)%nat /\
                    done = seq s (List.length done).
Proof.
  induction done as [|d done IH]; intros s n E.
  - destruct n as [|n]; [discriminate E|]. simpl in E. injection E as <- _.
    simpl. repeat split; lia.
  - destruct n as [|n]; [discriminate E|]. simpl in E. injection E as <- E.
    destruct (IH (S s) n E) as (Hlt & Ha & Hd).
    split; [lia|]. split; [simpl; lia|]. simpl. now rewrite <- Hd.
Qed.

(** The attempt numbers before attempt [a] are 0, ..., [a - 1]. *)
Lemma range_prefix (n : Z) (done rest : list Z) (a : Z) :
  range n = done ++ a :: rest -> 0 <= a < n /\ done = range a.
Proof.
  unfold range. intros E.
  apply map_eq_app in E as (done' & tail' & Es & <- & Et).
  apply map_eq_cons in Et as (a' & rest' & -> & <- & _).
  destruct (seq_prefix done' rest' a' 0 (Z.to_nat n) Es) as (Hlt & Ha & Hd).
  split; [lia|]. rewrite Nat2Z.id.
  simpl in Ha. subst a'. now rewrite <- Hd.
Qed.

(** Case analysis on the outcome of every port call in the goal, in order. *)
Ltac run_port :=
  repeat match goal with
         | |- context [dev_reset_input_buffer ?p] =>
             let E := fresh "Ereset" in
             destruct (dev_reset_input_buffer p) as [[[]|?] ?] eqn:E; cbn
         | |- context [dev_write ?d ?p] =>
             let E := fresh "Ewrite" in
             destruct (dev_write d p) as [[?|?] ?] eqn:E; cbn
         | |- context [dev_flush ?p] =>
             let E := fresh "Eflush" in
             destruct (dev_flush p) as [[[]|?] ?] eqn:E; cbn
         end.

(** Closes a [counted] goal after one more pass: the new log is the old one
    followed by the calls of the pass. *)
Ltac count_log :=
  unfold counted in *; cbn [log dev] in *;
  rewrite ?attempts_in_snoc, ?writes_in_snoc; cbn [is_reset is_write];
  split; [lia | intros Hreset_ok;
                repeat match goal with
                       | E : dev_reset_input_buffer ?p = (Raise _, _) |- _ =>
                           let X := fresh in
                           pose proof (Hreset_ok p) as X; rewrite E in X; discriminate X
                       end;
                match goal with
                | H : _ /\ (_ -> _) |- _ => destruct H as [_ H]; specialize (H Hreset_ok)
                end; lia].

Section SilentPort.
Context {port : Type} `{Serial port}.
Hypothesis silent : forall n p, fst (dev_read n p) = Ok [].

Lemma energy_query_attempt_silent (probe : Z) (command : bytes) (max_retries a : Z)
      (w0 w : world port) (n : Z) :
  counted w0 n w ->
  exists w', EnergyGet.query_attempt probe command max_retries a w = (Ok Next, w')
             /\ counted w0 (n + 1) w'.
Proof.
  intros Hc. unfold EnergyGet.query_attempt, try_except, bind, reset_input_buffer,
    write, flush, read, sleep, call, ret, lift.
  cbn. run_port; try (eexists; split; [reflexivity | count_log]).
  destruct (negb (_ =? len command)); cbn;
    try (eexists; split; [reflexivity | count_log]).
  match goal with |- context [dev_read ?k ?p] =>
    pose proof (silent k p) as Hs; destruct (dev_read k p) as [r q]; cbn in Hs; subst r
  end.
  cbn. destruct (a <? max_retries - 1); cbn;
    eexists; (split; [reflexivity | count_log]).
Qed.

Lemma p_query_attempt_silent (probe : Z) (command : bytes) (max_retries a : Z)
      (w0 w : world port) (n : Z) :
  counted w0 n w ->
  exists w', PGet.query_attempt probe command max_retries a w = (Ok Next, w')
             /\ counted w0 (n + 1) w'.
Proof.
  intros Hc. unfold PGet.query_attempt, try_except, bind, reset_input_buffer,
    write, flush, read, sleep, call, ret, lift.
  cbn. run_port;
    try (destruct (a <? max_retries - 1); cbn;
         eexists; (split; [reflexivity | count_log])).
  destruct (negb (_ =? len command)); cbn;
    try (eexists; split; [reflexivity | count_log]).
  match goal with |- context [dev_read ?k ?p] =>
    pose proof (silent k p) as Hs; destruct (dev_read k p) as [r q]; cbn in Hs; subst r
  end.
  cbn. destruct (a <? max_retries - 1); cbn;
    eexists; (split; [reflexivity | count_log]).
Qed.

End SilentPort.

(** C5: for every probe number of the query tables, a query on a port whose
    reads always come back empty goes through exactly [max_retries] attempts
    (three by default) and then returns [None]; it does not raise, whatever
    the other calls of the port do.  When [reset_input_buffer] does not raise,
    the attempts are also exactly [max_retries] writes. *)
Theorem C5_query_exhausts_retries_and_returns_none :
  forall (port : Type) (S : Serial port) (probe max_retries : Z) (w : world port),
    (forall n p, fst (dev_read n p) = Ok []) ->
    1 <= probe <= 9 ->
    0 <= max_retries ->
    (exists w', EnergyGet.query_probe probe max_retries w = (Ok None, w')
                /\ counted w max_retries w')
    /\
    (exists w', PGet.query_probe probe max_retries w = (Ok None, w')
                /\ counted w max_retries w').
Proof.
  intros port S probe max_retries w Hsilent Hprobe Hmax.
  assert (H0 : counted w 0 w) by (unfold counted; split; intros; lia).
  split.
  - unfold EnergyGet.query_probe, EnergyGet.create_query_command, bind, lift.
    rewrite (energy_get_domain probe Hprobe).
    assert (Hb : exists c, mk_bytes [EnergyGet.ADDR_CODE; EnergyGet.CMD_CODE; 208 + probe;
                   Z.lxor (Z.lxor EnergyGet.ADDR_CODE EnergyGet.CMD_CODE) (208 + probe)]
                 = Ok c).
    { assert (Hc : probe = 1 \/ probe = 2 \/ probe = 3 \/ probe = 4 \/ probe = 5 \/
                   probe = 6 \/ probe = 7 \/ probe = 8 \/ probe = 9) by lia.
      repeat (destruct Hc as [-> | Hc]; [eexists; reflexivity|]).
      subst; eexists; reflexivity. }
    destruct Hb as (c & ->).
    destruct (for_each_exhausts (EnergyGet.query_attempt probe c max_retries)
                (ret None) (counted w)
                (fun a w1 n => energy_query_attempt_silent Hsilent probe c max_retries a w w1 n)
                (range max_retries) w 0 H0) as (w' & E & Hc).
    exists w'. rewrite E. split; [reflexivity|].
    now rewrite (len_range _ Hmax), Z.add_0_l in Hc.
  - unfold PGet.query_probe, PGet.create_query_command, bind, lift.
    rewrite (p_get_domain probe Hprobe).
    assert (Hb : exists c, mk_bytes [PGet.ADDR_CODE; PGet.CMD_CODE; 224 + probe;
                   Z.lxor (Z.lxor PGet.ADDR_CODE PGet.CMD_CODE) (224 + probe)]
                 = Ok c).
    { assert (Hc : probe = 1 \/ probe = 2 \/ probe = 3 \/ probe = 4 \/ probe = 5 \/
                   probe = 6 \/ probe = 7 \/ probe = 8 \/ probe = 9) by lia.
      repeat (destruct Hc as [-> | Hc]; [eexists; reflexivity|]).
      subst; eexists; reflexivity. }
    destruct Hb as (c & ->).
    destruct (for_each_exhausts (PGet.query_attempt probe c max_retries)
                (ret None) (counted w)
                (fun a w1 n => p_query_attempt_silent Hsilent probe c max_retries a w w1 n)
                (range max_retries) w 0 H0) as (w' & E & Hc).
    exists w'. rewrite E. split; [reflexivity|].
    now rewrite (len_range _ Hmax), Z.add_0_l in Hc.
Qed.

Lemma C5_query_exhausts_retries_and_returns_none_witness :
  (forall n (p : mute), fst (dev_read n p) = Ok []) /\
  1 <= 3 <= 9 /\ 0 <= 3 /\
  (exists w', EnergyGet.query_probe 3 3 (boot Mute) = (Ok None, w')
              /\ counted (boot Mute) 3 w') /\
  (exists w', PGet.query_probe 3 3 (boot Mute) = (Ok None, w')
              /\ counted (boot Mute) 3 w').
Proof.
  split; [reflexivity|]. split; [lia|]. split; [lia|].
  apply (C5_query_exhausts_retries_and_returns_none mute mute_serial 3 3 (boot Mute));
    [reflexivity | lia | lia].
Defined.

(** ** Validation before any I/O *)

Lemma within_iff (v hi : Z) : EnergySet.within v hi = true <-> 0 <= v <= hi.
Proof. unfold EnergySet.within. rewrite andb_true_iff, !Z.leb_le. tauto. Qed.

(** ** Partial updates *)

Lemma find_key_in {V} (key : string) (table : list (string * V)) (v : V) :
  PSet.find_key key table = Some v -> In key (map fst table).
Proof.
  induction table as [|[k x] rest IH]; simpl; [discriminate|].
  destruct (String.eqb_spec key k) as [->|]; intros E; [now left|].
  right. now apply IH.
Qed.

Lemma in_find_key {V} (key : string) (table : list (string * V)) :
  In key (map fst table) -> exists v, PSet.find_key key table = Some v.
Proof.
  induction table as [|[k x] rest IH]; simpl; [tauto|].
  destruct (String.eqb_spec key k) as [->|Hne]; intros Hin; [now eexists|].
  destruct Hin as [E|Hin]; [congruence|]. now apply IH.
Qed.

(** The index computed from a key of [P_DESCRIPTIONS] is the position of
    the key in the table. *)
Lemma p_index_of_key (name : string) :
  In name (map fst PSet.P_DESCRIPTIONS) ->
  exists i, PSet.p_index_of name = Ok i /\ 0 <= i <= 16 /\
            nth (Z.to_nat i) (map fst PSet.P_DESCRIPTIONS) EmptyString = name.
Proof.
  simpl. intros Hin.
  repeat (destruct Hin as [<- | Hin];
          [eexists; split; [vm_compute; reflexivity | split; [lia | reflexivity]]|]).
  contradiction.
Qed.

Lemma p_index_of_inj (n1 n2 : string) (i : Z) :
  In n1 (map fst PSet.P_DESCRIPTIONS) -> In n2 (map fst PSet.P_DESCRIPTIONS) ->
  PSet.p_index_of n1 = Ok i -> PSet.p_index_of n2 = Ok i -> n1 = n2.
Proof.
  intros H1 H2 E1 E2.
  destruct (p_index_of_key n1 H1) as (i1 & F1 & _ & N1).
  destruct (p_index_of_key n2 H2) as (i2 & F2 & _ & N2).
  congruence.
Qed.

Lemma assign_length (l : list Z) : forall i v, List.length (PSet.assign l i v) = List.length l.
Proof.
  induction l as [|x l IH]; intros [|j] v; simpl; try reflexivity. now rewrite IH.
Qed.

Lemma assign_same (l : list Z) :
  forall i v, (i < List.length l)%nat -> at_ (PSet.assign l i v) i = v.
Proof.
  unfold at_. induction l as [|x l IH]; intros [|j] v Hi; simpl in *; try lia.
  apply IH. lia.
Qed.

Lemma assign_other (l : list Z) :
  forall i j v, i <> j -> at_ (PSet.assign l i v) j = at_ l j.
Proof.
  unfold at_. induction l as [|x l IH]; intros [|i] [|j] v Hij; simpl;
    try reflexivity; try congruence.
  apply IH. congruence.
Qed.

(** The update loop runs to its end on valid updates. *)
Lemma apply_updates_total (p_updates : list (string * Z)) :
  (forall name v, In (name, v) p_updates ->
                  In name (map fst PSet.P_DESCRIPTIONS) /\ 0 <= v <= 31) ->
  forall current, exists new_values,
      PSet.apply_updates current p_updates = Ok (Some new_values).
Proof.
  induction p_updates as [|[name v] rest IH]; intros Hvalid current; cbn [PSet.apply_updates].
  - now eexists.
  - destruct (Hvalid name v (or_introl eq_refl)) as [Hname Hv].
    destruct (in_find_key name PSet.P_DESCRIPTIONS Hname) as (d & ->).
    destruct (p_index_of_key name Hname) as (i & -> & Hi & _).
    replace ((0 <=? i) && (i <=? 16))%bool with true
      by (symmetry; apply andb_true_iff; split; apply Z.leb_le; lia).
    replace ((0 <=? v) && (v <=? 31))%bool with true
      by (symmetry; apply andb_true_iff; split; apply Z.leb_le; lia).
    cbn [negb]. apply IH. intros n x Hin. apply Hvalid. now right.
Qed.

(** What the update loop leaves behind: the list keeps its length, every
    position that no update names keeps its value, and (the keys of a
    dictionary being distinct) every named position holds the value asked
    for. *)
Lemma apply_updates_spec (p_updates : list (string * Z)) :
  NoDup (map fst p_updates) ->
  (forall name v, In (name, v) p_updates ->
                  In name (map fst PSet.P_DESCRIPTIONS) /\ 0 <= v <= 31) ->
  forall current new_values,
    len current = 17 ->
    PSet.apply_updates current p_updates = Ok (Some new_values) ->
    len new_values = 17 /\
    (forall name v, In (name, v) p_updates ->
        exists i, PSet.p_index_of name = Ok i /\ 0 <= i <= 16 /\
                  at_ new_values (Z.to_nat i) = v) /\
    (forall j, (forall name v, In (name, v) p_updates ->
                               PSet.p_index_of name <> Ok (Z.of_nat j)) ->
               at_ new_values j = at_ current j).
Proof.
  induction p_updates as [|[name v] rest IH]; intros Hnd Hvalid current new_values Hlen;
    cbn [PSet.apply_updates].
  - intros E. injection E as <-. repeat split; [exact Hlen | contradiction].
  - destruct (Hvalid name v (or_introl eq_refl)) as [Hname Hv].
    destruct (in_find_key name PSet.P_DESCRIPTIONS Hname) as (d & ->).
    destruct (p_index_of_key name Hname) as (i & Ei & Hi & _). rewrite Ei.
    replace ((0 <=? i) && (i <=? 16))%bool with true
      by (symmetry; apply andb_true_iff; split; apply Z.leb_le; lia).
    replace ((0 <=? v) && (v <=? 31))%bool with true
      by (symmetry; apply andb_true_iff; split; apply Z.leb_le; lia).
    cbn [negb]. intros E.
    inversion Hnd as [|? ? Hnotin Hnd']; subst.
    assert (Hvalid' : forall n x, In (n, x) rest ->
                                  In n (map fst PSet.P_DESCRIPTIONS) /\ 0 <= x <= 31)
      by (intros n x Hin; apply Hvalid; now right).
    assert (Hlen' : len (PSet.assign current (Z.to_nat i) v) = 17)
      by (unfold len in *; now rewrite assign_length).
    destruct (IH Hnd' Hvalid' _ _ Hlen' E) as (Hl & Hset & Hkeep).
    split; [exact Hl|]. split.
    + intros n x [Hhead | Hin].
      * injection Hhead as <- <-. exists i. split; [exact Ei|]. split; [exact Hi|].
        rewrite Hkeep.
        -- apply assign_same. unfold len in Hlen. lia.
        -- intros n x Hin Ex. rewrite Z2Nat.id in Ex by lia.
           destruct (Hvalid' n x Hin) as [Hn _].
           apply Hnotin. rewrite (p_index_of_inj name n i Hname Hn Ei Ex).
           change n with (fst (n, x)). now apply in_map.
      * now apply Hset.
    + intros j Hj. rewrite Hkeep by (intros n x Hin; apply (Hj n x); now right).
      apply assign_other. intros Eij.
      apply (Hj name v (or_introl eq_refl)). rewrite Ei, <- Eij, Z2Nat.id by lia.
      reflexivity.
Qed.

(** A range that passes the membership test is one of the three keys. *)
Lemma range_names_cases (range_m : Q) :
  EnergySet.in_range_names range_m = true ->
  Qeq_bool range_m (5 # 2) = true \/ Qeq_bool range_m (3 # 2) = true
  \/ Qeq_bool range_m (13 # 2) = true.
Proof.
  unfold EnergySet.in_range_names, EnergySet.RANGE_NAMES. simpl.
  rewrite !orb_true_iff. intros [?|[?|[?|?]]]; auto; discriminate.
Qed.

Lemma range_names_apart (range_m a b : Q) :
  Qeq_bool a b = false -> Qeq_bool range_m a = true -> Qeq_bool range_m b = false.
Proof.
  intros Hab Ha. destruct (Qeq_bool range_m b) eqn:Hb; [|reflexivity].
  apply Qeq_bool_iff in Ha, Hb.
  assert (Hq : Qeq a b) by (rewrite <- Ha; exact Hb).
  apply Qeq_bool_iff in Hq. congruence.
Qed.

(** What [read_probe_p_values] returns, when it returns something, is a list
    of seventeen values. *)
Lemma p_read_gives_17 {port} `{Serial port} (probe : Z) (w0 w1 : world port)
      (current : list Z) :
  PSet.read_probe_p_values probe w0 = (Ok (Some current), w1) -> len current = 17.
Proof.
  unfold PSet.read_probe_p_values.
  destruct (lookup probe PSet.PROBE_QUERY_PARAMS) as [param|];
    [|unfold ret; congruence].
  unfold bind, lift, try_except, reset_input_buffer, write, flush, read, sleep, call, ret.
  destruct (mk_bytes _) as [command|]; [|congruence].
  cbn. run_port; try congruence.
  match goal with |- context [dev_read ?k ?p] =>
    destruct (dev_read k p) as [[response|?] ?]; cbn; try congruence
  end.
  destruct (len response =? 21) eqn:El; cbn; [|congruence].
  destruct (_ && _)%bool; cbn; [|congruence].
  intros E. injection E as <- _.
  apply Z.eqb_eq in El. unfold len, slice in *.
  rewrite length_firstn, length_skipn. lia.
Qed.

(** C6: in a partial update, the profile handed to the write engine is the
    profile just read with exactly the requested fields replaced.  Energy:
    the energy of the named range, and its time and threshold only when they
    are given; all the other fields keep the value read.  P-values: every
    named position holds the requested value and every other position keeps
    the value read. *)
Theorem C6_partial_update_overlay :
  (forall (port : Type) (S : Serial port) (probe : Z) (permanent verify : bool)
          (w0 w1 : world port) (range_m : Q) (energy : Z)
          (time_val threshold : option Z) (current : EnergySet.params),
      EnergySet.in_range_names range_m = true ->
      EnergySet.read_probe_params probe w0 = (Ok (Some current), w1) ->
      exists new_params : EnergySet.params,
        EnergySet.set_range_energy probe range_m energy time_val threshold
                                   permanent verify w0
        = (success <- EnergySet.set_probe_params probe
                        (EnergySet.energy1 new_params) (EnergySet.time1 new_params)
                        (EnergySet.threshold1 new_params)
                        (EnergySet.energy2 new_params) (EnergySet.time2 new_params)
                        (EnergySet.threshold2 new_params)
                        (EnergySet.energy3 new_params) (EnergySet.time3 new_params)
                        (EnergySet.threshold3 new_params)
                        permanent 3 ;;
           EnergySet.verify_range_energy probe range_m energy success verify)%io w1
        /\ (Qeq_bool range_m (5 # 2) = true ->
            new_params
            = EnergySet.Params
                energy (requested time_val (EnergySet.time1 current))
                (requested threshold (EnergySet.threshold1 current))
                (EnergySet.energy2 current) (EnergySet.time2 current)
                (EnergySet.threshold2 current)
                (EnergySet.energy3 current) (EnergySet.time3 current)
                (EnergySet.threshold3 current))
        /\ (Qeq_bool range_m (3 # 2) = true ->
            new_params
            = EnergySet.Params
                (EnergySet.energy1 current) (EnergySet.time1 current)
                (EnergySet.threshold1 current)
                energy (requested time_val (EnergySet.time2 current))
                (requested threshold (EnergySet.threshold2 current))
                (EnergySet.energy3 current) (EnergySet.time3 current)
                (EnergySet.threshold3 current))
        /\ (Qeq_bool range_m (13 # 2) = true ->
            new_params
            = EnergySet.Params
                (EnergySet.energy1 current) (EnergySet.time1 current)
                (EnergySet.threshold1 current)
                (EnergySet.energy2 current) (EnergySet.time2 current)
                (EnergySet.threshold2 current)
                energy (requested time_val (EnergySet.time3 current))
                (requested threshold (EnergySet.threshold3 current)))
        /\ (Qeq_bool range_m (5 # 2) = true \/ Qeq_bool range_m (3 # 2) = true
            \/ Qeq_bool range_m (13 # 2) = true))
  /\
  (forall (port : Type) (S : Serial port) (probe : Z) (permanent verify : bool)
          (w0 w1 : world port) (p_updates : list (string * Z)) (current : list Z),
      NoDup (map fst p_updates) ->
      (forall name v, In (name, v) p_updates ->
                      In name (map fst PSet.P_DESCRIPTIONS) /\ 0 <= v <= 31) ->
      PSet.read_probe_p_values probe w0 = (Ok (Some current), w1) ->
      exists new_values : list Z,
        PSet.set_individual_p_values probe p_updates permanent verify w0
        = (success <- PSet.set_probe_p_values probe new_values permanent 3 ;;
           PSet.verify_updates probe p_updates success verify)%io w1
        /\ len new_values = 17
        /\ (forall name v, In (name, v) p_updates ->
               exists i, PSet.p_index_of name = Ok i /\ 0 <= i <= 16 /\
                         at_ new_values (Z.to_nat i) = v)
        /\ (forall j, (forall name v, In (name, v) p_updates ->
                                      PSet.p_index_of name <> Ok (Z.of_nat j)) ->
                      at_ new_values j = at_ current j)).
Proof.
  split.
  - intros port S probe permanent verify w0 w1 range_m energy time_val threshold
           current Hrange Hread.
    exists (EnergySet.overlay current range_m energy time_val threshold).
    split; [|split; [|split; [|split; [|exact (range_names_cases range_m Hrange)]]]].
    + unfold EnergySet.set_range_energy. rewrite Hrange. cbn [negb].
      unfold bind at 1. rewrite Hread. reflexivity.
    + intros E. unfold EnergySet.overlay. rewrite E.
      destruct time_val, threshold, current; reflexivity.
    + intros E. unfold EnergySet.overlay.
      rewrite (range_names_apart range_m (3 # 2) (5 # 2) eq_refl E), E.
      destruct time_val, threshold, current; reflexivity.
    + intros E. unfold EnergySet.overlay.
      rewrite (range_names_apart range_m (13 # 2) (5 # 2) eq_refl E),
        (range_names_apart range_m (13 # 2) (3 # 2) eq_refl E), E.
      destruct time_val, threshold, current; reflexivity.
  - intros port S probe permanent verify w0 w1 p_updates current Hnd Hvalid Hread.
    pose proof (p_read_gives_17 probe w0 w1 current Hread) as Hlen.
    destruct (apply_updates_total p_updates Hvalid current) as (new_values & Happly).
    exists new_values. split.
    + unfold PSet.set_individual_p_values. unfold bind at 1. rewrite Hread.
      destruct current as [|v vs]; [discriminate Hlen|].
      unfold bind at 1, lift. rewrite Happly. reflexivity.
    + exact (apply_updates_spec p_updates Hnd Hvalid current new_values Hlen Happly).
Qed.

Lemma C6_partial_update_overlay_witness :
  (let w0 := boot (Replay [energy_reply] []) in
   let w1 := snd (EnergySet.read_probe_params 1 w0) in
   EnergySet.in_range_names (5 # 2) = true /\
   EnergySet.read_probe_params 1 w0
   = (Ok (Some (EnergySet.Params 3 2 2 1 0 2 5 6 2)), w1) /\
   exists new_params,
     (Qeq_bool (5 # 2) (5 # 2) = true ->
      new_params = EnergySet.Params 4 2 2 1 0 2 5 6 2))
  /\
  (let w0 := boot (Replay [p_reply] []) in
   let w1 := snd (PSet.read_probe_p_values 1 w0) in
   let p_updates := [("P1", 15); ("P3", 20)]%string in
   NoDup (map fst p_updates) /\
   (forall name v, In (name, v) p_updates ->
                   In name (map fst PSet.P_DESCRIPTIONS) /\ 0 <= v <= 31) /\
   PSet.read_probe_p_values 1 w0
   = (Ok (Some [19; 19; 19; 31; 31; 31; 31; 31; 31; 31; 31; 31; 0; 3; 1; 0; 1]), w1) /\
   exists new_values : list Z, len new_values = 17).
Proof.
  assert (Hnd : NoDup (map fst [("P1", 15); ("P3", 20)]%string)).
  { simpl. constructor; [simpl; intros [E|[]]; discriminate E|].
    constructor; [simpl; tauto | constructor]. }
  assert (Hvalid : forall name v, In (name, v) [("P1", 15); ("P3", 20)]%string ->
                                  In name (map fst PSet.P_DESCRIPTIONS) /\ 0 <= v <= 31).
  { intros name v [E|[E|[]]]; injection E as <- <-; (split; [simpl; tauto | lia]). }
  split.
  - cbv zeta. split; [reflexivity|]. split; [reflexivity|].
    destruct (proj1 C6_partial_update_overlay replay replay_serial 1 false true
                (boot (Replay [energy_reply] []))
                (snd (EnergySet.read_probe_params 1 (boot (Replay [energy_reply] []))))
                (5 # 2)%Q 4 None None (EnergySet.Params 3 2 2 1 0 2 5 6 2))
      as (new_params & _ & H25 & _); [reflexivity | reflexivity |].
    exists new_params. exact H25.
  - cbv zeta. split; [exact Hnd|]. split; [exact Hvalid|]. split; [reflexivity|].
    destruct (proj2 C6_partial_update_overlay replay replay_serial 1 false true
                (boot (Replay [p_reply] []))
                (snd (PSet.read_probe_p_values 1 (boot (Replay [p_reply] []))))
                [("P1", 15); ("P3", 20)]%string
                [19; 19; 19; 31; 31; 31; 31; 31; 31; 31; 31; 31; 0; 3; 1; 0; 1]
                Hnd Hvalid) as (new_values & _ & Hlen & _); [reflexivity|].
    exists new_values. exact Hlen.
Defined.

(** ** Verification after a write *)

Lemma energy_verify_run {port} `{Serial port} (probe : Z) (range_m : Q) (energy : Z)
      (w : world port) :
  EnergySet.verify_range_energy probe range_m energy true true w
  = match EnergySet.read_probe_params probe (after_sleep 500 w) with
    | (Ok (Some updated), w') => (Ok (EnergySet.change_applied range_m energy updated), w')
    | (Ok None, w') => (Ok true, w')
    | (Raise x, w') => (Raise x, w')
    end.
Proof.
  unfold EnergySet.verify_range_energy, bind, sleep, after_sleep, ret. cbn [andb].
  destruct (EnergySet.read_probe_params probe _) as [[[u|]|x] w']; reflexivity.
Qed.

Lemma updates_verify_run {port} `{Serial port} (probe : Z) (p_updates : list (string * Z))
      (w : world port) :
  PSet.verify_updates probe p_updates true true w
  = match PSet.read_probe_p_values probe (after_sleep 500 w) with
    | (Ok (Some (u :: us)), w') =>
        match PSet.all_correct (u :: us) p_updates with
        | Ok ok => (Ok ok, w')
        | Raise x => (Raise x, w')
        end
    | (Ok _, w') => (Ok true, w')
    | (Raise x, w') => (Raise x, w')
    end.
Proof.
  unfold PSet.verify_updates, bind, sleep, after_sleep, ret, lift. cbn [andb].
  destruct (PSet.read_probe_p_values probe _) as [[[[|u us]|]|x] w']; try reflexivity.
  destruct (PSet.all_correct (u :: us) p_updates) as [[|]|x]; reflexivity.
Qed.

Lemma preset_verify_run {port} `{Serial port} (probe : Z) (values : list Z)
      (w : world port) :
  PSet.verify_preset probe values true true w
  = match PSet.read_probe_p_values probe (after_sleep 500 w) with
    | (Ok (Some (u :: us)), w') => (Ok (PSet.list_eqb (u :: us) values), w')
    | (Ok _, w') => (Ok true, w')
    | (Raise x, w') => (Raise x, w')
    end.
Proof.
  unfold PSet.verify_preset, bind, sleep, after_sleep, ret. cbn [andb].
  destruct (PSet.read_probe_p_values probe _) as [[[[|u us]|]|x] w']; try reflexivity.
  destruct (PSet.list_eqb (u :: us) values); reflexivity.
Qed.

Lemma list_eqb_eq (a b : list Z) : PSet.list_eqb a b = true <-> a = b.
Proof.
  unfold PSet.list_eqb. destruct (list_eq_dec Z.eq_dec a b); split; congruence.
Qed.

Lemma change_applied_spec (range_m : Q) (energy : Z) (updated : EnergySet.params) :
  (Qeq_bool range_m (5 # 2) = true ->
   (EnergySet.change_applied range_m energy updated = true
    <-> EnergySet.energy1 updated = energy)) /\
  (Qeq_bool range_m (3 # 2) = true ->
   (EnergySet.change_applied range_m energy updated = true
    <-> EnergySet.energy2 updated = energy)) /\
  (Qeq_bool range_m (13 # 2) = true ->
   (EnergySet.change_applied range_m energy updated = true
    <-> EnergySet.energy3 updated = energy)).
Proof.
  unfold EnergySet.change_applied. split; [|split]; intros E.
  - rewrite E, (range_names_apart range_m (5 # 2) (3 # 2) eq_refl E),
      (range_names_apart range_m (5 # 2) (13 # 2) eq_refl E).
    cbn [andb]. destruct (Z.eqb_spec (EnergySet.energy1 updated) energy);
      split; congruence.
  - rewrite E, (range_names_apart range_m (3 # 2) (5 # 2) eq_refl E),
      (range_names_apart range_m (3 # 2) (13 # 2) eq_refl E).
    cbn [andb]. destruct (Z.eqb_spec (EnergySet.energy2 updated) energy);
      split; congruence.
  - rewrite E, (range_names_apart range_m (13 # 2) (5 # 2) eq_refl E),
      (range_names_apart range_m (13 # 2) (3 # 2) eq_refl E).
    cbn [andb]. destruct (Z.eqb_spec (EnergySet.energy3 updated) energy);
      split; congruence.
Qed.

Lemma apply_updates_valid (p_updates : list (string * Z)) :
  forall current new_values,
    PSet.apply_updates current p_updates = Ok (Some new_values) ->
    forall name v, In (name, v) p_updates ->
                   In name (map fst PSet.P_DESCRIPTIONS) /\ 0 <= v <= 31.
Proof.
  induction p_updates as [|[n x] rest IH]; intros current new_values;
    cbn [PSet.apply_updates]; [intros _ ? ? []|].
  destruct (PSet.find_key n PSet.P_DESCRIPTIONS) as [d|] eqn:Ek; [|discriminate].
  destruct (PSet.p_index_of n) as [i|]; [|discriminate].
  destruct (negb ((0 <=? i) && (i <=? 16))); [discriminate|].
  destruct (negb ((0 <=? x) && (x <=? 31))) eqn:Ex; [discriminate|].
  intros E name v [Hhead | Hin].
  - injection Hhead as <- <-. split; [exact (find_key_in _ _ _ Ek)|].
    bool_to_prop. lia.
  - exact (IH _ _ E name v Hin).
Qed.

(** The verification loop answers on valid keys, and answers [True] exactly
    when every named position of the re-read list holds the value asked for. *)
Lemma all_correct_spec (updated_values : list Z) (p_updates : list (string * Z)) :
  (forall name v, In (name, v) p_updates -> In name (map fst PSet.P_DESCRIPTIONS)) ->
  exists ok, PSet.all_correct updated_values p_updates = Ok ok /\
    (ok = true <->
     forall name v, In (name, v) p_updates ->
       exists i, PSet.p_index_of name = Ok i /\ at_ updated_values (Z.to_nat i) = v).
Proof.
  induction p_updates as [|[n x] rest IH]; intros Hvalid; cbn [PSet.all_correct].
  - exists true. split; [reflexivity|]. split; [intros _ ? ? []|reflexivity].
  - destruct (p_index_of_key n (Hvalid n x (or_introl eq_refl))) as (i & Ei & _ & _).
    rewrite Ei.
    destruct IH as (others & -> & Hiff); [intros name v Hin; apply (Hvalid name v); now right|].
    eexists. split; [reflexivity|].
    destruct (Z.eqb_spec (at_ updated_values (Z.to_nat i)) x) as [Hx|Hx]; cbn [negb].
    + rewrite Hiff. split.
      * intros Hrest name v [Hhead|Hin]; [|now apply Hrest].
        injection Hhead as <- <-. now exists i.
      * intros Hall name v Hin. apply Hall. now right.
    + split; [discriminate|]. intros Hall.
      destruct (Hall n x (or_introl eq_refl)) as (i' & Ei' & Hv). congruence.
Qed.

(** C10: when the write is acknowledged as successful and the verification
    re-read then returns nothing, the energy range update, the update of
    individual P-values and the application of a preset all report success. *)
Theorem C10_unverifiable_write_reports_success :
  (forall (port : Type) (S : Serial port) (probe : Z) (range_m : Q) (energy : Z)
          (time_val threshold : option Z) (permanent : bool)
          (w0 w1 w2 w3 : world port) (current : EnergySet.params),
      EnergySet.in_range_names range_m = true ->
      EnergySet.read_probe_params probe w0 = (Ok (Some current), w1) ->
      (let new_params := EnergySet.overlay current range_m energy time_val threshold in
       EnergySet.set_probe_params probe
         (EnergySet.energy1 new_params) (EnergySet.time1 new_params)
         (EnergySet.threshold1 new_params)
         (EnergySet.energy2 new_params) (EnergySet.time2 new_params)
         (EnergySet.threshold2 new_params)
         (EnergySet.energy3 new_params) (EnergySet.time3 new_params)
         (EnergySet.threshold3 new_params) permanent 3 w1 = (Ok true, w2)) ->
      EnergySet.read_probe_params probe (after_sleep 500 w2) = (Ok None, w3) ->
      EnergySet.set_range_energy probe range_m energy time_val threshold permanent true w0
      = (Ok true, w3))
  /\
  (forall (port : Type) (S : Serial port) (probe : Z) (p_updates : list (string * Z))
          (permanent : bool) (w0 w1 w2 w3 : world port) (current new_values : list Z),
      PSet.read_probe_p_values probe w0 = (Ok (Some current), w1) ->
      PSet.apply_updates current p_updates = Ok (Some new_values) ->
      PSet.set_probe_p_values probe new_values permanent 3 w1 = (Ok true, w2) ->
      PSet.read_probe_p_values probe (after_sleep 500 w2) = (Ok None, w3) ->
      PSet.set_individual_p_values probe p_updates permanent true w0 = (Ok true, w3))
  /\
  (forall (port : Type) (S : Serial port) (probe : Z) (name : string)
          (preset : PSet.preset) (permanent : bool) (w0 w1 w2 : world port),
      PSet.find_key name PSet.BEAM_PRESETS = Some preset ->
      PSet.set_probe_p_values probe (PSet.preset_values preset) permanent 3 w0
      = (Ok true, w1) ->
      PSet.read_probe_p_values probe (after_sleep 500 w1) = (Ok None, w2) ->
      PSet.apply_preset probe name permanent true w0 = (Ok true, w2)).
Proof.
  split; [|split].
  - intros port S probe range_m energy time_val threshold permanent w0 w1 w2 w3 current
           Hrange Hread Hset Hreread.
    unfold EnergySet.set_range_energy. rewrite Hrange. cbn [negb].
    unfold bind at 1. rewrite Hread. cbv zeta in *.
    unfold bind at 1. rewrite Hset.
    now rewrite energy_verify_run, Hreread.
  - intros port S probe p_updates permanent w0 w1 w2 w3 current new_values
           Hread Happly Hset Hreread.
    pose proof (p_read_gives_17 probe w0 w1 current Hread) as Hlen.
    unfold PSet.set_individual_p_values. unfold bind at 1. rewrite Hread.
    destruct current as [|v vs]; [discriminate Hlen|].
    unfold bind at 1, lift. rewrite Happly.
    unfold bind at 1. rewrite Hset.
    now rewrite updates_verify_run, Hreread.
  - intros port S probe name preset permanent w0 w1 w2 Hname Hset Hreread.
    unfold PSet.apply_preset. rewrite Hname.
    unfold bind at 1. rewrite Hset.
    now rewrite preset_verify_run, Hreread.
Qed.

Lemma C10_unverifiable_write_reports_success_witness :
  (let w0 := boot (Replay [energy_reply; ack 0] []) in
   let w1 := snd (EnergySet.read_probe_params 1 w0) in
   let w2 := snd (EnergySet.set_probe_params 1 4 2 2 1 0 2 5 6 2 false 3 w1) in
   let w3 := snd (EnergySet.read_probe_params 1 (after_sleep 500 w2)) in
   EnergySet.in_range_names (5 # 2) = true /\
   EnergySet.read_probe_params 1 w0
   = (Ok (Some (EnergySet.Params 3 2 2 1 0 2 5 6 2)), w1) /\
   EnergySet.set_probe_params 1 4 2 2 1 0 2 5 6 2 false 3 w1 = (Ok true, w2) /\
   EnergySet.read_probe_params 1 (after_sleep 500 w2) = (Ok None, w3) /\
   EnergySet.set_range_energy 1 (5 # 2) 4 None None false true w0 = (Ok true, w3))
  /\
  (let w0 := boot (Replay [p_reply; ack 0] []) in
   let w1 := snd (PSet.read_probe_p_values 1 w0) in
   let current := [19; 19; 19; 31; 31; 31; 31; 31; 31; 31; 31; 31; 0; 3; 1; 0; 1] in
   let new_values := [15; 19; 20; 31; 31; 31; 31; 31; 31; 31; 31; 31; 0; 3; 1; 0; 1] in
   let w2 := snd (PSet.set_probe_p_values 1 new_values false 3 w1) in
   let w3 := snd (PSet.read_probe_p_values 1 (after_sleep 500 w2)) in
   let p_updates := [("P1", 15); ("P3", 20)]%string in
   PSet.read_probe_p_values 1 w0 = (Ok (Some current), w1) /\
   PSet.apply_updates current p_updates = Ok (Some new_values) /\
   PSet.set_probe_p_values 1 new_values false 3 w1 = (Ok true, w2) /\
   PSet.read_probe_p_values 1 (after_sleep 500 w2) = (Ok None, w3) /\
   PSet.set_individual_p_values 1 p_updates false true w0 = (Ok true, w3))
  /\
  (let w0 := boot (Replay [ack 0] []) in
   let narrow := PSet.Preset "Narrow Beam (50°x16°)" "Maximum range, narrow field of view"
                   [31; 31; 31; 30; 26; 21; 16; 16; 13; 0; 0; 0; 0; 3; 1; 0; 1] in
   let w1 := snd (PSet.set_probe_p_values 1 (PSet.preset_values narrow) false 3 w0) in
   let w2 := snd (PSet.read_probe_p_values 1 (after_sleep 500 w1)) in
   PSet.find_key "narrow" PSet.BEAM_PRESETS = Some narrow /\
   PSet.set_probe_p_values 1 (PSet.preset_values narrow) false 3 w0 = (Ok true, w1) /\
   PSet.read_probe_p_values 1 (after_sleep 500 w1) = (Ok None, w2) /\
   PSet.apply_preset 1 "narrow" false true w0 = (Ok true, w2)).
Proof.
  destruct C10_unverifiable_write_reports_success as (He & Hp & Hn).
  split; [|split].
  - intros w0 w1 w2 w3. repeat (split; [reflexivity|]).
    apply (He replay replay_serial 1 (5 # 2)%Q 4 None None false w0 w1 w2 w3
              (EnergySet.Params 3 2 2 1 0 2 5 6 2)); reflexivity.
  - intros w0 w1 current new_values w2 w3 p_updates. repeat (split; [reflexivity|]).
    apply (Hp replay replay_serial 1 p_updates false w0 w1 w2 w3 current new_values);
      reflexivity.
  - intros w0 narrow w1 w2. repeat (split; [reflexivity|]).
    apply (Hn replay replay_serial 1 "narrow"%string narrow false w0 w1 w2); reflexivity.
Defined.

(** ** Verification compares what was asked for *)

(** C4, as the code has it: when verification is requested, the write has
    been acknowledged and the re-query returns a profile, the application of
    a preset (a full replace) reports success exactly when the returned
    profile equals the submitted one element for element, and failure
    otherwise; a partial update compares the requested elements only.  The
    energy update reports success exactly when the energy of the named range
    in the returned profile equals the requested energy; the update of
    individual P-values reports success exactly when every named position of
    the returned profile holds the requested value.  In each case a mismatch
    makes the operation return [False]. *)
Theorem C4_verification_checks_requested_elements :
  (forall (port : Type) (S : Serial port) (probe : Z) (name : string)
          (preset : PSet.preset) (permanent : bool) (w0 w1 w2 : world port)
          (updated : list Z),
      PSet.find_key name PSet.BEAM_PRESETS = Some preset ->
      PSet.set_probe_p_values probe (PSet.preset_values preset) permanent 3 w0
      = (Ok true, w1) ->
      PSet.read_probe_p_values probe (after_sleep 500 w1) = (Ok (Some updated), w2) ->
      exists ok, PSet.apply_preset probe name permanent true w0 = (Ok ok, w2) /\
                 (ok = true <-> updated = PSet.preset_values preset))
  /\
  (forall (port : Type) (S : Serial port) (probe : Z) (range_m : Q) (energy : Z)
          (time_val threshold : option Z) (permanent : bool)
          (w0 w1 w2 w3 : world port) (current updated : EnergySet.params),
      EnergySet.in_range_names range_m = true ->
      EnergySet.read_probe_params probe w0 = (Ok (Some current), w1) ->
      (let new_params := EnergySet.overlay current range_m energy time_val threshold in
       EnergySet.set_probe_params probe
         (EnergySet.energy1 new_params) (EnergySet.time1 new_params)
         (EnergySet.threshold1 new_params)
         (EnergySet.energy2 new_params) (EnergySet.time2 new_params)
         (EnergySet.threshold2 new_params)
         (EnergySet.energy3 new_params) (EnergySet.time3 new_params)
         (EnergySet.threshold3 new_params) permanent 3 w1 = (Ok true, w2)) ->
      EnergySet.read_probe_params probe (after_sleep 500 w2) = (Ok (Some updated), w3) ->
      exists ok,
        EnergySet.set_range_energy probe range_m energy time_val threshold permanent true w0
        = (Ok ok, w3) /\
        (Qeq_bool range_m (5 # 2) = true ->
         (ok = true <-> EnergySet.energy1 updated = energy)) /\
        (Qeq_bool range_m (3 # 2) = true ->
         (ok = true <-> EnergySet.energy2 updated = energy)) /\
        (Qeq_bool range_m (13 # 2) = true ->
         (ok = true <-> EnergySet.energy3 updated = energy)))
  /\
  (forall (port : Type) (S : Serial port) (probe : Z) (p_updates : list (string * Z))
          (permanent : bool) (w0 w1 w2 w3 : world port)
          (current new_values updated : list Z),
      PSet.read_probe_p_values probe w0 = (Ok (Some current), w1) ->
      PSet.apply_updates current p_updates = Ok (Some new_values) ->
      PSet.set_probe_p_values probe new_values permanent 3 w1 = (Ok true, w2) ->
      PSet.read_probe_p_values probe (after_sleep 500 w2) = (Ok (Some updated), w3) ->
      exists ok,
        PSet.set_individual_p_values probe p_updates permanent true w0 = (Ok ok, w3) /\
        (ok = true <->
         forall name v, In (name, v) p_updates ->
           exists i, PSet.p_index_of name = Ok i /\ at_ updated (Z.to_nat i) = v)).
Proof.
  split; [|split].
  - intros port S probe name preset permanent w0 w1 w2 updated Hname Hset Hreread.
    pose proof (p_read_gives_17 probe _ w2 updated Hreread) as Hlen.
    destruct updated as [|u us]; [discriminate Hlen|].
    exists (PSet.list_eqb (u :: us) (PSet.preset_values preset)).
    split; [|apply list_eqb_eq].
    unfold PSet.apply_preset. rewrite Hname.
    unfold bind at 1. rewrite Hset.
    now rewrite preset_verify_run, Hreread.
  - intros port S probe range_m energy time_val threshold permanent w0 w1 w2 w3
           current updated Hrange Hread Hset Hreread.
    exists (EnergySet.change_applied range_m energy updated).
    split; [|apply change_applied_spec].
    unfold EnergySet.set_range_energy. rewrite Hrange. cbn [negb].
    unfold bind at 1. rewrite Hread. cbv zeta in *.
    unfold bind at 1. rewrite Hset.
    now rewrite energy_verify_run, Hreread.
  - intros port S probe p_updates permanent w0 w1 w2 w3 current new_values updated
           Hread Happly Hset Hreread.
    pose proof (p_read_gives_17 probe w0 w1 current Hread) as Hlen.
    pose proof (p_read_gives_17 probe _ w3 updated Hreread) as Hlen'.
    destruct (all_correct_spec updated p_updates) as (ok & Hok & Hiff).
    { intros name v Hin. exact (proj1 (apply_updates_valid _ _ _ Happly name v Hin)). }
    exists ok. split; [|exact Hiff].
    unfold PSet.set_individual_p_values. unfold bind at 1. rewrite Hread.
    destruct current as [|v vs]; [discriminate Hlen|].
    unfold bind at 1, lift. rewrite Happly.
    unfold bind at 1. rewrite Hset.
    rewrite updates_verify_run, Hreread.
    destruct updated as [|u us]; [discriminate Hlen'|].
    now rewrite Hok.
Qed.

Lemma C4_verification_checks_requested_elements_witness :
  (let w0 := boot (Replay [ack 0; narrow_reply] []) in
   let narrow := PSet.Preset "Narrow Beam (50°x16°)" "Maximum range, narrow field of view"
                   [31; 31; 31; 30; 26; 21; 16; 16; 13; 0; 0; 0; 0; 3; 1; 0; 1] in
   let w1 := snd (PSet.set_probe_p_values 1 (PSet.preset_values narrow) false 3 w0) in
   let w2 := snd (PSet.read_probe_p_values 1 (after_sleep 500 w1)) in
   PSet.find_key "narrow" PSet.BEAM_PRESETS = Some narrow /\
   PSet.set_probe_p_values 1 (PSet.preset_values narrow) false 3 w0 = (Ok true, w1) /\
   PSet.read_probe_p_values 1 (after_sleep 500 w1)
   = (Ok (Some (PSet.preset_values narrow)), w2) /\
   exists ok, PSet.apply_preset 1 "narrow" false true w0 = (Ok ok, w2) /\
              (ok = true <-> PSet.preset_values narrow = PSet.preset_values narrow))
  /\
  (let w0 := boot (Replay [energy_reply; ack 0; drifted_reply] []) in
   let w1 := snd (EnergySet.read_probe_params 1 w0) in
   let w2 := snd (EnergySet.set_probe_params 1 4 2 2 1 0 2 5 6 2 false 3 w1) in
   let w3 := snd (EnergySet.read_probe_params 1 (after_sleep 500 w2)) in
   let updated := EnergySet.Params 4 2 2 1 7 2 5 6 2 in
   EnergySet.in_range_names (5 # 2) = true /\
   EnergySet.read_probe_params 1 w0
   = (Ok (Some (EnergySet.Params 3 2 2 1 0 2 5 6 2)), w1) /\
   EnergySet.set_probe_params 1 4 2 2 1 0 2 5 6 2 false 3 w1 = (Ok true, w2) /\
   EnergySet.read_probe_params 1 (after_sleep 500 w2) = (Ok (Some updated), w3) /\
   exists ok,
     EnergySet.set_range_energy 1 (5 # 2) 4 None None false true w0 = (Ok ok, w3) /\
     (Qeq_bool (5 # 2) (5 # 2) = true -> (ok = true <-> EnergySet.energy1 updated = 4)))
  /\
  (let w0 := boot (Replay [p_reply; ack 0; updated_p_reply] []) in
   let w1 := snd (PSet.read_probe_p_values 1 w0) in
   let current := [19; 19; 19; 31; 31; 31; 31; 31; 31; 31; 31; 31; 0; 3; 1; 0; 1] in
   let new_values := [15; 19; 20; 31; 31; 31; 31; 31; 31; 31; 31; 31; 0; 3; 1; 0; 1] in
   let w2 := snd (PSet.set_probe_p_values 1 new_values false 3 w1) in
   let w3 := snd (PSet.read_probe_p_values 1 (after_sleep 500 w2)) in
   let p_updates := [("P1", 15); ("P3", 20)]%string in
   PSet.read_probe_p_values 1 w0 = (Ok (Some current), w1) /\
   PSet.apply_updates current p_updates = Ok (Some new_values) /\
   PSet.set_probe_p_values 1 new_values false 3 w1 = (Ok true, w2) /\
   PSet.read_probe_p_values 1 (after_sleep 500 w2) = (Ok (Some new_values), w3) /\
   exists ok, PSet.set_individual_p_values 1 p_updates false true w0 = (Ok ok, w3)).
Proof.
  destruct C4_verification_checks_requested_elements as (Hn & He & Hp).
  split; [|split].
  - intros w0 narrow w1 w2. repeat (split; [reflexivity|]).
    apply (Hn replay replay_serial 1 "narrow"%string narrow false w0 w1 w2
              (PSet.preset_values narrow)); reflexivity.
  - intros w0 w1 w2 w3 updated. repeat (split; [reflexivity|]).
    destruct (He replay replay_serial 1 (5 # 2)%Q 4 None None false w0 w1 w2 w3
                 (EnergySet.Params 3 2 2 1 0 2 5 6 2) updated)
      as (ok & Hrun & H25 & _); try reflexivity.
    exists ok. split; [exact Hrun | exact H25].
  - intros w0 w1 current new_values w2 w3 p_updates. repeat (split; [reflexivity|]).
    destruct (Hp replay replay_serial 1 p_updates false w0 w1 w2 w3
                 current new_values new_values)
      as (ok & Hrun & _); try reflexivity.
    exists ok. exact Hrun.
Defined.

(** C4 as stated fails on a partial update: probe 1 reports 3/2/2, 1/0/2,
    5/6/2; the update of the first range's energy to 4 submits 4/2/2, 1/0/2,
    5/6/2 and is acknowledged; the re-query returns 4/2/2, 1/7/2, 5/6/2,
    which differs from the submitted profile in the second range's time; and
    the operation reports success. *)
Lemma C4_partial_update_reports_success_on_divergence :
  let w0 := boot (Replay [energy_reply; ack 0; drifted_reply] []) in
  let submitted :=
    EnergySet.overlay (EnergySet.Params 3 2 2 1 0 2 5 6 2) (5 # 2) 4 None None in
  let reread := EnergySet.Params 4 2 2 1 7 2 5 6 2 in
  fst (EnergySet.read_probe_params 1 (boot (Replay [drifted_reply] []))) = Ok (Some reread)
  /\ submitted = EnergySet.Params 4 2 2 1 0 2 5 6 2
  /\ EnergySet.time2 reread <> EnergySet.time2 submitted
  /\ written (log (snd (EnergySet.set_range_energy 1 (5 # 2) 4 None None false true w0)))
     = [[0xE8; 0x99; 0xD1; 0xA0];
        [0xE8; 0x99; 0xB1; 4; 2; 2; 1; 0; 2; 5; 6; 2; 0x2C; 0x40; 0xAA];
        [0xE8; 0x99; 0xD1; 0xA0]]
  /\ fst (EnergySet.set_range_energy 1 (5 # 2) 4 None None false true w0) = Ok true.
Proof.
  cbv zeta. split; [reflexivity|]. split; [reflexivity|].
  split; [discriminate|]. split; reflexivity.
Qed.

(** ** The write engine *)

Lemma energy_set_domain (probe : Z) :
  1 <= probe <= 12 ->
  lookup probe EnergySet.PROBE_TEMP_PARAMS = Some (0xB0 + probe) /\
  lookup probe EnergySet.PROBE_PERM_PARAMS = Some (0x70 + probe).
Proof.
  intros Hp.
  assert (Hc : probe = 1 \/ probe = 2 \/ probe = 3 \/ probe = 4 \/ probe = 5 \/
               probe = 6 \/ probe = 7 \/ probe = 8 \/ probe = 9 \/ probe = 10 \/
               probe = 11 \/ probe = 12) by lia.
  repeat (destruct Hc as [-> | Hc]; [split; reflexivity|]). subst; split; reflexivity.
Qed.

Lemma p_set_domain (probe : Z) :
  1 <= probe <= 9 ->
  lookup probe PSet.PROBE_TEMP_PARAMS = Some (0xC0 + probe) /\
  lookup probe PSet.PROBE_PERM_PARAMS = Some (0x80 + probe).
Proof.
  intros Hp.
  assert (Hc : probe = 1 \/ probe = 2 \/ probe = 3 \/ probe = 4 \/ probe = 5 \/
               probe = 6 \/ probe = 7 \/ probe = 8 \/ probe = 9) by lia.
  repeat (destruct Hc as [-> | Hc]; [split; reflexivity|]). subst; split; reflexivity.
Qed.

Lemma mk_bytes_of_bytes (l : list Z) : forallb is_byte l = true -> mk_bytes l = Ok l.
Proof. unfold mk_bytes. now intros ->. Qed.

Lemma range_starts_at_0 (n : Z) : 1 <= n -> exists rest, range n = 0 :: rest.
Proof.
  intros Hn. unfold range.
  destruct (Z.to_nat n) as [|k] eqn:E; [lia|]. simpl. now eexists.
Qed.

(** A value bounded by the hypotheses is a byte. *)
Ltac byte_goal := apply is_byte_iff; lia.

(** Once the arguments have passed validation, [set_probe_params] is its
    retry loop on the frame built from them. *)
Lemma energy_set_unfold {port} `{Serial port} (probe : Z)
      (e1 t1 th1 e2 t2 th2 e3 t3 th3 : Z) (permanent : bool) :
  1 <= probe <= 12 ->
  (0 <= e1 <= 7 /\ 0 <= e2 <= 7 /\ 0 <= e3 <= 7) ->
  (0 <= t1 <= 7 /\ 0 <= t2 <= 7 /\ 0 <= t3 <= 7) ->
  (0 <= th1 <= 3 /\ 0 <= th2 <= 3 /\ 0 <= th3 <= 3) ->
  exists command,
    EnergySet.full_command (if permanent then 0x70 + probe else 0xB0 + probe)
                           e1 t1 th1 e2 t2 th2 e3 t3 th3 = Ok command /\
    forall max_retries (w : world port),
      EnergySet.set_probe_params probe e1 t1 th1 e2 t2 th2 e3 t3 th3
                                 permanent max_retries w
      = for_each (EnergySet.set_attempt command max_retries) (range max_retries)
                 (ret false) w.
Proof.
  intros Hp He Ht Hth.
  destruct (energy_set_domain probe Hp) as [Htemp Hperm].
  set (param1 := if permanent then 0x70 + probe else 0xB0 + probe).
  assert (Hparam : lookup probe (if permanent then EnergySet.PROBE_PERM_PARAMS
                                 else EnergySet.PROBE_TEMP_PARAMS) = Some param1)
    by (subst param1; destruct permanent; assumption).
  assert (Hbody : forallb is_byte
                    [EnergySet.ADDR_CODE; EnergySet.CMD_CODE; param1;
                     e1; t1; th1; e2; t2; th2; e3; t3; th3;
                     fst EnergySet.FIXED_PARAMS; snd EnergySet.FIXED_PARAMS] = true).
  { cbn [forallb]. rewrite !andb_true_iff.
    repeat split; try reflexivity; try byte_goal.
    subst param1. destruct permanent; byte_goal. }
  assert (Hcmd : exists command,
             EnergySet.full_command param1 e1 t1 th1 e2 t2 th2 e3 t3 th3 = Ok command).
  { unfold EnergySet.full_command. rewrite (mk_bytes_of_bytes _ Hbody).
    rewrite mk_bytes_of_bytes; [now eexists|].
    cbn [forallb]. rewrite andb_true_r.
    apply fold_lxor_is_byte; [reflexivity | exact Hbody]. }
  destruct Hcmd as (command & Hcmd). exists command. split; [exact Hcmd|].
  intros max_retries w. unfold EnergySet.set_probe_params. rewrite Htemp.
  replace (EnergySet.within e1 7 && EnergySet.within e2 7 && EnergySet.within e3 7)%bool
    with true by (symmetry; rewrite !andb_true_iff, !within_iff; tauto).
  replace (EnergySet.within t1 7 && EnergySet.within t2 7 && EnergySet.within t3 7)%bool
    with true by (symmetry; rewrite !andb_true_iff, !within_iff; tauto).
  replace (EnergySet.within th1 3 && EnergySet.within th2 3 && EnergySet.within th3 3)%bool
    with true by (symmetry; rewrite !andb_true_iff, !within_iff; tauto).
  cbn [negb]. rewrite Hparam. fold param1. unfold bind, lift. rewrite Hcmd. reflexivity.
Qed.

Lemma p_set_unfold {port} `{Serial port} (probe : Z) (p_values : list Z)
      (permanent : bool) :
  1 <= probe <= 9 ->
  len p_values = 17 ->
  (forall v, In v p_values -> 0 <= v <= 31) ->
  exists command,
    PSet.full_command (if permanent then 0x80 + probe else 0xC0 + probe) p_values
    = Ok command /\
    forall max_retries (w : world port),
      PSet.set_probe_p_values probe p_values permanent max_retries w
      = for_each (PSet.set_attempt command max_retries) (range max_retries)
                 (ret false) w.
Proof.
  intros Hp Hlen Hv.
  destruct (p_set_domain probe Hp) as [Htemp Hperm].
  set (param1 := if permanent then 0x80 + probe else 0xC0 + probe).
  assert (Hparam : lookup probe (if permanent then PSet.PROBE_PERM_PARAMS
                                 else PSet.PROBE_TEMP_PARAMS) = Some param1)
    by (subst param1; destruct permanent; assumption).
  assert (Hrange : forallb (fun p_val => (0 <=? p_val) && (p_val <=? 31)) p_values = true).
  { apply forallb_forall. intros v Hin. specialize (Hv v Hin).
    apply andb_true_iff. split; apply Z.leb_le; lia. }
  assert (Hbody : forallb is_byte
                    ([PSet.ADDR_CODE; PSet.CMD_CODE; param1] ++ p_values) = true).
  { rewrite forallb_app. apply andb_true_iff. split.
    - cbn [forallb]. rewrite !andb_true_iff. repeat split; try reflexivity.
      subst param1. destruct permanent; byte_goal.
    - apply forallb_forall. intros v Hin. specialize (Hv v Hin). byte_goal. }
  assert (Hcmd : exists command, PSet.full_command param1 p_values = Ok command).
  { unfold PSet.full_command. rewrite (mk_bytes_of_bytes _ Hbody).
    rewrite mk_bytes_of_bytes; [now eexists|].
    cbn [forallb]. rewrite andb_true_r.
    apply fold_lxor_is_byte; [reflexivity | exact Hbody]. }
  destruct Hcmd as (command & Hcmd). exists command. split; [exact Hcmd|].
  intros max_retries w. unfold PSet.set_probe_p_values. rewrite Htemp.
  apply Z.eqb_eq in Hlen. rewrite Hlen, Hrange. cbn [negb].
  rewrite Hparam. fold param1. unfold bind, lift. rewrite Hcmd. reflexivity.
Qed.

Lemma log_of_one_attempt (l : list event) (command : bytes) :
  ((((l ++ [EvReset]) ++ [EvWrite command]) ++ [EvFlush]) ++ [EvSleep 500]) ++ [EvRead 5]
  = l ++ one_write_attempt command.
Proof. unfold one_write_attempt. now rewrite <- !app_assoc. Qed.

(** Runs the body of an attempt along a full exchange of the port. *)
Ltac run_exchange Hx :=
  destruct Hx as (?p & ?p & ?p & Ereset & Ewrite & Eflush & Eread);
  unfold try_except, bind, reset_input_buffer, write, flush, read, sleep, call, ret;
  cbn [dev log]; rewrite Ereset; cbn [dev log]; rewrite Ewrite; cbn [dev log];
  rewrite Eflush; cbn [dev log]; rewrite Z.eqb_refl; cbn [negb dev log];
  rewrite Eread; cbn [dev log]; rewrite log_of_one_attempt.

Lemma energy_set_attempt_answered {port} `{Serial port} (command : bytes)
      (max_retries a : Z) (w : world port) (reply : bytes) (p' : port) :
  exchange (dev w) command 5 reply p' ->
  5 <= len reply -> at_ reply 0 = 0xE8 -> at_ reply 1 = 0x99 ->
  (at_ reply 3 = 0x00 ->
   EnergySet.set_attempt command max_retries a w
   = (Ok (Return true), World p' (log w ++ one_write_attempt command))) /\
  (at_ reply 3 = 0x02 \/ at_ reply 3 = 0xFF ->
   EnergySet.set_attempt command max_retries a w
   = (Ok (Return false), World p' (log w ++ one_write_attempt command))).
Proof.
  intros Hx Hlen H0 H1. unfold EnergySet.set_attempt. run_exchange Hx.
  replace (len reply >=? 5) with true by (symmetry; rewrite Z.geb_leb; now apply Z.leb_le).
  rewrite H0, H1. unfold EnergySet.ADDR_CODE, EnergySet.CMD_CODE.
  rewrite !Z.eqb_refl. cbn [andb].
  split; [intros -> | intros [-> | ->]]; reflexivity.
Qed.

Lemma p_set_attempt_answered {port} `{Serial port} (command : bytes)
      (max_retries a : Z) (w : world port) (reply : bytes) (p' : port) :
  exchange (dev w) command 5 reply p' ->
  5 <= len reply -> at_ reply 0 = 0xE8 -> at_ reply 1 = 0x99 ->
  (at_ reply 3 = 0x00 ->
   PSet.set_attempt command max_retries a w
   = (Ok (Return true), World p' (log w ++ one_write_attempt command))) /\
  (at_ reply 3 = 0x02 \/ at_ reply 3 = 0xFF ->
   PSet.set_attempt command max_retries a w
   = (Ok (Return false), World p' (log w ++ one_write_attempt command))).
Proof.
  intros Hx Hlen H0 H1. unfold PSet.set_attempt. run_exchange Hx.
  replace (len reply >=? 5) with true by (symmetry; rewrite Z.geb_leb; now apply Z.leb_le).
  rewrite H0, H1. unfold PSet.ADDR_CODE, PSet.CMD_CODE.
  rewrite !Z.eqb_refl. cbn [andb].
  split; [intros -> | intros [-> | ->]]; reflexivity.
Qed.

(** A pass whose acknowledgement is no definitive answer falls through to
    the next attempt, after the retry delay when an attempt is left; an
    unknown status and a communication failure are not told apart. *)
Lemma energy_set_attempt_unanswered {port} `{Serial port} (command : bytes)
      (max_retries a : Z) (w : world port) (reply : bytes) (p' : port) :
  exchange (dev w) command 5 reply p' ->
  unknown_status reply \/ communication_failure reply ->
  EnergySet.set_attempt command max_retries a w
  = (Ok Next, World p' ((log w ++ one_write_attempt command)
                          ++ (if a <? max_retries - 1 then [EvSleep 300] else []))).
Proof.
  intros Hx Hreply. unfold EnergySet.set_attempt. run_exchange Hx.
  destruct Hreply as [(Hlen & H0 & H1 & Hs0 & Hs2 & Hsf) | [Hlen | [H0 | H1]]].
  - replace (len reply >=? 5) with true
      by (symmetry; rewrite Z.geb_leb; now apply Z.leb_le).
    rewrite H0, H1. unfold EnergySet.ADDR_CODE, EnergySet.CMD_CODE.
    rewrite !Z.eqb_refl. cbn [andb].
    apply Z.eqb_neq in Hs0, Hs2, Hsf. rewrite Hs0, Hs2, Hsf. destruct (a <? max_retries - 1); cbn [dev log]; rewrite ?app_nil_r; reflexivity.
  - replace (len reply >=? 5) with false
      by (symmetry; rewrite Z.geb_leb; apply Z.leb_gt; lia).
    destruct (a <? max_retries - 1); cbn [dev log]; rewrite ?app_nil_r; reflexivity.
  - destruct (len reply >=? 5); [|destruct (a <? max_retries - 1); cbn [dev log]; rewrite ?app_nil_r; reflexivity].
    unfold EnergySet.ADDR_CODE. apply Z.eqb_neq in H0. rewrite H0. cbn [andb].
    destruct (a <? max_retries - 1); cbn [dev log]; rewrite ?app_nil_r; reflexivity.
  - destruct (len reply >=? 5); [|destruct (a <? max_retries - 1); cbn [dev log]; rewrite ?app_nil_r; reflexivity].
    unfold EnergySet.CMD_CODE. apply Z.eqb_neq in H1. rewrite H1, andb_false_r.
    destruct (a <? max_retries - 1); cbn [dev log]; rewrite ?app_nil_r; reflexivity.
Qed.

Lemma p_set_attempt_unanswered {port} `{Serial port} (command : bytes)
      (max_retries a : Z) (w : world port) (reply : bytes) (p' : port) :
  exchange (dev w) command 5 reply p' ->
  unknown_status reply \/ communication_failure reply ->
  PSet.set_attempt command max_retries a w
  = (Ok Next, World p' ((log w ++ one_write_attempt command)
                          ++ (if a <? max_retries - 1 then [EvSleep 300] else []))).
Proof.
  intros Hx Hreply. unfold PSet.set_attempt. run_exchange Hx.
  destruct Hreply as [(Hlen & H0 & H1 & Hs0 & Hs2 & Hsf) | [Hlen | [H0 | H1]]].
  - replace (len reply >=? 5) with true
      by (symmetry; rewrite Z.geb_leb; now apply Z.leb_le).
    rewrite H0, H1. unfold PSet.ADDR_CODE, PSet.CMD_CODE.
    rewrite !Z.eqb_refl. cbn [andb].
    apply Z.eqb_neq in Hs0, Hs2, Hsf. rewrite Hs0, Hs2, Hsf. destruct (a <? max_retries - 1); cbn [dev log]; rewrite ?app_nil_r; reflexivity.
  - replace (len reply >=? 5) with false
      by (symmetry; rewrite Z.geb_leb; apply Z.leb_gt; lia).
    destruct (a <? max_retries - 1); cbn [dev log]; rewrite ?app_nil_r; reflexivity.
  - destruct (len reply >=? 5); [|destruct (a <? max_retries - 1); cbn [dev log]; rewrite ?app_nil_r; reflexivity].
    unfold PSet.ADDR_CODE. apply Z.eqb_neq in H0. rewrite H0. cbn [andb].
    destruct (a <? max_retries - 1); cbn [dev log]; rewrite ?app_nil_r; reflexivity.
  - destruct (len reply >=? 5); [|destruct (a <? max_retries - 1); cbn [dev log]; rewrite ?app_nil_r; reflexivity].
    unfold PSet.CMD_CODE. apply Z.eqb_neq in H1. rewrite H1, andb_false_r.
    destruct (a <? max_retries - 1); cbn [dev log]; rewrite ?app_nil_r; reflexivity.
Qed.

Section StubbornPort.
Context {port : Type} `{Serial port}.
Hypothesis unanswered : forall p, exists reply p',
      dev_read 5 p = (Ok reply, p') /\
      (unknown_status reply \/ communication_failure reply).

Lemma energy_set_attempt_unknown (command : bytes) (max_retries a : Z)
      (w0 w : world port) (n : Z) :
  counted w0 n w ->
  exists w', EnergySet.set_attempt command max_retries a w = (Ok Next, w')
             /\ counted w0 (n + 1) w'.
Proof.
  intros Hc. unfold EnergySet.set_attempt, try_except, bind, reset_input_buffer,
    write, flush, read, sleep, call, ret.
  cbn. run_port;
    try (destruct (a <? max_retries - 1); cbn;
         eexists; (split; [reflexivity | count_log])).
  destruct (negb (_ =? len command)); cbn;
    try (eexists; split; [reflexivity | count_log]).
  match goal with |- context [dev_read 5 ?p] =>
    destruct (unanswered p) as (reply & q & -> & Hreply)
  end.
  cbn.
  destruct Hreply as [(Hlen & H0 & H1 & Hs0 & Hs2 & Hsf) | [Hlen | [H0 | H1]]].
  - replace (len reply >=? 5) with true
      by (symmetry; rewrite Z.geb_leb; now apply Z.leb_le).
    rewrite H0, H1. unfold EnergySet.ADDR_CODE, EnergySet.CMD_CODE.
    rewrite !Z.eqb_refl. cbn [andb].
    apply Z.eqb_neq in Hs0, Hs2, Hsf. rewrite Hs0, Hs2, Hsf.
    destruct (a <? max_retries - 1); cbn;
      eexists; (split; [reflexivity | count_log]).
  - replace (len reply >=? 5) with false
      by (symmetry; rewrite Z.geb_leb; apply Z.leb_gt; lia).
    destruct (a <? max_retries - 1); cbn;
      eexists; (split; [reflexivity | count_log]).
  - apply Z.eqb_neq in H0. unfold EnergySet.ADDR_CODE. rewrite H0. cbn [andb].
    destruct (len reply >=? 5); destruct (a <? max_retries - 1); cbn;
      eexists; (split; [reflexivity | count_log]).
  - apply Z.eqb_neq in H1. unfold EnergySet.CMD_CODE. rewrite H1, andb_false_r.
    destruct (len reply >=? 5); destruct (a <? max_retries - 1); cbn;
      eexists; (split; [reflexivity | count_log]).
Qed.

Lemma p_set_attempt_unknown (command : bytes) (max_retries a : Z)
      (w0 w : world port) (n : Z) :
  counted w0 n w ->
  exists w', PSet.set_attempt command max_retries a w = (Ok Next, w')
             /\ counted w0 (n + 1) w'.
Proof.
  intros Hc. unfold PSet.set_attempt, try_except, bind, reset_input_buffer,
    write, flush, read, sleep, call, ret.
  cbn. run_port;
    try (destruct (a <? max_retries - 1); cbn;
         eexists; (split; [reflexivity | count_log])).
  destruct (negb (_ =? len command)); cbn;
    try (eexists; split; [reflexivity | count_log]).
  match goal with |- context [dev_read 5 ?p] =>
    destruct (unanswered p) as (reply & q & -> & Hreply)
  end.
  cbn.
  destruct Hreply as [(Hlen & H0 & H1 & Hs0 & Hs2 & Hsf) | [Hlen | [H0 | H1]]].
  - replace (len reply >=? 5) with true
      by (symmetry; rewrite Z.geb_leb; now apply Z.leb_le).
    rewrite H0, H1. unfold PSet.ADDR_CODE, PSet.CMD_CODE.
    rewrite !Z.eqb_refl. cbn [andb].
    apply Z.eqb_neq in Hs0, Hs2, Hsf. rewrite Hs0, Hs2, Hsf.
    destruct (a <? max_retries - 1); cbn;
      eexists; (split; [reflexivity | count_log]).
  - replace (len reply >=? 5) with false
      by (symmetry; rewrite Z.geb_leb; apply Z.leb_gt; lia).
    destruct (a <? max_retries - 1); cbn;
      eexists; (split; [reflexivity | count_log]).
  - apply Z.eqb_neq in H0. unfold PSet.ADDR_CODE. rewrite H0. cbn [andb].
    destruct (len reply >=? 5); destruct (a <? max_retries - 1); cbn;
      eexists; (split; [reflexivity | count_log]).
  - apply Z.eqb_neq in H1. unfold PSet.CMD_CODE. rewrite H1, andb_false_r.
    destruct (len reply >=? 5); destruct (a <? max_retries - 1); cbn;
      eexists; (split; [reflexivity | count_log]).
Qed.

End StubbornPort.

(** C3, as the code has it.  In the write engine a full-length,
    header-correct acknowledgement ends the write at once when its status
    byte is 0x00 (success) or 0x02 or 0xFF (failure), at whichever attempt it
    comes: the write returns in the state that attempt left, so no further
    attempt is made.  Any other status byte is not terminal: the attempt
    falls through to the next one exactly as after a communication failure
    (a short or absent acknowledgement, or one with a wrong header), with the
    same 300 ms delay when an attempt is left, and the write returns [False]
    when it was the last attempt.  So against a port whose every
    acknowledgement is an unknown status or a communication failure the
    write goes through all [max_retries] attempts and then returns
    [False]. *)
Theorem C3_write_status_handling :
  (forall (port : Type) (S : Serial port) (probe : Z)
          (e1 t1 th1 e2 t2 th2 e3 t3 th3 : Z) (permanent : bool) (max_retries j : Z)
          (command : bytes) (w wj : world port) (reply : bytes) (p' : port),
      1 <= probe <= 12 ->
      (0 <= e1 <= 7 /\ 0 <= e2 <= 7 /\ 0 <= e3 <= 7) ->
      (0 <= t1 <= 7 /\ 0 <= t2 <= 7 /\ 0 <= t3 <= 7) ->
      (0 <= th1 <= 3 /\ 0 <= th2 <= 3 /\ 0 <= th3 <= 3) ->
      EnergySet.full_command (if permanent then 0x70 + probe else 0xB0 + probe)
                             e1 t1 th1 e2 t2 th2 e3 t3 th3 = Ok command ->
      0 <= j < max_retries ->
      passed_over (EnergySet.set_attempt command max_retries) (range j) w wj ->
      exchange (dev wj) command 5 reply p' ->
      (5 <= len reply -> at_ reply 0 = 0xE8 -> at_ reply 1 = 0x99 ->
       (at_ reply 3 = 0x00 ->
        EnergySet.set_probe_params probe e1 t1 th1 e2 t2 th2 e3 t3 th3
                                   permanent max_retries w
        = (Ok true, World p' (log wj ++ one_write_attempt command))) /\
       (at_ reply 3 = 0x02 \/ at_ reply 3 = 0xFF ->
        EnergySet.set_probe_params probe e1 t1 th1 e2 t2 th2 e3 t3 th3
                                   permanent max_retries w
        = (Ok false, World p' (log wj ++ one_write_attempt command))))
      /\
      (unknown_status reply \/ communication_failure reply ->
       let retried :=
         World p' ((log wj ++ one_write_attempt command)
                     ++ (if j <? max_retries - 1 then [EvSleep 300] else [])) in
       passed_over (EnergySet.set_attempt command max_retries) (range (j + 1)) w retried /\
       (j = max_retries - 1 ->
        EnergySet.set_probe_params probe e1 t1 th1 e2 t2 th2 e3 t3 th3
                                   permanent max_retries w
        = (Ok false, retried))))
  /\
  (forall (port : Type) (S : Serial port) (probe : Z)
          (e1 t1 th1 e2 t2 th2 e3 t3 th3 : Z) (permanent : bool) (max_retries : Z)
          (w : world port),
      1 <= probe <= 12 ->
      (0 <= e1 <= 7 /\ 0 <= e2 <= 7 /\ 0 <= e3 <= 7) ->
      (0 <= t1 <= 7 /\ 0 <= t2 <= 7 /\ 0 <= t3 <= 7) ->
      (0 <= th1 <= 3 /\ 0 <= th2 <= 3 /\ 0 <= th3 <= 3) ->
      0 <= max_retries ->
      (forall p, exists reply p',
            dev_read 5 p = (Ok reply, p') /\
            (unknown_status reply \/ communication_failure reply)) ->
      exists w',
        EnergySet.set_probe_params probe e1 t1 th1 e2 t2 th2 e3 t3 th3
                                   permanent max_retries w = (Ok false, w')
        /\ counted w max_retries w')
  /\
  (forall (port : Type) (S : Serial port) (probe : Z) (p_values : list Z)
          (permanent : bool) (max_retries j : Z)
          (command : bytes) (w wj : world port) (reply : bytes) (p' : port),
      1 <= probe <= 9 ->
      len p_values = 17 ->
      (forall v, In v p_values -> 0 <= v <= 31) ->
      PSet.full_command (if permanent then 0x80 + probe else 0xC0 + probe) p_values
      = Ok command ->
      0 <= j < max_retries ->
      passed_over (PSet.set_attempt command max_retries) (range j) w wj ->
      exchange (dev wj) command 5 reply p' ->
      (5 <= len reply -> at_ reply 0 = 0xE8 -> at_ reply 1 = 0x99 ->
       (at_ reply 3 = 0x00 ->
        PSet.set_probe_p_values probe p_values permanent max_retries w
        = (Ok true, World p' (log wj ++ one_write_attempt command))) /\
       (at_ reply 3 = 0x02 \/ at_ reply 3 = 0xFF ->
        PSet.set_probe_p_values probe p_values permanent max_retries w
        = (Ok false, World p' (log wj ++ one_write_attempt command))))
      /\
      (unknown_status reply \/ communication_failure reply ->
       let retried :=
         World p' ((log wj ++ one_write_attempt command)
                     ++ (if j <? max_retries - 1 then [EvSleep 300] else [])) in
       passed_over (PSet.set_attempt command max_retries) (range (j + 1)) w retried /\
       (j = max_retries - 1 ->
        PSet.set_probe_p_values probe p_values permanent max_retries w
        = (Ok false, retried))))
  /\
  (forall (port : Type) (S : Serial port) (probe : Z) (p_values : list Z)
          (permanent : bool) (max_retries : Z) (w : world port),
      1 <= probe <= 9 ->
      len p_values = 17 ->
      (forall v, In v p_values -> 0 <= v <= 31) ->
      0 <= max_retries ->
      (forall p, exists reply p',
            dev_read 5 p = (Ok reply, p') /\
            (unknown_status reply \/ communication_failure reply)) ->
      exists w',
        PSet.set_probe_p_values probe p_values permanent max_retries w = (Ok false, w')
        /\ counted w max_retries w').
Proof.
  split; [|split; [|split]].
  - intros port S probe e1 t1 th1 e2 t2 th2 e3 t3 th3 permanent max_retries j command
           w wj reply p' Hp He Ht Hth Hcmd Hj Hpass Hx.
    destruct (energy_set_unfold probe e1 t1 th1 e2 t2 th2 e3 t3 th3 permanent
                Hp He Ht Hth) as (command' & Hcmd' & Hrun).
    rewrite Hcmd in Hcmd'. injection Hcmd' as <-.
    destruct (range_split_at max_retries j Hj) as (rest & Hrange).
    split.
    + intros Hlen H0 H1.
      destruct (energy_set_attempt_answered command max_retries j wj reply p'
                  Hx Hlen H0 H1) as [Hok Hko].
      rewrite Hrun, Hrange,
        (for_each_after_passes _ (ret false) (range j) (j :: rest) w wj Hpass).
      split; intros Hs; apply for_each_returns; auto.
    + intros Hreply retried.
      pose proof (energy_set_attempt_unanswered command max_retries j wj reply p'
                    Hx Hreply) as Hnext.
      assert (Hall : passed_over (EnergySet.set_attempt command max_retries)
                                 (range (j + 1)) w retried).
      { rewrite range_snoc by lia. exact (passed_over_snoc _ _ _ _ _ _ Hpass Hnext). }
      split; [exact Hall|]. intros Hlast.
      replace (j + 1) with max_retries in Hall by lia.
      rewrite Hrun, <- (app_nil_r (range max_retries)).
      now rewrite (for_each_after_passes _ (ret false) _ [] w retried Hall).
  - intros port S probe e1 t1 th1 e2 t2 th2 e3 t3 th3 permanent max_retries w
           Hp He Ht Hth Hmax Hunanswered.
    destruct (energy_set_unfold probe e1 t1 th1 e2 t2 th2 e3 t3 th3 permanent
                Hp He Ht Hth) as (command & _ & Hrun).
    assert (H0 : counted w 0 w) by (unfold counted; split; intros; lia).
    destruct (for_each_exhausts (EnergySet.set_attempt command max_retries)
                (ret false) (counted w)
                (fun a w1 n =>
                   energy_set_attempt_unknown Hunanswered command max_retries a w w1 n)
                (range max_retries) w 0 H0) as (w' & E & Hc).
    exists w'. rewrite Hrun, E. split; [reflexivity|].
    now rewrite (len_range _ Hmax), Z.add_0_l in Hc.
  - intros port S probe p_values permanent max_retries j command
           w wj reply p' Hp Hl Hv Hcmd Hj Hpass Hx.
    destruct (p_set_unfold probe p_values permanent Hp Hl Hv)
      as (command' & Hcmd' & Hrun).
    rewrite Hcmd in Hcmd'. injection Hcmd' as <-.
    destruct (range_split_at max_retries j Hj) as (rest & Hrange).
    split.
    + intros Hlen H0 H1.
      destruct (p_set_attempt_answered command max_retries j wj reply p'
                  Hx Hlen H0 H1) as [Hok Hko].
      rewrite Hrun, Hrange,
        (for_each_after_passes _ (ret false) (range j) (j :: rest) w wj Hpass).
      split; intros Hs; apply for_each_returns; auto.
    + intros Hreply retried.
      pose proof (p_set_attempt_unanswered command max_retries j wj reply p'
                    Hx Hreply) as Hnext.
      assert (Hall : passed_over (PSet.set_attempt command max_retries)
                                 (range (j + 1)) w retried).
      { rewrite range_snoc by lia. exact (passed_over_snoc _ _ _ _ _ _ Hpass Hnext). }
      split; [exact Hall|]. intros Hlast.
      replace (j + 1) with max_retries in Hall by lia.
      rewrite Hrun, <- (app_nil_r (range max_retries)).
      now rewrite (for_each_after_passes _ (ret false) _ [] w retried Hall).
  - intros port S probe p_values permanent max_retries w Hp Hl Hv Hmax Hunanswered.
    destruct (p_set_unfold probe p_values permanent Hp Hl Hv) as (command & _ & Hrun).
    assert (H0 : counted w 0 w) by (unfold counted; split; intros; lia).
    destruct (for_each_exhausts (PSet.set_attempt command max_retries)
                (ret false) (counted w)
                (fun a w1 n =>
                   p_set_attempt_unknown Hunanswered command max_retries a w w1 n)
                (range max_retries) w 0 H0) as (w' & E & Hc).
    exists w'. rewrite Hrun, E. split; [reflexivity|].
    now rewrite (len_range _ Hmax), Z.add_0_l in Hc.
Qed.

Lemma replay_exchange (reply : bytes) (rest : list bytes) (command : bytes) :
  exchange (Replay (reply :: rest) []) command 5 (firstn 5 reply) (Replay rest []).
Proof.
  exists (Replay (reply :: rest) []), (Replay (reply :: rest) []),
    (Replay (reply :: rest) []).
  repeat split; reflexivity.
Qed.

Lemma stubborn_unanswered :
  forall p : stubborn, exists reply p',
      dev_read 5 p = (Ok reply, p') /\
      (unknown_status reply \/ communication_failure reply).
Proof.
  intros p. exists stubborn_ack, p. split; [reflexivity|]. left.
  unfold unknown_status. repeat split; try reflexivity; vm_compute; discriminate.
Qed.

Lemma mute_unanswered :
  forall p : mute, exists reply p',
      dev_read 5 p = (Ok reply, p') /\
      (unknown_status reply \/ communication_failure reply).
Proof.
  intros p. exists [], p. split; [reflexivity|]. right. left. reflexivity.
Qed.

Lemma C3_write_status_handling_witness :
  (let command := [0xE8; 0x99; 0xB1; 3; 2; 2; 1; 0; 2; 5; 6; 2; 0x2C; 0x40; 0xAD] in
   let w := boot (Replay [[0xE8; 0x99]; ack 0x02] []) in
   let wj := snd (EnergySet.set_attempt command 3 0 w) in
   1 <= 1 <= 12 /\
   EnergySet.full_command (0xB0 + 1) 3 2 2 1 0 2 5 6 2 = Ok command /\
   0 <= 1 < 3 /\
   passed_over (EnergySet.set_attempt command 3) (range 1) w wj /\
   exchange (dev wj) command 5 (ack 0x02) (Replay [] []) /\
   5 <= len (ack 0x02) /\ at_ (ack 0x02) 0 = 0xE8 /\ at_ (ack 0x02) 1 = 0x99 /\
   (at_ (ack 0x02) 3 = 0x02 \/ at_ (ack 0x02) 3 = 0xFF) /\
   EnergySet.set_probe_params 1 3 2 2 1 0 2 5 6 2 false 3 w
   = (Ok false, World (Replay [] []) (log wj ++ one_write_attempt command)))
  /\
  (1 <= 1 <= 12 /\ 0 <= 3 /\
   (forall p : stubborn, exists reply p',
         dev_read 5 p = (Ok reply, p') /\
         (unknown_status reply \/ communication_failure reply)) /\
   exists w', EnergySet.set_probe_params 1 3 2 2 1 0 2 5 6 2 false 3 (boot Stubborn)
              = (Ok false, w')
              /\ counted (boot Stubborn) 3 w')
  /\
  (let p_values := [19; 19; 19; 31; 31; 31; 31; 31; 31; 31; 31; 31; 0; 3; 1; 0; 1] in
   let command := [0xE8; 0x99; 0xC1] ++ p_values ++ [0xBF] in
   let w := boot (Replay [stubborn_ack] []) in
   let retried := World (Replay [] []) (log w ++ one_write_attempt command) in
   1 <= 1 <= 9 /\ len p_values = 17 /\ (forall v, In v p_values -> 0 <= v <= 31) /\
   PSet.full_command (0xC0 + 1) p_values = Ok command /\
   0 <= 0 < 1 /\
   passed_over (PSet.set_attempt command 1) (range 0) w w /\
   exchange (dev w) command 5 stubborn_ack (Replay [] []) /\
   (unknown_status stubborn_ack \/ communication_failure stubborn_ack) /\
   0 = 1 - 1 /\
   PSet.set_probe_p_values 1 p_values false 1 w = (Ok false, retried))
  /\
  (let p_values := [19; 19; 19; 31; 31; 31; 31; 31; 31; 31; 31; 31; 0; 3; 1; 0; 1] in
   1 <= 1 <= 9 /\ len p_values = 17 /\ (forall v, In v p_values -> 0 <= v <= 31) /\
   0 <= 3 /\
   (forall p : mute, exists reply p',
         dev_read 5 p = (Ok reply, p') /\
         (unknown_status reply \/ communication_failure reply)) /\
   exists w', PSet.set_probe_p_values 1 p_values false 3 (boot Mute) = (Ok false, w')
              /\ counted (boot Mute) 3 w').
Proof.
  destruct C3_write_status_handling as (Het & Heu & Hpt & Hpu).
  assert (Hvals : forall v,
             In v [19; 19; 19; 31; 31; 31; 31; 31; 31; 31; 31; 31; 0; 3; 1; 0; 1] ->
             0 <= v <= 31).
  { intros v Hin. simpl in Hin.
    repeat (destruct Hin as [<- | Hin]; [lia|]). contradiction. }
  assert (Hlen5 : forall s, 5 <= len (ack s)) by (intros s; vm_compute; discriminate).
  assert (Hstub : unknown_status stubborn_ack \/ communication_failure stubborn_ack).
  { left. unfold unknown_status.
    repeat split; try reflexivity; vm_compute; discriminate. }
  split; [|split; [|split]].
  - intros command w wj.
    assert (Hpass : passed_over (EnergySet.set_attempt command 3) (range 1) w wj)
      by (exists wj; split; reflexivity).
    assert (Hx : exchange (dev wj) command 5 (ack 0x02) (Replay [] []))
      by exact (replay_exchange (ack 0x02) [] command).
    split; [lia|]. split; [reflexivity|]. split; [lia|]. split; [exact Hpass|].
    split; [exact Hx|]. split; [apply Hlen5|]. split; [reflexivity|].
    split; [reflexivity|]. split; [left; reflexivity|].
    apply (proj1 (Het replay replay_serial 1 3 2 2 1 0 2 5 6 2 false 3 1 command
                      w wj (ack 0x02) (Replay [] [])
                      ltac:(lia) ltac:(lia) ltac:(lia) ltac:(lia) eq_refl ltac:(lia)
                      Hpass Hx) (Hlen5 0x02) eq_refl eq_refl).
    left; reflexivity.
  - split; [lia|]. split; [lia|]. split; [exact stubborn_unanswered|].
    exact (Heu stubborn stubborn_serial 1 3 2 2 1 0 2 5 6 2 false 3 (boot Stubborn)
               ltac:(lia) ltac:(lia) ltac:(lia) ltac:(lia) ltac:(lia)
               stubborn_unanswered).
  - intros p_values command w retried.
    assert (Hx : exchange (dev w) command 5 stubborn_ack (Replay [] []))
      by exact (replay_exchange stubborn_ack [] command).
    split; [lia|]. split; [reflexivity|]. split; [exact Hvals|].
    split; [reflexivity|]. split; [lia|]. split; [reflexivity|]. split; [exact Hx|].
    split; [exact Hstub|]. split; [reflexivity|].
    apply (proj2 (Hpt replay replay_serial 1 p_values false 1 0 command
                      w w stubborn_ack (Replay [] [])
                      ltac:(lia) eq_refl Hvals eq_refl ltac:(lia) eq_refl Hx) Hstub).
    reflexivity.
  - intros p_values. split; [lia|]. split; [reflexivity|]. split; [exact Hvals|].
    split; [lia|]. split; [exact mute_unanswered|].
    exact (Hpu mute mute_serial 1 p_values false 3 (boot Mute)
               ltac:(lia) eq_refl Hvals ltac:(lia) mute_unanswered).
Defined.

(** C3 as stated fails: the port [stubborn] answers every write with the
    full-length, header-correct acknowledgement E8 99 B1 01 C1, whose status
    0x01 is none of 0x00, 0x02, 0xFF; the write does not stop at the first
    acknowledgement but makes three attempts (three writes) before it
    returns [False]. *)
Lemma C3_unknown_status_is_retried :
  unknown_status stubborn_ack /\
  (let run := EnergySet.set_probe_params 1 3 2 2 1 0 2 5 6 2 false 3 (boot Stubborn) in
   fst run = Ok false /\ attempts_in (log (snd run)) = 3 /\ writes_in (log (snd run)) = 3)
  /\
  (let run := PSet.set_probe_p_values
                1 [19; 19; 19; 31; 31; 31; 31; 31; 31; 31; 31; 31; 0; 3; 1; 0; 1]
                false 3 (boot Stubborn) in
   fst run = Ok false /\ attempts_in (log (snd run)) = 3 /\ writes_in (log (snd run)) = 3).
Proof.
  split; [|split; cbv zeta; repeat split; reflexivity].
  unfold unknown_status. repeat split; try reflexivity; vm_compute; discriminate.
Qed.

(** ** Reading the current profile *)

Lemma last_of_21 (response : bytes) :
  len response = 21 -> at_ response 20 = last_byte response.
Proof.
  unfold len. intros Hz.
  assert (Hlen : List.length response = 21%nat) by lia. clear Hz.
  do 21 (destruct response as [|? response]; [discriminate Hlen|]).
  destruct response; [reflexivity | discriminate Hlen].
Qed.

(** The P-value setter never takes a current profile from a reply whose last
    byte is not the XOR of the bytes before it. *)
Lemma p_read_rejects_bad_checksum {port} `{Serial port} (probe : Z) (w : world port) :
  (forall n p response p',
      dev_read n p = (Ok response, p') ->
      last_byte response <> xor_fold (but_last response)) ->
  fst (PSet.read_probe_p_values probe w) = Ok None.
Proof.
  intros Hbad. unfold PSet.read_probe_p_values.
  destruct (lookup probe PSet.PROBE_QUERY_PARAMS) as [param|] eqn:Hl; [|reflexivity].
  assert (Hq : exists command,
             mk_bytes [PSet.ADDR_CODE; PSet.CMD_CODE; param;
                       Z.lxor (Z.lxor PSet.ADDR_CODE PSet.CMD_CODE) param] = Ok command).
  { simpl in Hl.
    repeat match type of Hl with
           | (if ?c then _ else _) = _ =>
               destruct c; [injection Hl as <-; eexists; reflexivity|]
           end.
    discriminate Hl. }
  destruct Hq as (command & Hq).
  unfold bind, lift, try_except, reset_input_buffer, write, flush, read, sleep, call, ret.
  rewrite Hq. cbn. run_port; try reflexivity.
  match goal with |- context [dev_read ?k ?p] =>
    destruct (dev_read k p) as [[response|?] q] eqn:Er; cbn; [|reflexivity]
  end.
  destruct (len response =? 21) eqn:El; cbn; [|reflexivity].
  destruct ((at_ response 0 =? PSet.ADDR_CODE) && (at_ response 1 =? PSet.CMD_CODE))%bool;
    cbn; [|reflexivity].
  destruct (at_ response 20 =? PSet.calculate_bcc (but_last response)) eqn:Eb;
    cbn; [|reflexivity].
  exfalso. apply (Hbad _ _ _ _ Er).
  apply Z.eqb_eq in El, Eb.
  rewrite <- (last_of_21 response El), Eb. apply bcc_is_xor_fold.
Qed.

(** C2, evaluated on the code: a 15-byte reply with a correct header whose
    last byte (0x00) is not the XOR of the bytes before it (0xCF) is rejected
    by the classifier of the energy reader, and the analogous 21-byte reply is
    rejected by [read_probe_p_values]; but [read_probe_params], the read that
    precedes a partial energy update, returns its data region as the current
    profile. *)
Theorem C2_energy_read_accepts_bad_checksum :
  len corrupted_reply = 15 /\
  at_ corrupted_reply 0 = 0xE8 /\ at_ corrupted_reply 1 = 0x99 /\
  last_byte corrupted_reply <> xor_fold (but_last corrupted_reply) /\
  EnergyGet.validate_response corrupted_reply 1 = Ok false /\
  fst (EnergySet.read_probe_params 1 (boot (Replay [corrupted_reply] [])))
  = Ok (Some (EnergySet.Params 7 7 3 7 7 3 7 7 3)) /\
  last_byte corrupted_p_reply <> xor_fold (but_last corrupted_p_reply) /\
  fst (PSet.read_probe_p_values 1 (boot (Replay [corrupted_p_reply] []))) = Ok None.
Proof. repeat split; try reflexivity; vm_compute; discriminate. Qed.


(** * Further properties of the scripts *)

(** ** Runs of a retry loop on an arbitrary port *)

Lemma attempts_in_app (l d : list event) :
  attempts_in (l ++ d) = attempts_in l + attempts_in d.
Proof. unfold attempts_in, len. rewrite filter_app, length_app. lia. Qed.

Lemma written_app (l d : list event) : written (l ++ d) = written l ++ written d.
Proof. unfold written. apply flat_map_app. Qed.

(** One more pass: the log grows by the calls of the pass, which start with
    one [reset_input_buffer] and write [command] at most once. *)
Lemma sent_only_step {port} (command : bytes) (w0 w w' : world port) (n : Z)
      (delta : list event) :
  sent_only command w0 n w ->
  log w' = log w ++ delta ->
  attempts_in delta = 1 ->
  written delta = [] \/ written delta = [command] ->
  sent_only command w0 (n + 1) w'.
Proof.
  intros [Ha (j & Hj & Hw)] Hlog Hd Hwr. unfold sent_only.
  rewrite Hlog, attempts_in_app, written_app, Hw, Hd. split; [lia|].
  destruct Hwr as [-> | ->].
  - exists j. split; [lia|]. now rewrite app_nil_r.
  - exists (S j). split; [lia|].
    rewrite <- app_assoc. f_equal. cbn [repeat]. symmetry. apply repeat_cons.
Qed.

Lemma sent_only_start {port} (command : bytes) (w : world port) :
  sent_only command w 0 w.
Proof.
  split; [lia|]. exists 0%nat. split; [lia|]. cbn [repeat]. now rewrite app_nil_r.
Qed.

(** A log that only grows by sleeps keeps what was counted. *)
Lemma sent_only_idle {port} (command : bytes) (w0 w w' : world port) (n : Z)
      (delta : list event) :
  sent_only command w0 n w ->
  log w' = log w ++ delta ->
  attempts_in delta = 0 -> written delta = [] ->
  sent_only command w0 n w'.
Proof.
  intros [Ha (j & Hj & Hw)] Hlog Hd Hwr. unfold sent_only.
  rewrite Hlog, attempts_in_app, written_app, Hw, Hd, Hwr. split; [lia|].
  exists j. split; [lia|]. now rewrite app_nil_r.
Qed.

(** A loop whose passes never raise, with [P] holding between passes: either
    some pass returns, and [R] holds of what it returns, or all passes are
    made and the code after the loop runs. *)
Lemma for_each_outcome {port A} (body : Z -> M port (flow A)) (after : M port A)
      (P : Z -> world port -> Prop) (R : Z -> A -> world port -> Prop) :
  (forall a w n, P n w ->
     exists f w', body a w = (Ok f, w') /\
                  match f with
                  | Next => P (n + 1) w'
                  | Return r => R (n + 1) r w'
                  end) ->
  forall attempts w n, P n w ->
    exists w1 k, n <= k <= n + len attempts /\
      ((exists r, for_each body attempts after w = (Ok r, w1) /\ R k r w1 /\ n < k)
       \/ (k = n + len attempts /\ P k w1 /\ for_each body attempts after w = after w1)).
Proof.
  intros Hbody attempts. induction attempts as [|a rest IH]; intros w n Hn.
  - exists w, n. split; [unfold len; simpl; lia|]. right.
    split; [unfold len; simpl; lia|]. split; [exact Hn | reflexivity].
  - destruct (Hbody a w n Hn) as ([|r] & w1 & E1 & H1).
    + destruct (IH w1 (n + 1) H1) as (w2 & k & Hk & Hcase).
      exists w2, k. split; [rewrite len_cons; lia|].
      destruct Hcase as [(r & E2 & HR & Hlt) | (Ek & HP & E2)].
      * left. exists r. split; [simpl; rewrite E1; exact E2|]. split; [exact HR | lia].
      * right. split; [rewrite len_cons; lia|]. split; [exact HP|].
        simpl. rewrite E1. exact E2.
    + exists w1, (n + 1). split; [rewrite len_cons; unfold len; lia|].
      left. exists r. split; [simpl; now rewrite E1|]. split; [exact H1 | lia].
Qed.

(** Closes the goals left by one pass of a retry loop: the pass ended, and
    its calls are one reset followed by at most one write of the command. *)
Ltac pass_done :=
  eexists; eexists; split; [reflexivity|]; cbv beta iota;
  repeat split;
  try (eapply sent_only_step;
       [eassumption
       | cbn [log]; rewrite <- ?app_assoc; reflexivity
       | reflexivity
       | first [left; reflexivity | right; reflexivity]]).

Ltac run_port_all :=
  run_port;
  repeat match goal with
         | |- context [dev_read ?k ?p] =>
             let E := fresh "Eread" in
             destruct (dev_read k p) as [[?response|?] ?] eqn:E; cbn
         end.

Section AnyPort.
Context {port : Type} `{Serial port}.

(** What one pass of the energy query loop can do. *)
Lemma energy_query_attempt_any (probe : Z) (command : bytes) (max_retries a : Z)
      (w0 w : world port) (n : Z) :
  sent_only command w0 n w ->
  exists f w', EnergyGet.query_attempt probe command max_retries a w = (Ok f, w') /\
    match f with
    | Next => sent_only command w0 (n + 1) w'
    | Return r =>
        sent_only command w0 (n + 1) w' /\
        exists response,
          EnergyGet.validate_response response probe = Ok true /\
          r = Some (EnergyGet.parse_response response probe)
    end.
Proof.
  intros Hc. unfold EnergyGet.query_attempt, try_except, bind, reset_input_buffer,
    write, flush, read, sleep, call, ret, lift.
  cbn. run_port_all; try pass_done.
  destruct (negb (_ =? len command)); cbn; try pass_done.
  match goal with |- context [dev_read ?k ?p] =>
    destruct (dev_read k p) as [[response|?] ?] eqn:Eread; cbn; try pass_done
  end.
  destruct (len response =? EnergyGet.EXPECTED_RESPONSE_LENGTH); cbn.
  - destruct (EnergyGet.validate_response response probe) as [[|]|?] eqn:Ev; cbn.
    + pass_done. exists response. split; [exact Ev | reflexivity].
    + destruct (a <? max_retries - 1); cbn; pass_done.
    + pass_done.
  - destruct (a <? max_retries - 1); cbn; pass_done.
Qed.

Lemma p_query_attempt_any (probe : Z) (command : bytes) (max_retries a : Z)
      (w0 w : world port) (n : Z) :
  sent_only command w0 n w ->
  exists f w', PGet.query_attempt probe command max_retries a w = (Ok f, w') /\
    match f with
    | Next => sent_only command w0 (n + 1) w'
    | Return r =>
        sent_only command w0 (n + 1) w' /\
        exists response,
          PGet.validate_response response probe = Ok true /\
          r = Some (PGet.parse_response response probe)
    end.
Proof.
  intros Hc. unfold PGet.query_attempt, try_except, bind, reset_input_buffer,
    write, flush, read, sleep, call, ret, lift.
  cbn. run_port_all; try (destruct (a <? max_retries - 1); cbn; pass_done).
  destruct (negb (_ =? len command)); cbn; try pass_done.
  match goal with |- context [dev_read ?k ?p] =>
    destruct (dev_read k p) as [[response|?] ?] eqn:Eread; cbn;
    try (destruct (a <? max_retries - 1); cbn; pass_done)
  end.
  destruct (len response =? PGet.EXPECTED_RESPONSE_LENGTH); cbn.
  - destruct (PGet.validate_response response probe) as [[|]|?] eqn:Ev; cbn.
    + pass_done. exists response. split; [exact Ev | reflexivity].
    + destruct (a <? max_retries - 1); cbn; pass_done.
    + destruct (a <? max_retries - 1); cbn; pass_done.
  - destruct (a <? max_retries - 1); cbn; pass_done.
Qed.

End AnyPort.

Lemma len_range_any (n : Z) : len (range n) = Z.max 0 n.
Proof. unfold len, range. rewrite length_map, length_seq. lia. Qed.

Lemma energy_get_outside (probe : Z) :
  ~ 1 <= probe <= 9 -> lookup probe EnergyGet.PROBE_PARAMS = None.
Proof.
  intros Hp. unfold EnergyGet.PROBE_PARAMS. cbn [lookup].
  repeat match goal with
         | |- context [probe =? ?k] => destruct (Z.eqb_spec probe k); [lia|]
         end.
  reflexivity.
Qed.

Lemma p_get_outside (probe : Z) :
  ~ 1 <= probe <= 9 -> lookup probe PGet.PROBE_PARAMS = None.
Proof.
  intros Hp. unfold PGet.PROBE_PARAMS. cbn [lookup].
  repeat match goal with
         | |- context [probe =? ?k] => destruct (Z.eqb_spec probe k); [lia|]
         end.
  reflexivity.
Qed.

(** ** Queries on an arbitrary port *)

(** A run of [query_probe] for a probe of the table, whatever the port does. *)
Lemma energy_query_run {port} `{Serial port} (probe max_retries : Z) (w : world port)
      (command : bytes) :
  EnergyGet.create_query_command probe = Ok command ->
  exists r w' k,
    EnergyGet.query_probe probe max_retries w = (Ok r, w') /\
    0 <= k <= Z.max 0 max_retries /\
    sent_only command w k w' /\
    match r with
    | Some d => 1 <= k /\ exists response,
        EnergyGet.validate_response response probe = Ok true /\
        d = EnergyGet.parse_response response probe
    | None => k = Z.max 0 max_retries
    end.
Proof.
  intros Hcmd. unfold EnergyGet.query_probe, bind, lift. rewrite Hcmd.
  destruct (for_each_outcome (EnergyGet.query_attempt probe command max_retries)
              (ret None) (sent_only command w)
              (fun k r w' => sent_only command w k w' /\
                             exists response,
                               EnergyGet.validate_response response probe = Ok true /\
                               r = Some (EnergyGet.parse_response response probe))
              (fun a w1 n => energy_query_attempt_any probe command max_retries a w w1 n)
              (range max_retries) w 0 (sent_only_start command w))
    as (w1 & k & Hk & Hcase).
  rewrite len_range_any in Hk.
  destruct Hcase as [(r & E & (Hs & response & Hv & ->) & Hlt) | (Ek & HP & E)].
  - eexists; exists w1, k. split; [exact E|]. split; [lia|]. split; [exact Hs|].
    split; [lia|]. now exists response.
  - exists None, w1, k. split; [rewrite E; reflexivity|]. split; [lia|].
    split; [exact HP|]. rewrite len_range_any in Ek. lia.
Qed.

Lemma p_query_run {port} `{Serial port} (probe max_retries : Z) (w : world port)
      (command : bytes) :
  PGet.create_query_command probe = Ok command ->
  exists r w' k,
    PGet.query_probe probe max_retries w = (Ok r, w') /\
    0 <= k <= Z.max 0 max_retries /\
    sent_only command w k w' /\
    match r with
    | Some d => 1 <= k /\ exists response,
        PGet.validate_response response probe = Ok true /\
        d = PGet.parse_response response probe
    | None => k = Z.max 0 max_retries
    end.
Proof.
  intros Hcmd. unfold PGet.query_probe, bind, lift. rewrite Hcmd.
  destruct (for_each_outcome (PGet.query_attempt probe command max_retries)
              (ret None) (sent_only command w)
              (fun k r w' => sent_only command w k w' /\
                             exists response,
                               PGet.validate_response response probe = Ok true /\
                               r = Some (PGet.parse_response response probe))
              (fun a w1 n => p_query_attempt_any probe command max_retries a w w1 n)
              (range max_retries) w 0 (sent_only_start command w))
    as (w1 & k & Hk & Hcase).
  rewrite len_range_any in Hk.
  destruct Hcase as [(r & E & (Hs & response & Hv & ->) & Hlt) | (Ek & HP & E)].
  - eexists; exists w1, k. split; [exact E|]. split; [lia|]. split; [exact Hs|].
    split; [lia|]. now exists response.
  - exists None, w1, k. split; [rewrite E; reflexivity|]. split; [lia|].
    split; [exact HP|]. rewrite len_range_any in Ek. lia.
Qed.

(** The query frame of a probe of the tables. *)
Lemma energy_query_command (probe : Z) :
  1 <= probe <= 9 ->
  EnergyGet.create_query_command probe
  = Ok [0xE8; 0x99; 0xD0 + probe; Z.lxor (Z.lxor 0xE8 0x99) (0xD0 + probe)].
Proof.
  intros Hp. unfold EnergyGet.create_query_command.
  rewrite (energy_get_domain probe Hp).
  apply mk_bytes_of_bytes.
  assert (Hc : probe = 1 \/ probe = 2 \/ probe = 3 \/ probe = 4 \/ probe = 5 \/
               probe = 6 \/ probe = 7 \/ probe = 8 \/ probe = 9) by lia.
  repeat (destruct Hc as [-> | Hc]; [reflexivity|]). subst; reflexivity.
Qed.

Lemma p_query_command (probe : Z) :
  1 <= probe <= 9 ->
  PGet.create_query_command probe
  = Ok [0xE8; 0x99; 0xE0 + probe; Z.lxor (Z.lxor 0xE8 0x99) (0xE0 + probe)].
Proof.
  intros Hp. unfold PGet.create_query_command.
  rewrite (p_get_domain probe Hp).
  apply mk_bytes_of_bytes.
  assert (Hc : probe = 1 \/ probe = 2 \/ probe = 3 \/ probe = 4 \/ probe = 5 \/
               probe = 6 \/ probe = 7 \/ probe = 8 \/ probe = 9) by lia.
  repeat (destruct Hc as [-> | Hc]; [reflexivity|]). subst; reflexivity.
Qed.

(** A pass of the query loop that returns has made one full exchange, and
    what it returns is the parse of the reply read in that exchange, which
    the classifier accepts. *)
Lemma energy_query_attempt_return {port} `{Serial port} (probe : Z) (command : bytes)
      (max_retries a : Z) (w w' : world port) (r : option EnergyGet.probe_data) :
  EnergyGet.query_attempt probe command max_retries a w = (Ok (Return r), w') ->
  exists response,
    exchange (dev w) command 15 response (dev w') /\
    log w' = log w ++ [EvReset; EvWrite command; EvFlush; EvSleep (100 + a * 100);
                       EvRead 15] /\
    EnergyGet.validate_response response probe = Ok true /\
    r = Some (EnergyGet.parse_response response probe).
Proof.
  unfold EnergyGet.query_attempt, try_except, bind, reset_input_buffer,
    write, flush, read, sleep, call, ret, lift.
  cbn. run_port; try (intros E; discriminate E).
  match goal with |- context [negb (?z =? len command)] =>
    destruct (Z.eqb_spec z (len command)) as [->|]; cbn;
    [|intros E; discriminate E]
  end.
  match goal with |- context [dev_read ?k ?p] =>
    destruct (dev_read k p) as [[response|?] ?] eqn:Eread; cbn;
    [|intros E; discriminate E]
  end.
  destruct (len response =? EnergyGet.EXPECTED_RESPONSE_LENGTH); cbn;
    [|destruct (a <? max_retries - 1); cbn; intros E; discriminate E].
  destruct (EnergyGet.validate_response response probe) as [[|]|?] eqn:Ev; cbn;
    [|destruct (a <? max_retries - 1); cbn; intros E; discriminate E
     |intros E; discriminate E].
  intros E. injection E as <- <-. exists response.
  split; [do 3 eexists; repeat split; eassumption|].
  split; [cbn [log]; now rewrite <- !app_assoc|].
  split; [exact Ev | reflexivity].
Qed.

Lemma p_query_attempt_return {port} `{Serial port} (probe : Z) (command : bytes)
      (max_retries a : Z) (w w' : world port) (r : option PGet.probe_data) :
  PGet.query_attempt probe command max_retries a w = (Ok (Return r), w') ->
  exists response,
    exchange (dev w) command 21 response (dev w') /\
    log w' = log w ++ [EvReset; EvWrite command; EvFlush; EvSleep (100 + a * 50);
                       EvRead 21] /\
    PGet.validate_response response probe = Ok true /\
    r = Some (PGet.parse_response response probe).
Proof.
  unfold PGet.query_attempt, try_except, bind, reset_input_buffer,
    write, flush, read, sleep, call, ret, lift.
  cbn. run_port;
    try (destruct (a <? max_retries - 1); cbn; intros E; discriminate E).
  match goal with |- context [negb (?z =? len command)] =>
    destruct (Z.eqb_spec z (len command)) as [->|]; cbn;
    [|intros E; discriminate E]
  end.
  match goal with |- context [dev_read ?k ?p] =>
    destruct (dev_read k p) as [[response|?] ?] eqn:Eread; cbn;
    [|destruct (a <? max_retries - 1); cbn; intros E; discriminate E]
  end.
  destruct (len response =? PGet.EXPECTED_RESPONSE_LENGTH); cbn;
    [|destruct (a <? max_retries - 1); cbn; intros E; discriminate E].
  destruct (PGet.validate_response response probe) as [[|]|?] eqn:Ev; cbn;
    [|destruct (a <? max_retries - 1); cbn; intros E; discriminate E
     |destruct (a <? max_retries - 1); cbn; intros E; discriminate E].
  intros E. injection E as <- <-. exists response.
  split; [do 3 eexists; repeat split; eassumption|].
  split; [cbn [log]; now rewrite <- !app_assoc|].
  split; [exact Ev | reflexivity].
Qed.

(** Whatever [query_probe] returns was read from the port and passed the
    classifier: when a query returns data, some attempt [j] below the budget
    was reached after [j] attempts that all fell through, that attempt made
    one full exchange on the port (reset, write of the query frame, flush,
    read), the query ended in the state the read left, and the data is the
    parse of the reply which that read returned and which the classifier
    accepts for the requested probe.  So a reply that is short, has a wrong
    header, echoes another probe's code or fails the checksum is never turned
    into data, on any port and for any retry budget. *)
Theorem query_returns_only_validated_data :
  forall (port : Type) (S : Serial port) (probe max_retries : Z) (w w' : world port),
    (forall d, EnergyGet.query_probe probe max_retries w = (Ok (Some d), w') ->
       exists command j w1 response,
         EnergyGet.create_query_command probe = Ok command /\
         0 <= j < max_retries /\
         passed_over (EnergyGet.query_attempt probe command max_retries) (range j) w w1 /\
         exchange (dev w1) command 15 response (dev w') /\
         log w' = log w1 ++ [EvReset; EvWrite command; EvFlush;
                             EvSleep (100 + j * 100); EvRead 15] /\
         EnergyGet.validate_response response probe = Ok true /\
         d = EnergyGet.parse_response response probe)
    /\
    (forall d, PGet.query_probe probe max_retries w = (Ok (Some d), w') ->
       exists command j w1 response,
         PGet.create_query_command probe = Ok command /\
         0 <= j < max_retries /\
         passed_over (PGet.query_attempt probe command max_retries) (range j) w w1 /\
         exchange (dev w1) command 21 response (dev w') /\
         log w' = log w1 ++ [EvReset; EvWrite command; EvFlush;
                             EvSleep (100 + j * 50); EvRead 21] /\
         PGet.validate_response response probe = Ok true /\
         d = PGet.parse_response response probe).
Proof.
  intros port S probe max_retries w w'. split; intros d Hrun.
  - unfold EnergyGet.query_probe, bind, lift in Hrun.
    destruct (EnergyGet.create_query_command probe) as [command|e] eqn:Hcmd;
      [|discriminate Hrun].
    destruct (for_each_found _ _ _ _ _ _ Hrun)
      as [(done & j & rest & w1 & Hsplit & Hpass & Hret) | (w1 & _ & Hnone)];
      [|discriminate Hnone].
    destruct (range_prefix _ _ _ _ Hsplit) as [Hj ->].
    destruct (energy_query_attempt_return probe command max_retries j w1 w' _ Hret)
      as (response & Hx & Hlog & Hv & Hd).
    injection Hd as ->.
    exists command, j, w1, response. split; [reflexivity|].
    repeat (split; [assumption|]). reflexivity.
  - unfold PGet.query_probe, bind, lift in Hrun.
    destruct (PGet.create_query_command probe) as [command|e] eqn:Hcmd;
      [|discriminate Hrun].
    destruct (for_each_found _ _ _ _ _ _ Hrun)
      as [(done & j & rest & w1 & Hsplit & Hpass & Hret) | (w1 & _ & Hnone)];
      [|discriminate Hnone].
    destruct (range_prefix _ _ _ _ Hsplit) as [Hj ->].
    destruct (p_query_attempt_return probe command max_retries j w1 w' _ Hret)
      as (response & Hx & Hlog & Hv & Hd).
    injection Hd as ->.
    exists command, j, w1, response. split; [reflexivity|].
    repeat (split; [assumption|]). reflexivity.
Qed.

(** For a probe number of the table, [query_probe] never raises, whatever the
    port does (every call may raise or return anything): it returns after at
    most [max_retries] attempts, it returns [None] only after all of them
    and data only after at least one, and the only bytes it writes are
    copies of the 4-byte query frame of that probe, at most one per
    attempt. *)
Theorem query_never_raises_and_sends_only_its_frame :
  forall (port : Type) (S : Serial port) (probe max_retries : Z) (w : world port),
    1 <= probe <= 9 ->
    (exists r w' k,
        EnergyGet.query_probe probe max_retries w = (Ok r, w') /\
        0 <= k <= Z.max 0 max_retries /\
        (r = None -> k = Z.max 0 max_retries) /\
        (r <> None -> 1 <= k) /\
        sent_only [0xE8; 0x99; 0xD0 + probe; Z.lxor (Z.lxor 0xE8 0x99) (0xD0 + probe)]
                  w k w')
    /\
    (exists r w' k,
        PGet.query_probe probe max_retries w = (Ok r, w') /\
        0 <= k <= Z.max 0 max_retries /\
        (r = None -> k = Z.max 0 max_retries) /\
        (r <> None -> 1 <= k) /\
        sent_only [0xE8; 0x99; 0xE0 + probe; Z.lxor (Z.lxor 0xE8 0x99) (0xE0 + probe)]
                  w k w').
Proof.
  intros port S probe max_retries w Hp. split.
  - destruct (energy_query_run probe max_retries w _ (energy_query_command probe Hp))
      as (r & w' & k & E & Hk & Hs & Hr).
    exists r, w', k. split; [exact E|]. split; [lia|].
    split; [intros ->; exact Hr|].
    split; [destruct r; [intros _; exact (proj1 Hr) | intros Hn; now elim Hn] | exact Hs].
  - destruct (p_query_run probe max_retries w _ (p_query_command probe Hp))
      as (r & w' & k & E & Hk & Hs & Hr).
    exists r, w', k. split; [exact E|]. split; [lia|].
    split; [intros ->; exact Hr|].
    split; [destruct r; [intros _; exact (proj1 Hr) | intros Hn; now elim Hn] | exact Hs].
Qed.

(** A probe number outside the reader's table (the energy reader knows
    probes 1 to 9 only, although the energy setter accepts 1 to 12) makes
    [query_probe] raise ValueError before any call on the port. *)
Theorem query_of_unknown_probe_raises_before_io :
  forall (port : Type) (S : Serial port) (probe max_retries : Z) (w : world port),
    ~ 1 <= probe <= 9 ->
    EnergyGet.query_probe probe max_retries w = (Raise ValueError, w) /\
    PGet.query_probe probe max_retries w = (Raise ValueError, w).
Proof.
  intros port S probe max_retries w Hp. split.
  - unfold EnergyGet.query_probe, EnergyGet.create_query_command, bind, lift.
    now rewrite (energy_get_outside probe Hp).
  - unfold PGet.query_probe, PGet.create_query_command, bind, lift.
    now rewrite (p_get_outside probe Hp).
Qed.

Lemma energy_valid_length (response : bytes) (probe : Z) :
  EnergyGet.validate_response response probe = Ok true -> (len response =? 15) = true.
Proof.
  unfold EnergyGet.validate_response, EnergyGet.EXPECTED_RESPONSE_LENGTH.
  destruct (len response =? 15); [reflexivity | discriminate].
Qed.

Lemma p_valid_length (response : bytes) (probe : Z) :
  PGet.validate_response response probe = Ok true -> (len response =? 21) = true.
Proof.
  unfold PGet.validate_response, PGet.EXPECTED_RESPONSE_LENGTH.
  destruct (len response =? 21); [reflexivity | discriminate].
Qed.

(** Runs the body of a query attempt along a full exchange of the port. *)
Ltac run_query_exchange Hx :=
  destruct Hx as (?p & ?p & ?p & Ereset & Ewrite & Eflush & Eread);
  unfold try_except, bind, reset_input_buffer, write, flush, read, sleep, call, ret, lift;
  cbn [dev log]; rewrite Ereset; cbn [dev log]; rewrite Ewrite; cbn [dev log];
  rewrite Eflush; cbn [dev log]; rewrite Z.eqb_refl; cbn [negb dev log];
  rewrite Eread; cbn [dev log].

(** When the port answers the first exchange with a reply that the
    classifier accepts, [query_probe] returns the parsed reply after that
    single attempt: one reset, one write of the query frame, one flush, the
    100 ms pre-read delay and one read, and no retry delay. *)
Theorem query_succeeds_on_first_valid_reply :
  forall (port : Type) (S : Serial port) (probe max_retries : Z) (w : world port)
         (command response : bytes) (p' : port),
    1 <= max_retries ->
    (EnergyGet.create_query_command probe = Ok command ->
     exchange (dev w) command 15 response p' ->
     EnergyGet.validate_response response probe = Ok true ->
     EnergyGet.query_probe probe max_retries w
     = (Ok (Some (EnergyGet.parse_response response probe)),
        World p' (log w ++ [EvReset; EvWrite command; EvFlush; EvSleep 100; EvRead 15])))
    /\
    (PGet.create_query_command probe = Ok command ->
     exchange (dev w) command 21 response p' ->
     PGet.validate_response response probe = Ok true ->
     PGet.query_probe probe max_retries w
     = (Ok (Some (PGet.parse_response response probe)),
        World p' (log w ++ [EvReset; EvWrite command; EvFlush; EvSleep 100; EvRead 21]))).
Proof.
  intros port S probe max_retries w command response p' Hmax.
  destruct (range_starts_at_0 max_retries Hmax) as (rest & Hrange).
  split; intros Hcmd Hx Hv.
  - unfold EnergyGet.query_probe. unfold bind at 1, lift. rewrite Hcmd, Hrange.
    apply for_each_returns. unfold EnergyGet.query_attempt.
    unfold EnergyGet.EXPECTED_RESPONSE_LENGTH. run_query_exchange Hx.
    rewrite (energy_valid_length _ _ Hv), Hv. cbn [dev log].
    rewrite <- !app_assoc. reflexivity.
  - unfold PGet.query_probe. unfold bind at 1, lift. rewrite Hcmd, Hrange.
    apply for_each_returns. unfold PGet.query_attempt.
    unfold PGet.EXPECTED_RESPONSE_LENGTH. run_query_exchange Hx.
    rewrite (p_valid_length _ _ Hv), Hv. cbn [dev log].
    rewrite <- !app_assoc. reflexivity.
Qed.

Lemma range_starts_at_0_1 (n : Z) : 2 <= n -> exists rest, range n = 0 :: 1 :: rest.
Proof.
  intros Hn. unfold range.
  destruct (Z.to_nat n) as [|[|k]] eqn:E; [lia | lia |]. simpl. now eexists.
Qed.

Lemma firstn_short (k : Z) (l : bytes) : len l <= k -> firstn (Z.to_nat k) l = l.
Proof. unfold len. intros Hl. apply firstn_all2. lia. Qed.

(** On a port that replays a script, a first reply that the classifier
    rejects (short, empty or garbled) is followed by a second attempt: after
    the fixed 200 ms retry delay the query frame is sent again, the pre-read
    delay grows (200 ms for the energy reader, 150 ms for the P-value
    reader), and the second, valid reply is returned. *)
Theorem query_recovers_on_second_attempt :
  forall (probe max_retries : Z) (bad good : bytes) (rest : list bytes) (quiet : bytes),
    2 <= max_retries ->
    1 <= probe <= 9 ->
    (len bad <= 15 ->
     EnergyGet.validate_response bad probe = Ok false ->
     EnergyGet.validate_response good probe = Ok true ->
     EnergyGet.query_probe probe max_retries (boot (Replay (bad :: good :: rest) quiet))
     = (Ok (Some (EnergyGet.parse_response good probe)),
        World (Replay rest quiet)
              (let command := [0xE8; 0x99; 0xD0 + probe;
                               Z.lxor (Z.lxor 0xE8 0x99) (0xD0 + probe)] in
               [EvReset; EvWrite command; EvFlush; EvSleep 100; EvRead 15; EvSleep 200;
                EvReset; EvWrite command; EvFlush; EvSleep 200; EvRead 15])))
    /\
    (len bad <= 21 ->
     PGet.validate_response bad probe = Ok false ->
     PGet.validate_response good probe = Ok true ->
     PGet.query_probe probe max_retries (boot (Replay (bad :: good :: rest) quiet))
     = (Ok (Some (PGet.parse_response good probe)),
        World (Replay rest quiet)
              (let command := [0xE8; 0x99; 0xE0 + probe;
                               Z.lxor (Z.lxor 0xE8 0x99) (0xE0 + probe)] in
               [EvReset; EvWrite command; EvFlush; EvSleep 100; EvRead 21; EvSleep 200;
                EvReset; EvWrite command; EvFlush; EvSleep 150; EvRead 21]))).
Proof.
  intros probe max_retries bad good rest quiet Hmax Hp.
  destruct (range_starts_at_0_1 max_retries Hmax) as (more & Hrange).
  assert (Hretry : (0 <? max_retries - 1) = true) by (apply Z.ltb_lt; lia).
  split; intros Hbad Hvb Hvg.
  - pose proof (energy_valid_length _ _ Hvg) as Hlg.
    assert (Hfg : firstn (Z.to_nat 15) good = good)
      by (apply firstn_short; apply Z.eqb_eq in Hlg; lia).
    pose proof (firstn_short 15 bad Hbad) as Hfb.
    unfold EnergyGet.query_probe. unfold bind at 1, lift.
    rewrite (energy_query_command probe Hp), Hrange.
    cbn [for_each].
    unfold EnergyGet.query_attempt at 1.
    unfold try_except, bind, reset_input_buffer, write, flush, read, sleep, call, ret, lift,
      boot, EnergyGet.EXPECTED_RESPONSE_LENGTH.
    cbn [dev log dev_reset_input_buffer dev_write dev_flush dev_read replay_serial
         pending idle app].
    rewrite Z.eqb_refl. cbn [negb dev log pending idle app]. rewrite Hfb.
    destruct (len bad =? 15); rewrite ?Hvb; cbn [dev log app]; rewrite Hretry;
      cbn [dev log app];
      unfold EnergyGet.query_attempt;
      unfold try_except, bind, reset_input_buffer, write, flush, read, sleep, call, ret,
        lift, EnergyGet.EXPECTED_RESPONSE_LENGTH;
      cbn [dev log dev_reset_input_buffer dev_write dev_flush dev_read replay_serial
           pending idle app];
      rewrite Z.eqb_refl; cbn [negb dev log pending idle app]; rewrite Hfg, Hlg, Hvg;
      reflexivity.
  - pose proof (p_valid_length _ _ Hvg) as Hlg.
    assert (Hfg : firstn (Z.to_nat 21) good = good)
      by (apply firstn_short; apply Z.eqb_eq in Hlg; lia).
    pose proof (firstn_short 21 bad Hbad) as Hfb.
    unfold PGet.query_probe. unfold bind at 1, lift.
    rewrite (p_query_command probe Hp), Hrange.
    cbn [for_each].
    unfold PGet.query_attempt at 1.
    unfold try_except, bind, reset_input_buffer, write, flush, read, sleep, call, ret, lift,
      boot, PGet.EXPECTED_RESPONSE_LENGTH.
    cbn [dev log dev_reset_input_buffer dev_write dev_flush dev_read replay_serial
         pending idle app].
    rewrite Z.eqb_refl. cbn [negb dev log pending idle app]. rewrite Hfb.
    destruct (len bad =? 21); rewrite ?Hvb; cbn [dev log app]; rewrite Hretry;
      cbn [dev log app];
      unfold PGet.query_attempt;
      unfold try_except, bind, reset_input_buffer, write, flush, read, sleep, call, ret,
        lift, PGet.EXPECTED_RESPONSE_LENGTH;
      cbn [dev log dev_reset_input_buffer dev_write dev_flush dev_read replay_serial
           pending idle app];
      rewrite Z.eqb_refl; cbn [negb dev log pending idle app]; rewrite Hfg, Hlg, Hvg;
      reflexivity.
Qed.

Lemma replay_exchange_of (n : Z) (reply : bytes) (rest : list bytes) (quiet command : bytes) :
  exchange (Replay (reply :: rest) quiet) command n (firstn (Z.to_nat n) reply)
           (Replay rest quiet).
Proof.
  exists (Replay (reply :: rest) quiet), (Replay (reply :: rest) quiet),
    (Replay (reply :: rest) quiet).
  repeat split; reflexivity.
Qed.

Lemma query_returns_only_validated_data_witness :
  let w := boot (Replay [scenario_frame] []) in
  let w' := snd (EnergyGet.query_probe 3 3 w) in
  let d := EnergyGet.parse_response scenario_frame 3 in
  EnergyGet.query_probe 3 3 w = (Ok (Some d), w') /\
  exists command j w1 response,
    EnergyGet.create_query_command 3 = Ok command /\
    0 <= j < 3 /\
    passed_over (EnergyGet.query_attempt 3 command 3) (range j) w w1 /\
    exchange (dev w1) command 15 response (dev w') /\
    log w' = log w1 ++ [EvReset; EvWrite command; EvFlush;
                        EvSleep (100 + j * 100); EvRead 15] /\
    EnergyGet.validate_response response 3 = Ok true /\
    d = EnergyGet.parse_response response 3.
Proof.
  intros w w' d. split; [reflexivity|].
  apply (proj1 (query_returns_only_validated_data replay replay_serial 3 3 w w') d).
  reflexivity.
Defined.

Lemma query_never_raises_and_sends_only_its_frame_witness :
  1 <= 3 <= 9 /\
  exists r w' k,
    EnergyGet.query_probe 3 3 (boot Mute) = (Ok r, w') /\
    0 <= k <= Z.max 0 3 /\
    (r = None -> k = Z.max 0 3) /\
    (r <> None -> 1 <= k) /\
    sent_only [0xE8; 0x99; 0xD0 + 3; Z.lxor (Z.lxor 0xE8 0x99) (0xD0 + 3)]
              (boot Mute) k w'.
Proof.
  split; [lia|].
  apply (proj1 (query_never_raises_and_sends_only_its_frame
                  mute mute_serial 3 3 (boot Mute) ltac:(lia))).
Defined.

Lemma query_of_unknown_probe_raises_before_io_witness :
  ~ 1 <= 10 <= 9 /\
  EnergyGet.query_probe 10 3 (boot Mute) = (Raise ValueError, boot Mute) /\
  PGet.query_probe 10 3 (boot Mute) = (Raise ValueError, boot Mute).
Proof.
  split; [lia|].
  apply (query_of_unknown_probe_raises_before_io mute mute_serial 10 3 (boot Mute)). lia.
Defined.

Lemma query_succeeds_on_first_valid_reply_witness :
  (let w := boot (Replay [scenario_frame] []) in
   let command := [0xE8; 0x99; 0xD3; 0xA2] in
   1 <= 3 /\
   EnergyGet.create_query_command 3 = Ok command /\
   exchange (dev w) command 15 scenario_frame (Replay [] []) /\
   EnergyGet.validate_response scenario_frame 3 = Ok true /\
   EnergyGet.query_probe 3 3 w
   = (Ok (Some (EnergyGet.parse_response scenario_frame 3)),
      World (Replay [] [])
            (log w ++ [EvReset; EvWrite command; EvFlush; EvSleep 100; EvRead 15])))
  /\
  (let w := boot (Replay [p_reply] []) in
   let command := [0xE8; 0x99; 0xE1; 0x90] in
   PGet.create_query_command 1 = Ok command /\
   exchange (dev w) command 21 p_reply (Replay [] []) /\
   PGet.validate_response p_reply 1 = Ok true /\
   PGet.query_probe 1 3 w
   = (Ok (Some (PGet.parse_response p_reply 1)),
      World (Replay [] [])
            (log w ++ [EvReset; EvWrite command; EvFlush; EvSleep 100; EvRead 21]))).
Proof.
  split.
  - intros w command. split; [lia|]. split; [reflexivity|].
    split; [exact (replay_exchange_of 15 scenario_frame [] [] command)|].
    split; [reflexivity|].
    apply (proj1 (query_succeeds_on_first_valid_reply replay replay_serial 3 3 w
                    command scenario_frame (Replay [] []) ltac:(lia)));
      [reflexivity | exact (replay_exchange_of 15 scenario_frame [] [] command)
       | reflexivity].
  - intros w command. split; [reflexivity|].
    split; [exact (replay_exchange_of 21 p_reply [] [] command)|].
    split; [reflexivity|].
    apply (proj2 (query_succeeds_on_first_valid_reply replay replay_serial 1 3 w
                    command p_reply (Replay [] []) ltac:(lia)));
      [reflexivity | exact (replay_exchange_of 21 p_reply [] [] command)
       | reflexivity].
Defined.

Lemma query_recovers_on_second_attempt_witness :
  (2 <= 3 /\ 1 <= 3 <= 9 /\ len (@nil Z) <= 15 /\
   EnergyGet.validate_response [] 3 = Ok false /\
   EnergyGet.validate_response scenario_frame 3 = Ok true /\
   fst (EnergyGet.query_probe 3 3 (boot (Replay [[]; scenario_frame] [])))
   = Ok (Some (EnergyGet.parse_response scenario_frame 3)))
  /\
  (1 <= 1 <= 9 /\ len [0xE8; 0x99] <= 21 /\
   PGet.validate_response [0xE8; 0x99] 1 = Ok false /\
   PGet.validate_response p_reply 1 = Ok true /\
   fst (PGet.query_probe 1 3 (boot (Replay [[0xE8; 0x99]; p_reply] [])))
   = Ok (Some (PGet.parse_response p_reply 1))).
Proof.
  assert (H0 : len (@nil Z) <= 15) by (vm_compute; discriminate).
  assert (H2 : len [0xE8; 0x99] <= 21) by (vm_compute; discriminate).
  split.
  - split; [lia|]. split; [lia|]. split; [exact H0|].
    split; [reflexivity|]. split; [reflexivity|].
    exact (f_equal fst (proj1 (query_recovers_on_second_attempt
                                 3 3 [] scenario_frame [] [] ltac:(lia) ltac:(lia))
                              H0 eq_refl eq_refl)).
  - split; [lia|]. split; [exact H2|]. split; [reflexivity|]. split; [reflexivity|].
    exact (f_equal fst (proj2 (query_recovers_on_second_attempt
                                 1 3 [0xE8; 0x99] p_reply [] [] ltac:(lia) ltac:(lia))
                              H2 eq_refl eq_refl)).
Defined.

(** ** Checksums and corrupted replies *)

(** Equations between XORs, bit by bit. *)
Ltac xor_bits :=
  apply Z.bits_inj'; intros ?n ?Hn; rewrite ?Z.lxor_spec, ?Z.bits_0;
  repeat match goal with
         | |- context [Z.testbit ?a ?n] => destruct (Z.testbit a n)
         end;
  reflexivity.

Lemma fold_lxor_acc (l : list Z) :
  forall acc, fold_left (fun bcc byte => Z.lxor bcc byte) l acc
              = Z.lxor acc (fold_left (fun bcc byte => Z.lxor bcc byte) l 0).
Proof.
  induction l as [|x l IH]; intros acc; cbn [fold_left].
  - now rewrite Z.lxor_0_r.
  - rewrite (IH (Z.lxor acc x)), (IH (Z.lxor 0 x)). xor_bits.
Qed.

Lemma xor_fold_cons (x : Z) (l : list Z) : xor_fold (x :: l) = Z.lxor x (xor_fold l).
Proof.
  rewrite <- !bcc_is_xor_fold. cbn [fold_left]. rewrite fold_lxor_acc. xor_bits.
Qed.

Lemma xor_fold_snoc (l : list Z) (c : Z) : xor_fold (l ++ [c]) = Z.lxor (xor_fold l) c.
Proof.
  rewrite <- !bcc_is_xor_fold, fold_left_app. reflexivity.
Qed.

(** The checksum test of a frame, read on the whole frame: the last byte is
    the XOR of the others exactly when the XOR of all the bytes is zero. *)
Theorem checksum_holds_iff_frame_xors_to_zero :
  forall frame : bytes,
    frame <> [] ->
    (last_byte frame = EnergyGet.calculate_bcc (but_last frame)
     <-> EnergyGet.calculate_bcc frame = 0) /\
    (last_byte frame = PGet.calculate_bcc (but_last frame)
     <-> PGet.calculate_bcc frame = 0).
Proof.
  intros frame Hne.
  destruct (exists_last Hne) as (body & c & ->).
  unfold EnergyGet.calculate_bcc, PGet.calculate_bcc.
  rewrite last_byte_snoc, but_last_snoc, !bcc_is_xor_fold, xor_fold_snoc.
  assert (Hiff : c = xor_fold body <-> Z.lxor (xor_fold body) c = 0).
  { rewrite Z.lxor_eq_0_iff. split; congruence. }
  split; exact Hiff.
Qed.

Lemma checksum_holds_iff_frame_xors_to_zero_witness :
  scenario_frame <> [] /\
  (last_byte scenario_frame = EnergyGet.calculate_bcc (but_last scenario_frame)
   <-> EnergyGet.calculate_bcc scenario_frame = 0).
Proof.
  assert (Hne : scenario_frame <> []) by discriminate.
  split; [exact Hne|].
  exact (proj1 (checksum_holds_iff_frame_xors_to_zero scenario_frame Hne)).
Defined.

Lemma replace_at_assign (l : list Z) :
  forall i v, replace_at l i v = PSet.assign l i v.
Proof.
  induction l as [|x l IH]; intros [|i] v; cbn; reflexivity.
Qed.

Lemma replace_at_app (body : list Z) (c : Z) :
  forall i v,
    replace_at (body ++ [c]) i v
    = if (i <? List.length body)%nat then replace_at body i v ++ [c]
      else if (i =? List.length body)%nat then body ++ [v]
           else body ++ [c].
Proof.
  induction body as [|x body IH]; intros i v.
  - destruct i; reflexivity.
  - destruct i as [|i]; [reflexivity|].
    cbn [replace_at app List.length]. rewrite IH.
    change (S i <? S (List.length body))%nat with (i <? List.length body)%nat.
    change (S i =? S (List.length body))%nat with (i =? List.length body)%nat.
    destruct (i <? List.length body)%nat; [reflexivity|].
    destruct (i =? List.length body)%nat; reflexivity.
Qed.

Lemma xor_fold_replace (l : list Z) :
  forall i v, (i < List.length l)%nat ->
              xor_fold (replace_at l i v) = Z.lxor (xor_fold l) (Z.lxor (nth i l 0) v).
Proof.
  induction l as [|x l IH]; intros [|i] v Hi; cbn [List.length] in Hi; try lia;
    cbn [replace_at nth]; rewrite !xor_fold_cons.
  - xor_bits.
  - rewrite IH by lia. xor_bits.
Qed.

Lemma at_app_body (body : list Z) (c : Z) (i : nat) :
  (i < List.length body)%nat -> at_ (body ++ [c]) i = at_ body i.
Proof. intros Hi. unfold at_. now apply app_nth1. Qed.

Lemma at_app_last (body : list Z) (c : Z) : at_ (body ++ [c]) (List.length body) = c.
Proof. unfold at_. rewrite app_nth2 by lia. now rewrite Nat.sub_diag. Qed.

(** A well-formed reply with one byte changed is no longer well-formed. *)
Lemma corrupted_is_ill_formed (n param : Z) (response : bytes) (i : nat) (v : Z) :
  4 <= n ->
  (len response = n /\ at_ response 0 = 0xE8 /\ at_ response 1 = 0x99 /\
   at_ response 2 = param /\ last_byte response = xor_fold (but_last response)) ->
  (i < List.length response)%nat ->
  v <> at_ response i ->
  ~ (len (replace_at response i v) = n /\ at_ (replace_at response i v) 0 = 0xE8 /\
     at_ (replace_at response i v) 1 = 0x99 /\ at_ (replace_at response i v) 2 = param /\
     last_byte (replace_at response i v) = xor_fold (but_last (replace_at response i v))).
Proof.
  intros Hn (Hlen & H0 & H1 & H2 & Hsum) Hi Hv (Hlen' & H0' & H1' & H2' & Hsum').
  assert (Hne : response <> []) by (intros ->; unfold len in Hlen; simpl in Hlen; lia).
  destruct (exists_last Hne) as (body & c & ->).
  rewrite last_byte_snoc, but_last_snoc in Hsum.
  assert (Hb : (3 <= List.length body)%nat).
  { unfold len in Hlen. rewrite length_app in Hlen. simpl in Hlen. lia. }
  rewrite length_app in Hi. cbn [List.length] in Hi.
  rewrite replace_at_app in H0', H1', H2', Hsum'.
  destruct (Nat.ltb_spec i (List.length body)) as [Hlt|Hge].
  - rewrite last_byte_snoc, but_last_snoc in Hsum'.
    rewrite at_app_body in Hv by exact Hlt.
    rewrite at_app_body in H0, H1, H2 by lia.
    rewrite at_app_body in H0', H1', H2'
      by (rewrite replace_at_assign, assign_length; lia).
    rewrite replace_at_assign in H0', H1', H2'.
    destruct (Nat.eq_dec i 0) as [->|Hi0];
      [rewrite assign_same in H0' by lia; congruence|].
    destruct (Nat.eq_dec i 1) as [->|Hi1];
      [rewrite assign_same in H1' by lia; congruence|].
    destruct (Nat.eq_dec i 2) as [->|Hi2];
      [rewrite assign_same in H2' by lia; congruence|].
    rewrite xor_fold_replace in Hsum' by exact Hlt.
    rewrite Hsum in Hsum'.
    assert (Hz : nth i body 0 = v).
    { apply Z.lxor_eq_0_iff.
      transitivity (Z.lxor (xor_fold body)
                           (Z.lxor (xor_fold body) (Z.lxor (nth i body 0) v)));
        [xor_bits | rewrite <- Hsum'; apply Z.lxor_nilpotent]. }
    apply Hv. unfold at_. congruence.
  - assert (Ei : i = List.length body) by lia. subst i.
    rewrite Nat.eqb_refl in Hsum'.
    rewrite last_byte_snoc, but_last_snoc in Hsum'.
    rewrite at_app_last in Hv. congruence.
Qed.

(** Changing any single byte of a reply that the classifier accepts (a header
    byte, the echoed parameter code, a data byte or the checksum byte) to any
    other value gives a reply that the classifier rejects. *)
Theorem single_byte_corruption_is_rejected :
  forall (probe : Z) (response : bytes) (i : nat) (v : Z),
    v <> at_ response i ->
    (EnergyGet.validate_response response probe = Ok true ->
     (i < 15)%nat ->
     EnergyGet.validate_response (replace_at response i v) probe = Ok false)
    /\
    (PGet.validate_response response probe = Ok true ->
     (i < 21)%nat ->
     PGet.validate_response (replace_at response i v) probe = Ok false).
Proof.
  intros probe response i v Hv. split; intros Hok Hi.
  - destruct (lookup probe EnergyGet.PROBE_PARAMS) as [param|] eqn:El.
    + destruct (energy_validate_spec response probe param El) as (b & Hb & Hiff).
      rewrite Hok in Hb. injection Hb as <-.
      pose proof (proj1 Hiff eq_refl) as Hwf.
      destruct (energy_validate_spec (replace_at response i v) probe param El)
        as (b' & Hb' & Hiff').
      rewrite Hb'. destruct b'; [|reflexivity]. exfalso.
      assert (Hin : (i < List.length response)%nat)
        by (destruct Hwf as [Hlen _]; unfold len in Hlen; lia).
      apply (corrupted_is_ill_formed 15 param response i v ltac:(lia) Hwf Hin Hv).
      now apply Hiff'.
    + unfold EnergyGet.validate_response in Hok. rewrite El in Hok.
      destruct (negb _); [discriminate|]. destruct (_ || _)%bool; discriminate.
  - destruct (lookup probe PGet.PROBE_PARAMS) as [param|] eqn:El.
    + destruct (p_validate_spec response probe param El) as (b & Hb & Hiff).
      rewrite Hok in Hb. injection Hb as <-.
      pose proof (proj1 Hiff eq_refl) as Hwf.
      destruct (p_validate_spec (replace_at response i v) probe param El)
        as (b' & Hb' & Hiff').
      rewrite Hb'. destruct b'; [|reflexivity]. exfalso.
      assert (Hin : (i < List.length response)%nat)
        by (destruct Hwf as [Hlen _]; unfold len in Hlen; lia).
      apply (corrupted_is_ill_formed 21 param response i v ltac:(lia) Hwf Hin Hv).
      now apply Hiff'.
    + unfold PGet.validate_response in Hok. rewrite El in Hok.
      destruct (negb _); [discriminate|]. destruct (_ || _)%bool; discriminate.
Qed.

Lemma single_byte_corruption_is_rejected_witness :
  7 <> at_ scenario_frame 5 /\
  EnergyGet.validate_response scenario_frame 3 = Ok true /\
  (5 < 15)%nat /\
  EnergyGet.validate_response (replace_at scenario_frame 5 7) 3 = Ok false.
Proof.
  assert (Hv : 7 <> at_ scenario_frame 5) by discriminate.
  split; [exact Hv|]. split; [reflexivity|]. split; [lia|].
  apply (proj1 (single_byte_corruption_is_rejected 3 scenario_frame 5 7 Hv));
    [reflexivity | lia].
Defined.

(** ** The write frame and the reply share one layout *)

(** Decoding inverts encoding: the parser of the energy reader, applied to
    the frame the energy setter builds from nine values, gives back those
    nine values (and the two fixed bytes 0x2C, 0x40); the seventeen values
    that the P-value setter and reader take from a frame built by the
    P-value setter are the values it was built from. *)
Theorem parse_inverts_build :
  (forall (param1 e1 t1 th1 e2 t2 th2 e3 t3 th3 probe : Z) (frame : bytes),
      EnergySet.full_command param1 e1 t1 th1 e2 t2 th2 e3 t3 th3 = Ok frame ->
      let parsed := EnergyGet.parse_response frame probe in
      EnergyGet.range_2_5m parsed = EnergyGet.RangeParams e1 t1 th1 /\
      EnergyGet.range_1_5m parsed = EnergyGet.RangeParams e2 t2 th2 /\
      EnergyGet.range_6_5m parsed = EnergyGet.RangeParams e3 t3 th3 /\
      EnergyGet.fixed_params parsed = ("0x2C", "0x40")%string)
  /\
  (forall (param1 probe : Z) (p_values frame : list Z),
      len p_values = 17 ->
      PSet.full_command param1 p_values = Ok frame ->
      slice frame 3 20 = p_values /\
      (let parsed := PGet.parse_response frame probe in
       map (fun e => PGet.main_value (snd e)) (PGet.main_phase_params parsed)
       ++ map (fun e => PGet.aux_value (snd e)) (PGet.auxiliary_params parsed)
       = p_values)).
Proof.
  split.
  - intros param1 e1 t1 th1 e2 t2 th2 e3 t3 th3 probe frame.
    unfold EnergySet.full_command.
    destruct (mk_bytes _) as [command|] eqn:Ec; [|discriminate].
    destruct (mk_bytes [EnergySet.calculate_bcc command]) as [tail|] eqn:Et; [|discriminate].
    intros E. injection E as <-.
    apply mk_bytes_ok in Ec, Et. subst tail command.
    repeat split; reflexivity.
  - intros param1 probe p_values frame Hlen.
    unfold PSet.full_command.
    destruct (mk_bytes _) as [command|] eqn:Ec; [|discriminate].
    destruct (mk_bytes [PSet.calculate_bcc command]) as [tail|] eqn:Et; [|discriminate].
    intros E. injection E as <-.
    apply mk_bytes_ok in Ec, Et. subst tail command.
    assert (Hl : List.length p_values = 17%nat) by (unfold len in Hlen; lia).
    do 17 (destruct p_values as [|? p_values]; [discriminate Hl|]).
    destruct p_values; [|discriminate Hl].
    split; reflexivity.
Qed.

Lemma parse_inverts_build_witness :
  (EnergySet.full_command 0xB3 2 2 2 1 0 2 5 6 2
   = Ok [0xE8; 0x99; 0xB3; 2; 2; 2; 1; 0; 2; 5; 6; 2; 0x2C; 0x40; 0xAE] /\
   EnergyGet.range_1_5m
     (EnergyGet.parse_response
        [0xE8; 0x99; 0xB3; 2; 2; 2; 1; 0; 2; 5; 6; 2; 0x2C; 0x40; 0xAE] 3)
   = EnergyGet.RangeParams 1 0 2)
  /\
  (let p_values := [31; 31; 31; 30; 26; 21; 16; 16; 13; 0; 0; 0; 0; 3; 1; 0; 1] in
   let frame := [0xE8; 0x99; 0xC1] ++ p_values ++ [0xB0] in
   len p_values = 17 /\ PSet.full_command 0xC1 p_values = Ok frame /\
   slice frame 3 20 = p_values).
Proof.
  split.
  - split; [reflexivity|].
    apply (proj1 parse_inverts_build 0xB3 2 2 2 1 0 2 5 6 2 3). reflexivity.
  - intros p_values frame. split; [reflexivity|]. split; [reflexivity|].
    apply (proj2 parse_inverts_build 0xC1 1 p_values frame); reflexivity.
Defined.

(** ** The parsed P-value result *)

Ltac in_table := cbn [In]; repeat (first [left; reflexivity | right]).

(** The parser of the P-value reader builds one entry for each of P1 to P12
    and one for each of P13 to P17, in that order; every name it generates is
    a key of the tables it indexes, so the description of each entry is the
    one of [P_DESCRIPTIONS] and the default of each auxiliary entry is the
    one of [DEFAULT_AUX_VALUES], against which [is_default] compares the
    value. *)
Theorem p_parse_entries_follow_the_tables :
  forall (response : bytes) (probe : Z),
    let parsed := PGet.parse_response response probe in
    map fst (PGet.main_phase_params parsed) ++ map fst (PGet.auxiliary_params parsed)
    = map fst PGet.P_DESCRIPTIONS /\
    List.length (PGet.main_phase_params parsed) = 12%nat /\
    Forall (fun e => In (fst e, PGet.main_range (snd e)) PGet.P_DESCRIPTIONS)
           (PGet.main_phase_params parsed) /\
    Forall (fun e => In (fst e, PGet.aux_description (snd e)) PGet.P_DESCRIPTIONS /\
                     exists d, In (fst e, d) PGet.DEFAULT_AUX_VALUES /\
                               PGet.aux_default (snd e) = ("0x" ++ hex02 d)%string /\
                               PGet.aux_is_default (snd e) = (PGet.aux_value (snd e) =? d))
           (PGet.auxiliary_params parsed).
Proof.
  intros response probe parsed. subst parsed.
  split; [reflexivity|]. split; [reflexivity|]. split.
  - unfold PGet.parse_response. cbn [PGet.main_phase_params].
    repeat (apply Forall_cons; [in_table|]). apply Forall_nil.
  - unfold PGet.parse_response. cbn [PGet.auxiliary_params].
    repeat (apply Forall_cons;
            [split; [in_table | eexists; split; [in_table | split; reflexivity]]|]).
    apply Forall_nil.
Qed.

(** ** The write engine on an arbitrary port *)

Lemma energy_set_outside (probe : Z) :
  ~ 1 <= probe <= 12 -> lookup probe EnergySet.PROBE_TEMP_PARAMS = None.
Proof.
  intros Hp. unfold EnergySet.PROBE_TEMP_PARAMS. cbn [lookup].
  repeat match goal with
         | |- context [probe =? ?k] => destruct (Z.eqb_spec probe k); [lia|]
         end.
  reflexivity.
Qed.

Lemma p_set_outside (probe : Z) :
  ~ 1 <= probe <= 9 -> lookup probe PSet.PROBE_TEMP_PARAMS = None.
Proof.
  intros Hp. unfold PSet.PROBE_TEMP_PARAMS. cbn [lookup].
  repeat match goal with
         | |- context [probe =? ?k] => destruct (Z.eqb_spec probe k); [lia|]
         end.
  reflexivity.
Qed.

Section AnyPortWrites.
Context {port : Type} `{Serial port}.

Lemma energy_set_attempt_any (command : bytes) (max_retries a : Z)
      (w0 w : world port) (n : Z) :
  sent_only command w0 n w ->
  exists f w', EnergySet.set_attempt command max_retries a w = (Ok f, w') /\
    match f with
    | Next => sent_only command w0 (n + 1) w'
    | Return r => sent_only command w0 (n + 1) w'
    end.
Proof.
  intros Hc. unfold EnergySet.set_attempt, try_except, bind, reset_input_buffer,
    write, flush, read, sleep, call, ret.
  cbn. run_port; try (destruct (a <? max_retries - 1); cbn; pass_done).
  destruct (negb (_ =? len command)); cbn; try pass_done.
  match goal with |- context [dev_read ?k ?p] =>
    destruct (dev_read k p) as [[response|?] ?] eqn:Eread; cbn;
    try (destruct (a <? max_retries - 1); cbn; pass_done)
  end.
  destruct (len response >=? 5); cbn;
    [|destruct (a <? max_retries - 1); cbn; pass_done].
  destruct ((at_ response 0 =? EnergySet.ADDR_CODE)
            && (at_ response 1 =? EnergySet.CMD_CODE))%bool; cbn;
    [|destruct (a <? max_retries - 1); cbn; pass_done].
  destruct (at_ response 3 =? 0); cbn; [pass_done|].
  destruct (at_ response 3 =? 2); cbn; [pass_done|].
  destruct (at_ response 3 =? 255); cbn; [pass_done|].
  destruct (a <? max_retries - 1); cbn; pass_done.
Qed.

Lemma p_set_attempt_any (command : bytes) (max_retries a : Z)
      (w0 w : world port) (n : Z) :
  sent_only command w0 n w ->
  exists f w', PSet.set_attempt command max_retries a w = (Ok f, w') /\
    match f with
    | Next => sent_only command w0 (n + 1) w'
    | Return r => sent_only command w0 (n + 1) w'
    end.
Proof.
  intros Hc. unfold PSet.set_attempt, try_except, bind, reset_input_buffer,
    write, flush, read, sleep, call, ret.
  cbn. run_port; try (destruct (a <? max_retries - 1); cbn; pass_done).
  destruct (negb (_ =? len command)); cbn; try pass_done.
  match goal with |- context [dev_read ?k ?p] =>
    destruct (dev_read k p) as [[response|?] ?] eqn:Eread; cbn;
    try (destruct (a <? max_retries - 1); cbn; pass_done)
  end.
  destruct (len response >=? 5); cbn;
    [|destruct (a <? max_retries - 1); cbn; pass_done].
  destruct ((at_ response 0 =? PSet.ADDR_CODE)
            && (at_ response 1 =? PSet.CMD_CODE))%bool; cbn;
    [|destruct (a <? max_retries - 1); cbn; pass_done].
  destruct (at_ response 3 =? 0); cbn; [pass_done|].
  destruct (at_ response 3 =? 2); cbn; [pass_done|].
  destruct (at_ response 3 =? 255); cbn; [pass_done|].
  destruct (a <? max_retries - 1); cbn; pass_done.
Qed.

(** A run of a retry loop of the write engine. *)
Lemma set_loop_run (body : Z -> M port (flow bool)) (command : bytes)
      (max_retries : Z) (w : world port) :
  (forall a w1 n, sent_only command w n w1 ->
     exists f w', body a w1 = (Ok f, w') /\
       match f with
       | Next => sent_only command w (n + 1) w'
       | Return r => sent_only command w (n + 1) w'
       end) ->
  exists r w' k,
    for_each body (range max_retries) (ret false) w = (Ok r, w') /\
    0 <= k <= Z.max 0 max_retries /\
    (1 <= max_retries -> 1 <= k) /\
    (r = true -> 1 <= k) /\
    sent_only command w k w'.
Proof.
  intros Hbody.
  destruct (for_each_outcome body (ret false) (sent_only command w)
              (fun k (_ : bool) w' => sent_only command w k w')
              Hbody (range max_retries) w 0 (sent_only_start command w))
    as (w1 & k & Hk & Hcase).
  rewrite len_range_any in Hk.
  destruct Hcase as [(r & E & Hs & Hlt) | (Ek & HP & E)].
  - exists r, w1, k. split; [exact E|]. split; [lia|]. split; [lia|].
    split; [lia | exact Hs].
  - exists false, w1, k. split; [rewrite E; reflexivity|]. split; [lia|].
    rewrite len_range_any in Ek. split; [lia|].
    split; [discriminate | exact HP].
Qed.

End AnyPortWrites.

(** For integer arguments, the write engine never raises, whatever the port
    does.  When the arguments are refused (a probe outside the table, a
    value out of range, or a P-value list that has not seventeen elements) it
    returns [False] and makes no call on the port.  Otherwise it makes
    between one and [max_retries] attempts (none when the budget is not
    positive), it returns [True] only after at least one attempt, and the
    only bytes it writes are copies of the frame built from its arguments, at
    most one per attempt. *)
Theorem write_never_raises_and_sends_only_its_frame :
  (forall (port : Type) (S : Serial port) (probe : Z)
          (e1 t1 th1 e2 t2 th2 e3 t3 th3 : Z) (permanent : bool) (max_retries : Z)
          (w : world port),
      (~ (1 <= probe <= 12 /\
          (0 <= e1 <= 7 /\ 0 <= e2 <= 7 /\ 0 <= e3 <= 7) /\
          (0 <= t1 <= 7 /\ 0 <= t2 <= 7 /\ 0 <= t3 <= 7) /\
          (0 <= th1 <= 3 /\ 0 <= th2 <= 3 /\ 0 <= th3 <= 3)) ->
       EnergySet.set_probe_params probe e1 t1 th1 e2 t2 th2 e3 t3 th3
                                  permanent max_retries w = (Ok false, w))
      /\
      (1 <= probe <= 12 ->
       (0 <= e1 <= 7 /\ 0 <= e2 <= 7 /\ 0 <= e3 <= 7) ->
       (0 <= t1 <= 7 /\ 0 <= t2 <= 7 /\ 0 <= t3 <= 7) ->
       (0 <= th1 <= 3 /\ 0 <= th2 <= 3 /\ 0 <= th3 <= 3) ->
       exists command r w' k,
         EnergySet.full_command (if permanent then 0x70 + probe else 0xB0 + probe)
                                e1 t1 th1 e2 t2 th2 e3 t3 th3 = Ok command /\
         EnergySet.set_probe_params probe e1 t1 th1 e2 t2 th2 e3 t3 th3
                                    permanent max_retries w = (Ok r, w') /\
         0 <= k <= Z.max 0 max_retries /\
         (1 <= max_retries -> 1 <= k) /\
         (r = true -> 1 <= k) /\
         sent_only command w k w'))
  /\
  (forall (port : Type) (S : Serial port) (probe : Z) (p_values : list Z)
          (permanent : bool) (max_retries : Z) (w : world port),
      (~ (1 <= probe <= 9 /\ len p_values = 17 /\
          forall v, In v p_values -> 0 <= v <= 31) ->
       PSet.set_probe_p_values probe p_values permanent max_retries w = (Ok false, w))
      /\
      (1 <= probe <= 9 ->
       len p_values = 17 ->
       (forall v, In v p_values -> 0 <= v <= 31) ->
       exists command r w' k,
         PSet.full_command (if permanent then 0x80 + probe else 0xC0 + probe) p_values
         = Ok command /\
         PSet.set_probe_p_values probe p_values permanent max_retries w = (Ok r, w') /\
         0 <= k <= Z.max 0 max_retries /\
         (1 <= max_retries -> 1 <= k) /\
         (r = true -> 1 <= k) /\
         sent_only command w k w')).
Proof.
  split.
  - intros port S probe e1 t1 th1 e2 t2 th2 e3 t3 th3 permanent max_retries w.
    split.
    + intros Hbad.
      destruct (lookup probe EnergySet.PROBE_TEMP_PARAMS) as [c|] eqn:Hl;
        [|unfold EnergySet.set_probe_params; now rewrite Hl].
      assert (Hp : 1 <= probe <= 12).
      { destruct (Z_le_gt_dec 1 probe), (Z_le_gt_dec probe 12); try lia;
          rewrite energy_set_outside in Hl by lia; discriminate. }
      destruct (negb (EnergySet.within e1 7 && EnergySet.within e2 7
                      && EnergySet.within e3 7)) eqn:He;
        [unfold EnergySet.set_probe_params; now rewrite Hl, He|].
      destruct (negb (EnergySet.within t1 7 && EnergySet.within t2 7
                      && EnergySet.within t3 7)) eqn:Ht;
        [unfold EnergySet.set_probe_params; now rewrite Hl, He, Ht|].
      destruct (negb (EnergySet.within th1 3 && EnergySet.within th2 3
                      && EnergySet.within th3 3)) eqn:Hth;
        [unfold EnergySet.set_probe_params; now rewrite Hl, He, Ht, Hth|].
      exfalso. apply Hbad.
      apply negb_false_iff in He, Ht, Hth.
      rewrite !andb_true_iff, !within_iff in He, Ht, Hth. tauto.
    + intros Hp He Ht Hth.
      destruct (energy_set_unfold probe e1 t1 th1 e2 t2 th2 e3 t3 th3 permanent
                  Hp He Ht Hth) as (command & Hcmd & Hrun).
      destruct (set_loop_run (EnergySet.set_attempt command max_retries) command
                  max_retries w
                  (fun a w1 n => energy_set_attempt_any command max_retries a w w1 n))
        as (r & w' & k & E & Hk & Hfirst & Hr & Hs).
      exists command, r, w', k. rewrite Hrun.
      split; [exact Hcmd|]. split; [exact E|]. split; [exact Hk|].
      split; [exact Hfirst|]. split; [exact Hr | exact Hs].
  - intros port S probe p_values permanent max_retries w.
    split.
    + intros Hbad.
      destruct (lookup probe PSet.PROBE_TEMP_PARAMS) as [c|] eqn:Hl;
        [|unfold PSet.set_probe_p_values; now rewrite Hl].
      assert (Hp : 1 <= probe <= 9).
      { destruct (Z_le_gt_dec 1 probe), (Z_le_gt_dec probe 9); try lia;
          rewrite p_set_outside in Hl by lia; discriminate. }
      destruct (len p_values =? 17) eqn:Hlen;
        [|unfold PSet.set_probe_p_values; now rewrite Hl, Hlen].
      destruct (forallb (fun p_val => (0 <=? p_val) && (p_val <=? 31)) p_values) eqn:Hall;
        [|unfold PSet.set_probe_p_values; now rewrite Hl, Hlen, Hall].
      exfalso. apply Hbad. apply Z.eqb_eq in Hlen.
      split; [exact Hp|]. split; [exact Hlen|].
      intros v Hin. rewrite forallb_forall in Hall. specialize (Hall v Hin).
      apply andb_true_iff in Hall as [H1 H2]. apply Z.leb_le in H1, H2. lia.
    + intros Hp Hlen Hv.
      destruct (p_set_unfold probe p_values permanent Hp Hlen Hv)
        as (command & Hcmd & Hrun).
      destruct (set_loop_run (PSet.set_attempt command max_retries) command
                  max_retries w
                  (fun a w1 n => p_set_attempt_any command max_retries a w w1 n))
        as (r & w' & k & E & Hk & Hfirst & Hr & Hs).
      exists command, r, w', k. rewrite Hrun.
      split; [exact Hcmd|]. split; [exact E|]. split; [exact Hk|].
      split; [exact Hfirst|]. split; [exact Hr | exact Hs].
Qed.

Lemma write_never_raises_and_sends_only_its_frame_witness :
  (~ (1 <= 10 <= 9 /\
      len [19; 19; 19; 31; 31; 31; 31; 31; 31; 31; 31; 31; 0; 3; 1; 0; 1] = 17 /\
      forall v, In v [19; 19; 19; 31; 31; 31; 31; 31; 31; 31; 31; 31; 0; 3; 1; 0; 1] ->
                0 <= v <= 31) /\
   PSet.set_probe_p_values 10 [19; 19; 19; 31; 31; 31; 31; 31; 31; 31; 31; 31; 0; 3; 1; 0; 1]
                           false 3 (boot Stubborn)
   = (Ok false, boot Stubborn))
  /\
  (1 <= 12 <= 12 /\
   exists command r w' k,
     EnergySet.full_command (0xB0 + 12) 3 2 2 1 0 2 5 6 2 = Ok command /\
     EnergySet.set_probe_params 12 3 2 2 1 0 2 5 6 2 false 3 (boot Stubborn)
     = (Ok r, w') /\
     0 <= k <= Z.max 0 3 /\
     (1 <= 3 -> 1 <= k) /\
     (r = true -> 1 <= k) /\
     sent_only command (boot Stubborn) k w').
Proof.
  split.
  - split; [lia|].
    apply (proj1 (proj2 write_never_raises_and_sends_only_its_frame
                        stubborn stubborn_serial 10
                        [19; 19; 19; 31; 31; 31; 31; 31; 31; 31; 31; 31; 0; 3; 1; 0; 1]
                        false 3 (boot Stubborn))).
    lia.
  - split; [lia|].
    apply (proj2 (proj1 write_never_raises_and_sends_only_its_frame
                        stubborn stubborn_serial 12 3 2 2 1 0 2 5 6 2
                        false 3 (boot Stubborn)));
      lia.
Defined.

(** Runs one pass of a write loop on the replaying port. *)
Ltac run_replay_pass :=
  unfold try_except, bind, reset_input_buffer, write, flush, read, sleep, call, ret;
  cbn [dev log dev_reset_input_buffer dev_write dev_flush dev_read replay_serial
       pending idle app];
  rewrite Z.eqb_refl;
  cbn [negb dev log pending idle app].

(** On a port that replays a script, a short or absent acknowledgement is a
    communication failure that costs one attempt: after the 300 ms retry
    delay the same frame is written again, and the acknowledgement with
    status 0x00 that follows makes the write return [True]. *)
Theorem write_recovers_on_second_attempt :
  forall (bad good : bytes) (rest : list bytes) (quiet : bytes)
         (permanent : bool) (max_retries : Z),
    2 <= max_retries ->
    len bad < 5 ->
    len good = 5 -> at_ good 0 = 0xE8 -> at_ good 1 = 0x99 -> at_ good 3 = 0x00 ->
    (forall probe e1 t1 th1 e2 t2 th2 e3 t3 th3 : Z,
        1 <= probe <= 12 ->
        (0 <= e1 <= 7 /\ 0 <= e2 <= 7 /\ 0 <= e3 <= 7) ->
        (0 <= t1 <= 7 /\ 0 <= t2 <= 7 /\ 0 <= t3 <= 7) ->
        (0 <= th1 <= 3 /\ 0 <= th2 <= 3 /\ 0 <= th3 <= 3) ->
        exists command,
          EnergySet.full_command (if permanent then 0x70 + probe else 0xB0 + probe)
                                 e1 t1 th1 e2 t2 th2 e3 t3 th3 = Ok command /\
          EnergySet.set_probe_params probe e1 t1 th1 e2 t2 th2 e3 t3 th3
            permanent max_retries (boot (Replay (bad :: good :: rest) quiet))
          = (Ok true,
             World (Replay rest quiet)
                   (one_write_attempt command ++ [EvSleep 300]
                      ++ one_write_attempt command)))
    /\
    (forall (probe : Z) (p_values : list Z),
        1 <= probe <= 9 ->
        len p_values = 17 ->
        (forall v, In v p_values -> 0 <= v <= 31) ->
        exists command,
          PSet.full_command (if permanent then 0x80 + probe else 0xC0 + probe) p_values
          = Ok command /\
          PSet.set_probe_p_values probe p_values permanent max_retries
            (boot (Replay (bad :: good :: rest) quiet))
          = (Ok true,
             World (Replay rest quiet)
                   (one_write_attempt command ++ [EvSleep 300]
                      ++ one_write_attempt command))).
Proof.
  intros bad good rest quiet permanent max_retries Hmax Hbad Hlg H0 H1 H3.
  destruct (range_starts_at_0_1 max_retries Hmax) as (more & Hrange).
  assert (Hretry : (0 <? max_retries - 1) = true) by (apply Z.ltb_lt; lia).
  assert (Hfb : firstn (Z.to_nat 5) bad = bad) by (apply firstn_short; lia).
  assert (Hfg : firstn (Z.to_nat 5) good = good) by (apply firstn_short; lia).
  assert (Hgb : (len bad >=? 5) = false) by (rewrite Z.geb_leb; apply Z.leb_gt; lia).
  assert (Hgg : (len good >=? 5) = true) by (rewrite Z.geb_leb; apply Z.leb_le; lia).
  split.
  - intros probe e1 t1 th1 e2 t2 th2 e3 t3 th3 Hp He Ht Hth.
    destruct (energy_set_unfold (port := replay) probe e1 t1 th1 e2 t2 th2 e3 t3 th3
                permanent Hp He Ht Hth) as (command & Hcmd & Hrun).
    exists command. split; [exact Hcmd|].
    rewrite Hrun, Hrange. cbn [for_each]. unfold boot.
    unfold EnergySet.set_attempt at 1. run_replay_pass.
    rewrite Hfb, Hgb, Hretry. cbn [dev log app].
    unfold EnergySet.set_attempt. run_replay_pass.
    rewrite Hfg, Hgg, H0, H1, H3. reflexivity.
  - intros probe p_values Hp Hlen Hv.
    destruct (p_set_unfold (port := replay) probe p_values permanent Hp Hlen Hv)
      as (command & Hcmd & Hrun).
    exists command. split; [exact Hcmd|].
    rewrite Hrun, Hrange. cbn [for_each]. unfold boot.
    unfold PSet.set_attempt at 1. run_replay_pass.
    rewrite Hfb, Hgb, Hretry. cbn [dev log app].
    unfold PSet.set_attempt. run_replay_pass.
    rewrite Hfg, Hgg, H0, H1, H3. reflexivity.
Qed.

Lemma write_recovers_on_second_attempt_witness :
  2 <= 3 /\ len [0xE8; 0x99] < 5 /\ len (ack 0) = 5 /\
  at_ (ack 0) 0 = 0xE8 /\ at_ (ack 0) 1 = 0x99 /\ at_ (ack 0) 3 = 0x00 /\
  1 <= 1 <= 12 /\
  fst (EnergySet.set_probe_params 1 3 2 2 1 0 2 5 6 2 false 3
         (boot (Replay [[0xE8; 0x99]; ack 0] []))) = Ok true.
Proof.
  assert (Hb : len [0xE8; 0x99] < 5) by reflexivity.
  split; [lia|]. split; [exact Hb|]. split; [reflexivity|].
  split; [reflexivity|]. split; [reflexivity|]. split; [reflexivity|].
  split; [lia|].
  destruct (proj1 (write_recovers_on_second_attempt [0xE8; 0x99] (ack 0) [] [] false 3
                     ltac:(lia) Hb eq_refl eq_refl eq_refl eq_refl)
                  1 3 2 2 1 0 2 5 6 2 ltac:(lia) ltac:(lia) ltac:(lia) ltac:(lia))
    as (command & _ & Hrun).
  exact (f_equal fst Hrun).
Defined.

(** ** The reads of the setters *)

Lemma energy_set_query_domain (probe : Z) :
  1 <= probe <= 12 ->
  lookup probe EnergySet.PROBE_QUERY_PARAMS = Some (0xD0 + probe) /\
  mk_bytes [EnergySet.ADDR_CODE; EnergySet.CMD_CODE; 0xD0 + probe;
            Z.lxor (Z.lxor EnergySet.ADDR_CODE EnergySet.CMD_CODE) (0xD0 + probe)]
  = Ok [0xE8; 0x99; 0xD0 + probe; Z.lxor (Z.lxor 0xE8 0x99) (0xD0 + probe)].
Proof.
  intros Hp.
  assert (Hc : probe = 1 \/ probe = 2 \/ probe = 3 \/ probe = 4 \/ probe = 5 \/
               probe = 6 \/ probe = 7 \/ probe = 8 \/ probe = 9 \/ probe = 10 \/
               probe = 11 \/ probe = 12) by lia.
  repeat (destruct Hc as [-> | Hc]; [split; reflexivity|]). subst; split; reflexivity.
Qed.

Lemma energy_set_query_outside (probe : Z) :
  ~ 1 <= probe <= 12 -> lookup probe EnergySet.PROBE_QUERY_PARAMS = None.
Proof.
  intros Hp. unfold EnergySet.PROBE_QUERY_PARAMS. cbn [lookup].
  repeat match goal with
         | |- context [probe =? ?k] => destruct (Z.eqb_spec probe k); [lia|]
         end.
  reflexivity.
Qed.

Lemma p_set_query_domain (probe : Z) :
  1 <= probe <= 9 ->
  lookup probe PSet.PROBE_QUERY_PARAMS = Some (0xE0 + probe) /\
  mk_bytes [PSet.ADDR_CODE; PSet.CMD_CODE; 0xE0 + probe;
            Z.lxor (Z.lxor PSet.ADDR_CODE PSet.CMD_CODE) (0xE0 + probe)]
  = Ok [0xE8; 0x99; 0xE0 + probe; Z.lxor (Z.lxor 0xE8 0x99) (0xE0 + probe)].
Proof.
  intros Hp.
  assert (Hc : probe = 1 \/ probe = 2 \/ probe = 3 \/ probe = 4 \/ probe = 5 \/
               probe = 6 \/ probe = 7 \/ probe = 8 \/ probe = 9) by lia.
  repeat (destruct Hc as [-> | Hc]; [split; reflexivity|]). subst; split; reflexivity.
Qed.

Lemma p_set_query_outside (probe : Z) :
  ~ 1 <= probe <= 9 -> lookup probe PSet.PROBE_QUERY_PARAMS = None.
Proof.
  intros Hp. unfold PSet.PROBE_QUERY_PARAMS. cbn [lookup].
  repeat match goal with
         | |- context [probe =? ?k] => destruct (Z.eqb_spec probe k); [lia|]
         end.
  reflexivity.
Qed.

Section AnyPortReads.
Context {port : Type} `{Serial port}.

(** The single pass of [read_probe_params] for a probe of the table. *)
Lemma energy_read_pass (probe : Z) (w0 w : world port) (n : Z) :
  1 <= probe <= 12 ->
  sent_only [0xE8; 0x99; 0xD0 + probe; Z.lxor (Z.lxor 0xE8 0x99) (0xD0 + probe)] w0 n w ->
  exists r w',
    EnergySet.read_probe_params probe w = (Ok r, w') /\
    sent_only [0xE8; 0x99; 0xD0 + probe; Z.lxor (Z.lxor 0xE8 0x99) (0xD0 + probe)]
              w0 (n + 1) w' /\
    ((forall k p, fst (dev_read k p) = Ok []) -> r = None).
Proof.
  intros Hp Hc. unfold EnergySet.read_probe_params.
  destruct (energy_set_query_domain probe Hp) as [-> Hq].
  unfold bind at 1, lift. rewrite Hq. clear Hq.
  match goal with
  | Hs : sent_only ?frame _ _ _ |- _ => generalize dependent frame
  end.
  intros command Hc.
  unfold try_except, bind, reset_input_buffer, write, flush, read, sleep, call, ret.
  cbn. run_port; try (pass_done; reflexivity).
  match goal with |- context [dev_read ?k ?p] =>
    pose proof (fun Hs : forall sz st, fst (dev_read sz st) = Ok [] => Hs k p) as Hsilent;
    destruct (dev_read k p) as [[response|?] ?] eqn:Eread; cbn;
    try (pass_done; reflexivity)
  end.
  destruct ((len response =? 15) && _)%bool eqn:Eok; cbn.
  - pass_done. intros Hs. specialize (Hsilent Hs). cbn in Hsilent.
    injection Hsilent as ->. discriminate Eok.
  - pass_done.
Qed.

(** The single pass of [read_probe_p_values] for a probe of the table. *)
Lemma p_read_pass (probe : Z) (w0 w : world port) (n : Z) :
  1 <= probe <= 9 ->
  sent_only [0xE8; 0x99; 0xE0 + probe; Z.lxor (Z.lxor 0xE8 0x99) (0xE0 + probe)] w0 n w ->
  exists r w',
    PSet.read_probe_p_values probe w = (Ok r, w') /\
    sent_only [0xE8; 0x99; 0xE0 + probe; Z.lxor (Z.lxor 0xE8 0x99) (0xE0 + probe)]
              w0 (n + 1) w' /\
    ((forall k p, fst (dev_read k p) = Ok []) -> r = None).
Proof.
  intros Hp Hc. unfold PSet.read_probe_p_values.
  destruct (p_set_query_domain probe Hp) as [-> Hq].
  unfold bind at 1, lift. rewrite Hq. clear Hq.
  match goal with
  | Hs : sent_only ?frame _ _ _ |- _ => generalize dependent frame
  end.
  intros command Hc.
  unfold try_except, bind, reset_input_buffer, write, flush, read, sleep, call, ret.
  cbn. run_port; try (pass_done; reflexivity).
  match goal with |- context [dev_read ?k ?p] =>
    pose proof (fun Hs : forall sz st, fst (dev_read sz st) = Ok [] => Hs k p) as Hsilent;
    destruct (dev_read k p) as [[response|?] ?] eqn:Eread; cbn;
    try (pass_done; reflexivity)
  end.
  destruct ((len response =? 21) && _ && _)%bool eqn:Eok; cbn.
  - pass_done. intros Hs. specialize (Hsilent Hs). cbn in Hsilent.
    injection Hsilent as ->. discriminate Eok.
  - pass_done.
Qed.

End AnyPortReads.

(** The reads of the two setters never raise and never retry, whatever the
    port does: for a probe of the query table they make exactly one attempt,
    in which the only bytes written are (at most once) the 4-byte query frame
    of that probe; for any other probe number they return [None] without a
    call on the port.  What the P-value read returns, when it returns
    something, is a list of seventeen values. *)
Theorem setter_reads_never_raise_and_never_retry :
  forall (port : Type) (S : Serial port) (probe : Z) (w : world port),
    (1 <= probe <= 12 ->
     exists r w',
       EnergySet.read_probe_params probe w = (Ok r, w') /\
       sent_only [0xE8; 0x99; 0xD0 + probe; Z.lxor (Z.lxor 0xE8 0x99) (0xD0 + probe)]
                 w 1 w')
    /\ (~ 1 <= probe <= 12 -> EnergySet.read_probe_params probe w = (Ok None, w))
    /\ (1 <= probe <= 9 ->
        exists r w',
          PSet.read_probe_p_values probe w = (Ok r, w') /\
          sent_only [0xE8; 0x99; 0xE0 + probe; Z.lxor (Z.lxor 0xE8 0x99) (0xE0 + probe)]
                    w 1 w' /\
          (forall values, r = Some values -> len values = 17))
    /\ (~ 1 <= probe <= 9 -> PSet.read_probe_p_values probe w = (Ok None, w)).
Proof.
  intros port S probe w. split; [|split; [|split]].
  - intros Hp.
    destruct (energy_read_pass probe w w 0 Hp (sent_only_start _ w))
      as (r & w' & E & Hs & _).
    exists r, w'. split; [exact E | exact Hs].
  - intros Hp. unfold EnergySet.read_probe_params.
    now rewrite (energy_set_query_outside probe Hp).
  - intros Hp.
    destruct (p_read_pass probe w w 0 Hp (sent_only_start _ w))
      as (r & w' & E & Hs & _).
    exists r, w'. split; [exact E|]. split; [exact Hs|].
    intros values ->. exact (p_read_gives_17 probe w w' values E).
  - intros Hp. unfold PSet.read_probe_p_values.
    now rewrite (p_set_query_outside probe Hp).
Qed.

Lemma setter_reads_never_raise_and_never_retry_witness :
  (1 <= 1 <= 12 /\
   exists r w',
     EnergySet.read_probe_params 1 (boot Mute) = (Ok r, w') /\
     sent_only [0xE8; 0x99; 0xD0 + 1; Z.lxor (Z.lxor 0xE8 0x99) (0xD0 + 1)]
               (boot Mute) 1 w')
  /\ (~ 1 <= 13 <= 12 /\ EnergySet.read_probe_params 13 (boot Mute) = (Ok None, boot Mute))
  /\ (1 <= 1 <= 9 /\
      exists r w',
        PSet.read_probe_p_values 1 (boot Mute) = (Ok r, w') /\
        sent_only [0xE8; 0x99; 0xE0 + 1; Z.lxor (Z.lxor 0xE8 0x99) (0xE0 + 1)]
                  (boot Mute) 1 w' /\
        (forall values, r = Some values -> len values = 17))
  /\ (~ 1 <= 10 <= 9 /\ PSet.read_probe_p_values 10 (boot Mute) = (Ok None, boot Mute)).
Proof.
  split; [|split; [|split]].
  - split; [lia|].
    apply (proj1 (setter_reads_never_raise_and_never_retry mute mute_serial 1 (boot Mute))).
    lia.
  - split; [lia|].
    apply (proj1 (proj2 (setter_reads_never_raise_and_never_retry
                           mute mute_serial 13 (boot Mute)))).
    lia.
  - split; [lia|].
    apply (proj1 (proj2 (proj2 (setter_reads_never_raise_and_never_retry
                                  mute mute_serial 1 (boot Mute))))).
    lia.
  - split; [lia|].
    apply (proj2 (proj2 (proj2 (setter_reads_never_raise_and_never_retry
                                  mute mute_serial 10 (boot Mute))))).
    lia.
Defined.

(** Neither setter checks which probe a reply comes from: a reply that the
    reader's classifier accepts for probe [b] is taken by the setter's read
    for probe [a] as the current profile of probe [a], whatever [a] and
    [b]. *)
Theorem setter_reads_accept_replies_of_any_probe :
  forall (port : Type) (S : Serial port) (a b : Z) (w : world port)
         (command reply : bytes) (p' : port),
    (1 <= a <= 12 ->
     command = [0xE8; 0x99; 0xD0 + a; Z.lxor (Z.lxor 0xE8 0x99) (0xD0 + a)] ->
     exchange (dev w) command 15 reply p' ->
     EnergyGet.validate_response reply b = Ok true ->
     EnergySet.read_probe_params a w
     = (Ok (Some (EnergySet.Params (at_ reply 3) (at_ reply 4) (at_ reply 5)
                                   (at_ reply 6) (at_ reply 7) (at_ reply 8)
                                   (at_ reply 9) (at_ reply 10) (at_ reply 11))),
        World p' (log w ++ [EvReset; EvWrite command; EvFlush; EvSleep 200; EvRead 15])))
    /\
    (1 <= a <= 9 ->
     command = [0xE8; 0x99; 0xE0 + a; Z.lxor (Z.lxor 0xE8 0x99) (0xE0 + a)] ->
     exchange (dev w) command 21 reply p' ->
     PGet.validate_response reply b = Ok true ->
     PSet.read_probe_p_values a w
     = (Ok (Some (slice reply 3 20)),
        World p' (log w ++ [EvReset; EvWrite command; EvFlush; EvSleep 200; EvRead 21]))).
Proof.
  intros port S a b w command reply p'. split; intros Ha Hcmd Hx Hv.
  - destruct (lookup b EnergyGet.PROBE_PARAMS) as [param|] eqn:El.
    + destruct (energy_validate_spec reply b param El) as (ok & Hok & Hiff).
      rewrite Hv in Hok. injection Hok as <-.
      destruct (proj1 Hiff eq_refl) as (Hlen & H0 & H1 & _).
      unfold EnergySet.read_probe_params.
      destruct (energy_set_query_domain a Ha) as [-> Hq].
      unfold bind at 1, lift. rewrite Hq, <- Hcmd. clear Hq Hcmd.
      destruct Hx as (p1 & p2 & p3 & Ereset & Ewrite & Eflush & Eread).
      unfold try_except, bind, reset_input_buffer, write, flush, read, sleep, call, ret.
      cbn [dev log]. rewrite Ereset. cbn [dev log]. rewrite Ewrite. cbn [dev log].
      rewrite Eflush. cbn [dev log]. rewrite Eread. cbn [dev log].
      apply Z.eqb_eq in Hlen. rewrite Hlen, H0, H1. cbn [andb].
      unfold EnergySet.ADDR_CODE, EnergySet.CMD_CODE. rewrite !Z.eqb_refl.
      rewrite <- !app_assoc. reflexivity.
    + unfold EnergyGet.validate_response in Hv. rewrite El in Hv.
      destruct (negb _); [discriminate|]. destruct (_ || _)%bool; discriminate.
  - destruct (lookup b PGet.PROBE_PARAMS) as [param|] eqn:El.
    + destruct (p_validate_spec reply b param El) as (ok & Hok & Hiff).
      rewrite Hv in Hok. injection Hok as <-.
      destruct (proj1 Hiff eq_refl) as (Hlen & H0 & H1 & _ & Hsum).
      unfold PSet.read_probe_p_values.
      destruct (p_set_query_domain a Ha) as [-> Hq].
      unfold bind at 1, lift. rewrite Hq, <- Hcmd. clear Hq Hcmd.
      destruct Hx as (p1 & p2 & p3 & Ereset & Ewrite & Eflush & Eread).
      unfold try_except, bind, reset_input_buffer, write, flush, read, sleep, call, ret.
      cbn [dev log]. rewrite Ereset. cbn [dev log]. rewrite Ewrite. cbn [dev log].
      rewrite Eflush. cbn [dev log]. rewrite Eread. cbn [dev log].
      rewrite (last_of_21 reply Hlen). unfold PSet.calculate_bcc.
      rewrite bcc_is_xor_fold, Hsum.
      apply Z.eqb_eq in Hlen. rewrite Hlen, H0, H1.
      unfold PSet.ADDR_CODE, PSet.CMD_CODE. rewrite !Z.eqb_refl. cbn [andb].
      rewrite <- !app_assoc. reflexivity.
    + unfold PGet.validate_response in Hv. rewrite El in Hv.
      destruct (negb _); [discriminate|]. destruct (_ || _)%bool; discriminate.
Qed.

Lemma setter_reads_accept_replies_of_any_probe_witness :
  let w := boot (Replay [scenario_frame] []) in
  let command := [0xE8; 0x99; 0xD0 + 1; Z.lxor (Z.lxor 0xE8 0x99) (0xD0 + 1)] in
  1 <= 1 <= 12 /\
  exchange (dev w) command 15 scenario_frame (Replay [] []) /\
  EnergyGet.validate_response scenario_frame 3 = Ok true /\
  fst (EnergySet.read_probe_params 1 w) = Ok (Some (EnergySet.Params 2 2 2 1 0 2 5 6 2)).
Proof.
  intros w command.
  pose proof (replay_exchange_of 15 scenario_frame [] [] command) as Hx.
  split; [lia|]. split; [exact Hx|]. split; [reflexivity|].
  exact (f_equal fst
           (proj1 (setter_reads_accept_replies_of_any_probe
                     replay replay_serial 1 3 w command scenario_frame (Replay [] []))
                  ltac:(lia) eq_refl Hx eq_refl)).
Defined.

(** ** Partial updates that do not reach the write engine *)

(** On a line where nothing answers, a partial update returns [False] and
    never sends a write command: the only bytes written are, at most once,
    the 4-byte query of the current profile. *)
Theorem partial_update_aborts_when_nothing_answers :
  forall (port : Type) (S : Serial port) (probe : Z) (w : world port),
    (forall n p, fst (dev_read n p) = Ok []) ->
    (forall (range_m : Q) (energy : Z) (time_val threshold : option Z)
            (permanent verify : bool),
        exists w' k,
          EnergySet.set_range_energy probe range_m energy time_val threshold
                                     permanent verify w = (Ok false, w') /\
          0 <= k <= 1 /\
          sent_only [0xE8; 0x99; 0xD0 + probe; Z.lxor (Z.lxor 0xE8 0x99) (0xD0 + probe)]
                    w k w')
    /\
    (forall (p_updates : list (string * Z)) (permanent verify : bool),
        exists w' k,
          PSet.set_individual_p_values probe p_updates permanent verify w
          = (Ok false, w') /\
          0 <= k <= 1 /\
          sent_only [0xE8; 0x99; 0xE0 + probe; Z.lxor (Z.lxor 0xE8 0x99) (0xE0 + probe)]
                    w k w').
Proof.
  intros port S probe w Hsilent. split.
  - intros range_m energy time_val threshold permanent verify.
    unfold EnergySet.set_range_energy.
    destruct (negb (EnergySet.in_range_names range_m));
      [exists w, 0; split; [reflexivity|]; split; [lia | apply sent_only_start]|].
    destruct (Z_le_gt_dec 1 probe) as [H1|H1];
      [destruct (Z_le_gt_dec probe 12) as [H2|H2]|].
    + destruct (energy_read_pass probe w w 0 ltac:(lia) (sent_only_start _ w))
        as (r & w' & E & Hs & Hnone).
      rewrite (Hnone Hsilent) in E.
      exists w', 1. unfold bind. rewrite E.
      split; [reflexivity|]. split; [lia | exact Hs].
    + exists w, 0. unfold bind.
      unfold EnergySet.read_probe_params.
      rewrite (energy_set_query_outside probe ltac:(lia)).
      split; [reflexivity|]. split; [lia | apply sent_only_start].
    + exists w, 0. unfold bind.
      unfold EnergySet.read_probe_params.
      rewrite (energy_set_query_outside probe ltac:(lia)).
      split; [reflexivity|]. split; [lia | apply sent_only_start].
  - intros p_updates permanent verify.
    unfold PSet.set_individual_p_values.
    destruct (Z_le_gt_dec 1 probe) as [H1|H1];
      [destruct (Z_le_gt_dec probe 9) as [H2|H2]|].
    + destruct (p_read_pass probe w w 0 ltac:(lia) (sent_only_start _ w))
        as (r & w' & E & Hs & Hnone).
      rewrite (Hnone Hsilent) in E.
      exists w', 1. unfold bind. rewrite E.
      split; [reflexivity|]. split; [lia | exact Hs].
    + exists w, 0. unfold bind.
      unfold PSet.read_probe_p_values.
      rewrite (p_set_query_outside probe ltac:(lia)).
      split; [reflexivity|]. split; [lia | apply sent_only_start].
    + exists w, 0. unfold bind.
      unfold PSet.read_probe_p_values.
      rewrite (p_set_query_outside probe ltac:(lia)).
      split; [reflexivity|]. split; [lia | apply sent_only_start].
Qed.

Lemma partial_update_aborts_when_nothing_answers_witness :
  (forall n (p : mute), fst (dev_read n p) = Ok []) /\
  exists w' k,
    EnergySet.set_range_energy 1 (5 # 2) 4 None None false true (boot Mute)
    = (Ok false, w') /\
    0 <= k <= 1 /\
    sent_only [0xE8; 0x99; 0xD0 + 1; Z.lxor (Z.lxor 0xE8 0x99) (0xD0 + 1)]
              (boot Mute) k w'.
Proof.
  split; [reflexivity|].
  apply (proj1 (partial_update_aborts_when_nothing_answers
                  mute mute_serial 1 (boot Mute) (fun n p => eq_refl))).
Defined.

Lemma energy_set_rejects {port} `{Serial port} (probe : Z)
      (e1 t1 th1 e2 t2 th2 e3 t3 th3 : Z) (permanent : bool) (max_retries : Z)
      (w : world port) :
  ~ ((0 <= e1 <= 7 /\ 0 <= e2 <= 7 /\ 0 <= e3 <= 7) /\
     (0 <= t1 <= 7 /\ 0 <= t2 <= 7 /\ 0 <= t3 <= 7) /\
     (0 <= th1 <= 3 /\ 0 <= th2 <= 3 /\ 0 <= th3 <= 3)) ->
  EnergySet.set_probe_params probe e1 t1 th1 e2 t2 th2 e3 t3 th3 permanent max_retries w
  = (Ok false, w).
Proof.
  intros Hbad. unfold EnergySet.set_probe_params.
  destruct (lookup probe EnergySet.PROBE_TEMP_PARAMS); [|reflexivity].
  destruct (negb (EnergySet.within e1 7 && EnergySet.within e2 7
                  && EnergySet.within e3 7)) eqn:He; [reflexivity|].
  destruct (negb (EnergySet.within t1 7 && EnergySet.within t2 7
                  && EnergySet.within t3 7)) eqn:Ht; [reflexivity|].
  destruct (negb (EnergySet.within th1 3 && EnergySet.within th2 3
                  && EnergySet.within th3 3)) eqn:Hth; [reflexivity|].
  exfalso. apply Hbad.
  apply negb_false_iff in He, Ht, Hth.
  rewrite !andb_true_iff, !within_iff in He, Ht, Hth. tauto.
Qed.

(** The fields of the named range after the overlay. *)
Lemma overlay_named_fields (current : EnergySet.params) (range_m : Q) (energy : Z)
      (time_val threshold : option Z) :
  EnergySet.in_range_names range_m = true ->
  let new_params := EnergySet.overlay current range_m energy time_val threshold in
  (EnergySet.energy1 new_params = energy \/ EnergySet.energy2 new_params = energy
   \/ EnergySet.energy3 new_params = energy) /\
  (forall t, time_val = Some t ->
             EnergySet.time1 new_params = t \/ EnergySet.time2 new_params = t
             \/ EnergySet.time3 new_params = t) /\
  (forall th, threshold = Some th ->
              EnergySet.threshold1 new_params = th \/ EnergySet.threshold2 new_params = th
              \/ EnergySet.threshold3 new_params = th).
Proof.
  intros Hin. cbv zeta. unfold EnergySet.overlay.
  destruct (range_names_cases range_m Hin) as [E|[E|E]].
  - rewrite E. repeat split; [|intros t Et | intros th Eth];
      destruct time_val, threshold, current; cbn; try discriminate;
      try (injection Et as <-); try (injection Eth as <-); auto.
  - rewrite (range_names_apart range_m (3 # 2) (5 # 2) eq_refl E), E.
    repeat split; [|intros t Et | intros th Eth];
      destruct time_val, threshold, current; cbn; try discriminate;
      try (injection Et as <-); try (injection Eth as <-); auto.
  - rewrite (range_names_apart range_m (13 # 2) (5 # 2) eq_refl E),
      (range_names_apart range_m (13 # 2) (3 # 2) eq_refl E), E.
    repeat split; [|intros t Et | intros th Eth];
      destruct time_val, threshold, current; cbn; try discriminate;
      try (injection Et as <-); try (injection Eth as <-); auto.
Qed.

(** The update loop never raises, and it gives up on the first update whose
    name is not one of P1..P17 or whose value is outside 0..31. *)
Lemma apply_updates_invalid (p_updates : list (string * Z)) :
  (exists name v, In (name, v) p_updates /\
                  (~ In name (map fst PSet.P_DESCRIPTIONS) \/ ~ 0 <= v <= 31)) ->
  forall current, PSet.apply_updates current p_updates = Ok None.
Proof.
  induction p_updates as [|[n x] rest IH]; intros (name & v & Hin & Hbad) current;
    [destruct Hin|].
  cbn [PSet.apply_updates].
  destruct (PSet.find_key n PSet.P_DESCRIPTIONS) as [d|] eqn:Ek; [|reflexivity].
  pose proof (find_key_in _ _ _ Ek) as Hn.
  destruct (p_index_of_key n Hn) as (i & -> & Hi & _).
  replace ((0 <=? i) && (i <=? 16))%bool with true
    by (symmetry; apply andb_true_iff; split; apply Z.leb_le; lia).
  cbn [negb].
  destruct (negb ((0 <=? x) && (x <=? 31))) eqn:Ex; [reflexivity|].
  apply IH. destruct Hin as [Hhead|Hin].
  - injection Hhead as <- <-. exfalso. bool_to_prop. destruct Hbad as [Hb|Hb]; [tauto|lia].
  - now exists name, v.
Qed.

(** A partial update that asks for a value out of range, or names a
    parameter that does not exist, is refused after the current profile has
    been read and before any write command: the operation returns [False] in
    the state the read left. *)
Theorem partial_update_refuses_invalid_request_after_reading :
  (forall (port : Type) (S : Serial port) (probe : Z) (range_m : Q) (energy : Z)
          (time_val threshold : option Z) (permanent verify : bool)
          (w0 w1 : world port) (current : EnergySet.params),
      EnergySet.in_range_names range_m = true ->
      EnergySet.read_probe_params probe w0 = (Ok (Some current), w1) ->
      (~ 0 <= energy <= 7
       \/ (exists t, time_val = Some t /\ ~ 0 <= t <= 7)
       \/ (exists th, threshold = Some th /\ ~ 0 <= th <= 3)) ->
      EnergySet.set_range_energy probe range_m energy time_val threshold
                                 permanent verify w0 = (Ok false, w1))
  /\
  (forall (port : Type) (S : Serial port) (probe : Z) (p_updates : list (string * Z))
          (permanent verify : bool) (w0 w1 : world port) (current : list Z),
      PSet.read_probe_p_values probe w0 = (Ok (Some current), w1) ->
      (exists name v, In (name, v) p_updates /\
                      (~ In name (map fst PSet.P_DESCRIPTIONS) \/ ~ 0 <= v <= 31)) ->
      PSet.set_individual_p_values probe p_updates permanent verify w0 = (Ok false, w1)).
Proof.
  split.
  - intros port S probe range_m energy time_val threshold permanent verify w0 w1 current
           Hin Hread Hbad.
    unfold EnergySet.set_range_energy. rewrite Hin. cbn [negb].
    unfold bind at 1. rewrite Hread. cbv zeta.
    destruct (overlay_named_fields current range_m energy time_val threshold Hin)
      as (He & Ht & Hth).
    unfold bind. rewrite energy_set_rejects; [reflexivity|].
    intros ((He1 & He2 & He3) & (Ht1 & Ht2 & Ht3) & (Hh1 & Hh2 & Hh3)).
    destruct Hbad as [Hb | [(t & Et & Hb) | (th & Eth & Hb)]].
    + destruct He as [E|[E|E]]; rewrite <- E in Hb; tauto.
    + destruct (Ht t Et) as [E|[E|E]]; rewrite <- E in Hb; tauto.
    + destruct (Hth th Eth) as [E|[E|E]]; rewrite <- E in Hb; tauto.
  - intros port S probe p_updates permanent verify w0 w1 current Hread Hbad.
    pose proof (p_read_gives_17 probe w0 w1 current Hread) as Hlen.
    unfold PSet.set_individual_p_values. unfold bind at 1. rewrite Hread.
    destruct current as [|v vs]; [discriminate Hlen|].
    unfold bind, lift. now rewrite (apply_updates_invalid p_updates Hbad).
Qed.

Lemma partial_update_refuses_invalid_request_after_reading_witness :
  (let w0 := boot (Replay [energy_reply; ack 0] []) in
   let w1 := snd (EnergySet.read_probe_params 1 w0) in
   EnergySet.in_range_names (5 # 2) = true /\
   EnergySet.read_probe_params 1 w0
   = (Ok (Some (EnergySet.Params 3 2 2 1 0 2 5 6 2)), w1) /\
   ~ 0 <= 8 <= 7 /\
   EnergySet.set_range_energy 1 (5 # 2) 8 None None false true w0 = (Ok false, w1))
  /\
  (let w0 := boot (Replay [p_reply; ack 0] []) in
   let w1 := snd (PSet.read_probe_p_values 1 w0) in
   let current := [19; 19; 19; 31; 31; 31; 31; 31; 31; 31; 31; 31; 0; 3; 1; 0; 1] in
   let p_updates := [("P1", 15); ("P18", 3)]%string in
   PSet.read_probe_p_values 1 w0 = (Ok (Some current), w1) /\
   In ("P18"%string, 3) p_updates /\
   ~ In "P18"%string (map fst PSet.P_DESCRIPTIONS) /\
   PSet.set_individual_p_values 1 p_updates false true w0 = (Ok false, w1)).
Proof.
  assert (H18 : ~ In "P18"%string (map fst PSet.P_DESCRIPTIONS)).
  { cbn [map fst PSet.P_DESCRIPTIONS In]. intros Hin.
    repeat (destruct Hin as [Hin|Hin]; [discriminate Hin|]). exact Hin. }
  split.
  - intros w0 w1. split; [reflexivity|]. split; [reflexivity|]. split; [lia|].
    apply (proj1 partial_update_refuses_invalid_request_after_reading
                 replay replay_serial 1 (5 # 2)%Q 8 None None false true w0 w1
                 (EnergySet.Params 3 2 2 1 0 2 5 6 2));
      [reflexivity | reflexivity | left; lia].
  - intros w0 w1 current p_updates. split; [reflexivity|].
    split; [right; left; reflexivity|]. split; [exact H18|].
    apply (proj2 partial_update_refuses_invalid_request_after_reading
                 replay replay_serial 1 p_updates false true w0 w1 current);
      [reflexivity|].
    exists "P18"%string, 3. split; [right; left; reflexivity | left; exact H18].
Defined.

(** ** Requests out of range *)

Lemma p_set_rejects {port} `{Serial port} (probe : Z) (p_values : list Z)
      (permanent : bool) (max_retries : Z) (w : world port) :
  (exists v, In v p_values /\ ~ 0 <= v <= 31) ->
  PSet.set_probe_p_values probe p_values permanent max_retries w = (Ok false, w).
Proof.
  intros (v & Hin & Hv). unfold PSet.set_probe_p_values.
  destruct (lookup probe PSet.PROBE_TEMP_PARAMS); [|reflexivity].
  destruct (negb (len p_values =? 17)); [reflexivity|].
  destruct (forallb _ p_values) eqn:Hall; [|reflexivity].
  exfalso. apply Hv.
  rewrite forallb_forall in Hall. specialize (Hall v Hin).
  apply andb_true_iff in Hall as [H1 H2]. apply Z.leb_le in H1, H2. lia.
Qed.

(** Whatever profile was read, a partial energy update with a value out of
    range is refused by the write engine in the state the read left. *)
Lemma energy_update_refused {port} `{Serial port} (probe : Z) (range_m : Q)
      (energy : Z) (time_val threshold : option Z) (permanent verify : bool)
      (w0 w1 : world port) (current : option EnergySet.params) :
  EnergySet.read_probe_params probe w0 = (Ok current, w1) ->
  (~ 0 <= energy <= 7
   \/ (exists t, time_val = Some t /\ ~ 0 <= t <= 7)
   \/ (exists th, threshold = Some th /\ ~ 0 <= th <= 3)) ->
  EnergySet.set_range_energy probe range_m energy time_val threshold
                             permanent verify w0 = (Ok false, w1)
  \/ (EnergySet.in_range_names range_m = false /\
      EnergySet.set_range_energy probe range_m energy time_val threshold
                                 permanent verify w0 = (Ok false, w0)).
Proof.
  intros Hread Hbad. unfold EnergySet.set_range_energy.
  destruct (EnergySet.in_range_names range_m) eqn:Hin; cbn [negb];
    [left | right; split; reflexivity].
  unfold bind at 1. rewrite Hread.
  destruct current as [current|]; [|reflexivity].
  cbv zeta.
  destruct (overlay_named_fields current range_m energy time_val threshold Hin)
    as (He & Ht & Hth).
  unfold bind. rewrite energy_set_rejects; [reflexivity|].
  intros ((He1 & He2 & He3) & (Ht1 & Ht2 & Ht3) & (Hh1 & Hh2 & Hh3)).
  destruct Hbad as [Hb | [(t & Et & Hb) | (th & Eth & Hb)]].
  - destruct He as [E|[E|E]]; rewrite <- E in Hb; tauto.
  - destruct (Ht t Et) as [E|[E|E]]; rewrite <- E in Hb; tauto.
  - destruct (Hth th Eth) as [E|[E|E]]; rewrite <- E in Hb; tauto.
Qed.

Lemma p_update_refused {port} `{Serial port} (probe : Z) (p_updates : list (string * Z))
      (permanent verify : bool) (w0 w1 : world port) (current : option (list Z)) :
  PSet.read_probe_p_values probe w0 = (Ok current, w1) ->
  (exists name v, In (name, v) p_updates /\ ~ 0 <= v <= 31) ->
  PSet.set_individual_p_values probe p_updates permanent verify w0 = (Ok false, w1).
Proof.
  intros Hread (name & v & Hin & Hv).
  unfold PSet.set_individual_p_values. unfold bind at 1. rewrite Hread.
  destruct current as [[|c cs]|]; try reflexivity.
  unfold bind, lift. rewrite (apply_updates_invalid p_updates); [reflexivity|].
  exists name, v. split; [exact Hin | now right].
Qed.

(** C7, as the code has it.  The write engine checks the ranges before any
    transport I/O: a write request with an energy or a blind-zone time
    outside [0,7], a threshold outside [0,3] or a P-value outside [0,31] is
    answered [False] with the port and the log of calls left exactly as they
    were.  A partial update reaches that check only after it has read the
    current profile: with a value out of range it returns [False] and never
    sends a write command, but the 4-byte query of the current profile is
    sent first (one attempt at most), whatever the port does. *)
Theorem C7_out_of_range_request_sends_no_write_command :
  forall (port : Type) (S : Serial port) (w : world port)
         (probe : Z) (permanent : bool) (max_retries : Z),
    (forall e1 t1 th1 e2 t2 th2 e3 t3 th3 : Z,
        ~ ((0 <= e1 <= 7 /\ 0 <= e2 <= 7 /\ 0 <= e3 <= 7) /\
           (0 <= t1 <= 7 /\ 0 <= t2 <= 7 /\ 0 <= t3 <= 7) /\
           (0 <= th1 <= 3 /\ 0 <= th2 <= 3 /\ 0 <= th3 <= 3)) ->
        EnergySet.set_probe_params probe e1 t1 th1 e2 t2 th2 e3 t3 th3
                                   permanent max_retries w
        = (Ok false, w))
    /\
    (forall p_values : list Z,
        (exists v, In v p_values /\ ~ 0 <= v <= 31) ->
        PSet.set_probe_p_values probe p_values permanent max_retries w
        = (Ok false, w))
    /\
    (forall (range_m : Q) (energy : Z) (time_val threshold : option Z) (verify : bool),
        (~ 0 <= energy <= 7
         \/ (exists t, time_val = Some t /\ ~ 0 <= t <= 7)
         \/ (exists th, threshold = Some th /\ ~ 0 <= th <= 3)) ->
        exists w' k,
          EnergySet.set_range_energy probe range_m energy time_val threshold
                                     permanent verify w = (Ok false, w') /\
          0 <= k <= 1 /\
          sent_only [0xE8; 0x99; 0xD0 + probe; Z.lxor (Z.lxor 0xE8 0x99) (0xD0 + probe)]
                    w k w')
    /\
    (forall (p_updates : list (string * Z)) (verify : bool),
        (exists name v, In (name, v) p_updates /\ ~ 0 <= v <= 31) ->
        exists w' k,
          PSet.set_individual_p_values probe p_updates permanent verify w
          = (Ok false, w') /\
          0 <= k <= 1 /\
          sent_only [0xE8; 0x99; 0xE0 + probe; Z.lxor (Z.lxor 0xE8 0x99) (0xE0 + probe)]
                    w k w').
Proof.
  intros port S w probe permanent max_retries.
  split; [|split; [|split]].
  - intros e1 t1 th1 e2 t2 th2 e3 t3 th3 Hbad. now apply energy_set_rejects.
  - intros p_values Hbad. now apply p_set_rejects.
  - intros range_m energy time_val threshold verify Hbad.
    assert (Hread : exists current w1 k,
               EnergySet.read_probe_params probe w = (Ok current, w1) /\
               0 <= k <= 1 /\
               sent_only [0xE8; 0x99; 0xD0 + probe;
                          Z.lxor (Z.lxor 0xE8 0x99) (0xD0 + probe)] w k w1).
    { destruct (Z_le_gt_dec 1 probe) as [H1|H1];
        [destruct (Z_le_gt_dec probe 12) as [H2|H2]|].
      - destruct (energy_read_pass probe w w 0 ltac:(lia) (sent_only_start _ w))
          as (r & w1 & E & Hs & _).
        exists r, w1, 1. split; [exact E|]. split; [lia | exact Hs].
      - exists None, w, 0. unfold EnergySet.read_probe_params.
        rewrite (energy_set_query_outside probe ltac:(lia)).
        split; [reflexivity|]. split; [lia | apply sent_only_start].
      - exists None, w, 0. unfold EnergySet.read_probe_params.
        rewrite (energy_set_query_outside probe ltac:(lia)).
        split; [reflexivity|]. split; [lia | apply sent_only_start]. }
    destruct Hread as (current & w1 & k & Hread & Hk & Hs).
    destruct (energy_update_refused probe range_m energy time_val threshold
                permanent verify w w1 current Hread Hbad) as [E | [_ E]].
    + exists w1, k. split; [exact E|]. split; [exact Hk | exact Hs].
    + exists w, 0. split; [exact E|]. split; [lia | apply sent_only_start].
  - intros p_updates verify Hbad.
    assert (Hread : exists current w1 k,
               PSet.read_probe_p_values probe w = (Ok current, w1) /\
               0 <= k <= 1 /\
               sent_only [0xE8; 0x99; 0xE0 + probe;
                          Z.lxor (Z.lxor 0xE8 0x99) (0xE0 + probe)] w k w1).
    { destruct (Z_le_gt_dec 1 probe) as [H1|H1];
        [destruct (Z_le_gt_dec probe 9) as [H2|H2]|].
      - destruct (p_read_pass probe w w 0 ltac:(lia) (sent_only_start _ w))
          as (r & w1 & E & Hs & _).
        exists r, w1, 1. split; [exact E|]. split; [lia | exact Hs].
      - exists None, w, 0. unfold PSet.read_probe_p_values.
        rewrite (p_set_query_outside probe ltac:(lia)).
        split; [reflexivity|]. split; [lia | apply sent_only_start].
      - exists None, w, 0. unfold PSet.read_probe_p_values.
        rewrite (p_set_query_outside probe ltac:(lia)).
        split; [reflexivity|]. split; [lia | apply sent_only_start]. }
    destruct Hread as (current & w1 & k & Hread & Hk & Hs).
    exists w1, k.
    split; [exact (p_update_refused probe p_updates permanent verify w w1 current
                     Hread Hbad)|].
    split; [exact Hk | exact Hs].
Qed.

Lemma C7_out_of_range_request_sends_no_write_command_witness :
  (~ ((0 <= 8 <= 7 /\ 0 <= 1 <= 7 /\ 0 <= 5 <= 7) /\
      (0 <= 2 <= 7 /\ 0 <= 0 <= 7 /\ 0 <= 6 <= 7) /\
      (0 <= 2 <= 3 /\ 0 <= 2 <= 3 /\ 0 <= 2 <= 3)) /\
   EnergySet.set_probe_params 1 8 2 2 1 0 2 5 6 2 false 3
                              (boot (Replay [energy_reply; ack 0] []))
   = (Ok false, boot (Replay [energy_reply; ack 0] [])))
  /\
  ((exists v, In v [32; 0; 0; 0; 0; 0; 0; 0; 0; 0; 0; 0; 0; 3; 1; 0; 1] /\ ~ 0 <= v <= 31) /\
   PSet.set_probe_p_values 1 [32; 0; 0; 0; 0; 0; 0; 0; 0; 0; 0; 0; 0; 3; 1; 0; 1]
                           false 3 (boot (Replay [energy_reply; ack 0] []))
   = (Ok false, boot (Replay [energy_reply; ack 0] [])))
  /\
  (~ 0 <= 8 <= 7 /\
   exists w' k,
     EnergySet.set_range_energy 1 (5 # 2) 8 None None false true
                                (boot (Replay [energy_reply; ack 0] []))
     = (Ok false, w') /\
     0 <= k <= 1 /\
     sent_only [0xE8; 0x99; 0xD0 + 1; Z.lxor (Z.lxor 0xE8 0x99) (0xD0 + 1)]
               (boot (Replay [energy_reply; ack 0] [])) k w')
  /\
  ((exists name v, In (name, v) [("P1"%string, 32)] /\ ~ 0 <= v <= 31) /\
   exists w' k,
     PSet.set_individual_p_values 1 [("P1"%string, 32)] false true
                                  (boot (Replay [energy_reply; ack 0] []))
     = (Ok false, w') /\
     0 <= k <= 1 /\
     sent_only [0xE8; 0x99; 0xE0 + 1; Z.lxor (Z.lxor 0xE8 0x99) (0xE0 + 1)]
               (boot (Replay [energy_reply; ack 0] [])) k w').
Proof.
  destruct (C7_out_of_range_request_sends_no_write_command
              replay replay_serial (boot (Replay [energy_reply; ack 0] [])) 1 false 3)
    as (He & Hp & Hre & Hrp).
  assert (H32 : exists name v, In (name, v) [("P1"%string, 32)] /\ ~ 0 <= v <= 31)
    by (exists "P1"%string, 32; split; [now left | lia]).
  split; [|split; [|split]].
  - split; [lia|]. apply He. lia.
  - split; [exists 32; split; [now left | lia]|].
    apply Hp. exists 32. split; [now left | lia].
  - split; [lia|]. apply Hre. left. lia.
  - split; [exact H32|]. apply Hrp. exact H32.
Defined.

(** C7 as stated fails for the partial updates: a request for an energy of 8
    in the 2.5 m range, or for a P1 of 32, is refused, but not before any
    transport I/O: the operation has written the 4-byte query of the current
    profile by then (and nothing else). *)
Lemma C7_partial_update_queries_before_refusing :
  (let run := EnergySet.set_range_energy 1 (5 # 2) 8 None None false true
                (boot (Replay [energy_reply; ack 0] [])) in
   ~ 0 <= 8 <= 7 /\ fst run = Ok false /\
   writes_in (log (snd run)) = 1 /\
   written (log (snd run)) = [[0xE8; 0x99; 0xD1; 0xA0]])
  /\
  (let run := PSet.set_individual_p_values 1 [("P1"%string, 32)] false true
                (boot (Replay [p_reply; ack 0] [])) in
   ~ 0 <= 32 <= 31 /\ fst run = Ok false /\
   writes_in (log (snd run)) = 1 /\
   written (log (snd run)) = [[0xE8; 0x99; 0xE1; 0x90]]).
Proof.
  split; cbv zeta; (split; [lia|]); repeat split; reflexivity.
Qed.

(** ** Sweeps over the probes *)

Lemma attempts_after_sleep {port} (ms : Z) (w : world port) :
  attempts_in (log (after_sleep ms w)) = attempts_in (log w).
Proof.
  unfold after_sleep. cbn [log]. rewrite attempts_in_app.
  change (attempts_in [EvSleep ms]) with 0. lia.
Qed.

Lemma answered_cons {A} (o : option A) (outcomes : list (option A)) :
  answered (o :: outcomes)
  = match o with Some d => d :: answered outcomes | None => answered outcomes end.
Proof. destruct o; reflexivity. Qed.

(** The loop of the energy sweep over any probes of the table. *)
Lemma energy_read_each_run {port} `{Serial port} (probes : list Z) :
  (forall probe, In probe probes -> 1 <= probe <= 9) ->
  forall (results : list EnergyGet.probe_data) (w : world port),
  exists outcomes w',
    swept (fun probe => EnergyGet.query_probe probe 3) probes outcomes w w' /\
    EnergyGet.read_each probes results w = (Ok (results ++ answered outcomes), w') /\
    Forall2 (fun probe o => forall d, o = Some d -> EnergyGet.probe_num d = probe)
            probes outcomes /\
    len probes <= attempts_in (log w') - attempts_in (log w) <= 3 * len probes.
Proof.
  induction probes as [|probe rest IH]; intros Hdom results w.
  - exists [], w. cbn [EnergyGet.read_each answered flat_map swept]. rewrite app_nil_r.
    split; [reflexivity|]. split; [reflexivity|]. split; [constructor|].
    unfold len; simpl; lia.
  - destruct (energy_query_run probe 3 w _
                (energy_query_command probe (Hdom probe (or_introl eq_refl))))
      as (r & w1 & k & E & Hk & [Ha _] & Hr).
    destruct (IH (fun q Hq => Hdom q (or_intror Hq))
                 (match r with Some d => results ++ [d] | None => results end)
                 (after_sleep 100 w1))
      as (outcomes & w' & Hswept & Erest & Hall & Hcount).
    exists (r :: outcomes), w'.
    rewrite attempts_after_sleep in Hcount.
    split; [|split; [|split]].
    + cbn [swept]. exists w1. split; [exact E | exact Hswept].
    + cbn [EnergyGet.read_each]. unfold bind at 1. rewrite E.
      unfold bind at 1.
      change (sleep 100 w1) with (@Ok unit tt, after_sleep 100 w1).
      cbv beta iota. rewrite Erest, answered_cons.
      destruct r; [rewrite <- app_assoc|]; reflexivity.
    + constructor; [|exact Hall]. intros d ->.
      destruct Hr as (_ & response & _ & ->). reflexivity.
    + rewrite len_cons.
      assert (1 <= k <= 3) by (destruct r; lia). lia.
Qed.

(** The loop of the P-value sweep over any probes of the table. *)
Lemma p_read_each_run {port} `{Serial port} (probes : list Z) :
  (forall probe, In probe probes -> 1 <= probe <= 9) ->
  forall (results : list PGet.probe_data) (failed_probes : list Z) (w : world port),
  exists outcomes w',
    swept (fun probe => PGet.query_probe probe 3) probes outcomes w w' /\
    PGet.read_each probes results failed_probes w
    = (Ok (results ++ answered outcomes), w') /\
    Forall2 (fun probe o => forall d, o = Some d -> PGet.probe_num d = probe)
            probes outcomes /\
    len probes <= attempts_in (log w') - attempts_in (log w) <= 3 * len probes.
Proof.
  induction probes as [|probe rest IH]; intros Hdom results failed_probes w.
  - exists [], w. cbn [PGet.read_each answered flat_map swept]. rewrite app_nil_r.
    split; [reflexivity|]. split; [reflexivity|]. split; [constructor|].
    unfold len; simpl; lia.
  - destruct (p_query_run probe 3 w _
                (p_query_command probe (Hdom probe (or_introl eq_refl))))
      as (r & w1 & k & E & Hk & [Ha _] & Hr).
    destruct (IH (fun q Hq => Hdom q (or_intror Hq))
                 (match r with Some d => results ++ [d] | None => results end)
                 (match r with Some _ => failed_probes
                          | None => failed_probes ++ [probe] end)
                 (after_sleep 100 w1))
      as (outcomes & w' & Hswept & Erest & Hall & Hcount).
    exists (r :: outcomes), w'.
    rewrite attempts_after_sleep in Hcount.
    split; [|split; [|split]].
    + cbn [swept]. exists w1. split; [exact E | exact Hswept].
    + cbn [PGet.read_each]. unfold bind at 1. rewrite E.
      unfold bind at 1.
      change (sleep 100 w1) with (@Ok unit tt, after_sleep 100 w1).
      cbv beta iota zeta. rewrite Erest, answered_cons.
      destruct r; [rewrite <- app_assoc|]; reflexivity.
    + constructor; [|exact Hall]. intros d ->.
      destruct Hr as (_ & response & _ & ->). reflexivity.
    + rewrite len_cons.
      assert (1 <= k <= 3) by (destruct r; lia). lia.
Qed.

Lemma sweep_probes : range_from 1 10 = [1; 2; 3; 4; 5; 6; 7; 8; 9].
Proof. reflexivity. Qed.

Lemma sweep_probes_in_table (probe : Z) : In probe (range_from 1 10) -> 1 <= probe <= 9.
Proof.
  rewrite sweep_probes. cbn [In]. intros Hin.
  repeat (destruct Hin as [<-|Hin]; [lia|]). destruct Hin.
Qed.

(** [read_all_probes] runs [query_probe], with its default budget of three
    attempts, on the probes 1, 2, ..., 9 in this order, each query in the
    state the previous one left after a pause of 100 ms, and whatever the
    port does no query raises, so a failing probe does not stop the sweep.
    The list returned is made of what the queries returned, in the order of
    the probes, leaving out the queries that returned [None]: the data of
    every probe that answered is in the list, under its probe number, and
    nothing else is.  Between 9 and 27 attempts are made in all.  The energy
    reader first connects: it returns the empty list without a query when
    the device cannot be opened, and otherwise disconnects after the sweep,
    whose result it returns. *)
Theorem sweep_queries_every_probe_in_order :
  (forall (port : Type) (S : Serial port) (w : world port),
      exists outcomes w',
        swept (fun probe => PGet.query_probe probe 3)
              [1; 2; 3; 4; 5; 6; 7; 8; 9] outcomes w w' /\
        PGet.read_all_probes w = (Ok (answered outcomes), w') /\
        Forall2 (fun probe o => forall d, o = Some d -> PGet.probe_num d = probe)
                [1; 2; 3; 4; 5; 6; 7; 8; 9] outcomes /\
        9 <= attempts_in (log w') - attempts_in (log w) <= 27)
  /\
  (forall (port : Type) (S : Serial port) (connect : M port bool)
          (disconnect : M port unit) (w : world port),
      match connect w with
      | (Raise e, w1) => EnergyGet.read_all_probes connect disconnect w = (Raise e, w1)
      | (Ok false, w1) => EnergyGet.read_all_probes connect disconnect w = (Ok [], w1)
      | (Ok true, w1) =>
          exists outcomes w2,
            swept (fun probe => EnergyGet.query_probe probe 3)
                  [1; 2; 3; 4; 5; 6; 7; 8; 9] outcomes w1 w2 /\
            Forall2 (fun probe o =>
                       forall d, o = Some d -> EnergyGet.probe_num d = probe)
                    [1; 2; 3; 4; 5; 6; 7; 8; 9] outcomes /\
            9 <= attempts_in (log w2) - attempts_in (log w1) <= 27 /\
            EnergyGet.read_all_probes connect disconnect w
            = match disconnect w2 with
              | (Ok _, w3) => (Ok (answered outcomes), w3)
              | (Raise e, w3) => (Raise e, w3)
              end
      end).
Proof.
  split.
  - intros port S w. unfold PGet.read_all_probes.
    destruct (p_read_each_run (range_from 1 10) sweep_probes_in_table [] [] w)
      as (outcomes & w' & Hswept & E & Hall & Hcount).
    exists outcomes, w'. split; [exact Hswept|]. split; [exact E|].
    split; [exact Hall|].
    rewrite sweep_probes in Hcount. unfold len in Hcount. simpl in Hcount. lia.
  - intros port S connect disconnect w. unfold EnergyGet.read_all_probes, bind.
    destruct (connect w) as [[[|]|e] w1]; [|reflexivity|reflexivity].
    cbn [negb]. unfold try_finally.
    destruct (energy_read_each_run (range_from 1 10) sweep_probes_in_table [] w1)
      as (outcomes & w2 & Hswept & E & Hall & Hcount).
    exists outcomes, w2. split; [exact Hswept|]. split; [exact Hall|].
    split; [rewrite sweep_probes in Hcount; unfold len in Hcount; simpl in Hcount; lia|].
    rewrite E. cbn [app]. destruct (disconnect w2) as [[[]|e] w3]; reflexivity.
Qed.

(** ** Presets and profiles *)

(** Every profile of the catalogue passes the checks of the write engine. *)
Lemma presets_are_profiles (name : string) (preset : PSet.preset) :
  PSet.find_key name PSet.BEAM_PRESETS = Some preset ->
  len (PSet.preset_values preset) = 17 /\
  forall v, In v (PSet.preset_values preset) -> 0 <= v <= 31.
Proof.
  assert (Hok : forall l,
             (len l =? 17) && forallb (fun v => (0 <=? v) && (v <=? 31)) l = true ->
             len l = 17 /\ forall v, In v l -> 0 <= v <= 31).
  { intros l Hl. apply andb_true_iff in Hl as [Hlen Hall]. apply Z.eqb_eq in Hlen.
    split; [exact Hlen|]. intros v Hin. rewrite forallb_forall in Hall.
    specialize (Hall v Hin). apply andb_true_iff in Hall as [H1 H2].
    apply Z.leb_le in H1, H2. lia. }
  unfold PSet.BEAM_PRESETS. cbn [PSet.find_key].
  repeat match goal with
         | |- context [String.eqb name ?key] =>
             destruct (String.eqb name key);
             [intros E; injection E as <-; apply Hok; reflexivity|]
         end.
  discriminate.
Qed.

(** The read of the P-value setter never raises. *)
Lemma p_read_returns {port} `{Serial port} (probe : Z) (w : world port) :
  exists r w', PSet.read_probe_p_values probe w = (Ok r, w').
Proof.
  destruct (Z_le_gt_dec 1 probe) as [H1|H1];
    [destruct (Z_le_gt_dec probe 9) as [H2|H2]|].
  - destruct (p_read_pass probe w w 0 ltac:(lia) (sent_only_start _ w))
      as (r & w' & E & _). now exists r, w'.
  - exists None, w. unfold PSet.read_probe_p_values.
    now rewrite (p_set_query_outside probe ltac:(lia)).
  - exists None, w. unfold PSet.read_probe_p_values.
    now rewrite (p_set_query_outside probe ltac:(lia)).
Qed.

(** A name outside the catalogue makes [apply_preset] return [False] without
    a call on the port.  A name of the catalogue always reaches the port on
    a probe of the table, since every catalogued profile has seventeen
    values between 0 and 31: the write makes between one and three attempts,
    which write nothing but the frame built from the profile, and the
    operation does not raise, whatever the port does.  Its result is the
    outcome of the write when verification is off, and it is never [True]
    when the write did not succeed. *)
Theorem preset_application_reaches_the_port :
  forall (port : Type) (S : Serial port) (probe : Z) (name : string)
         (permanent verify : bool) (w : world port),
    (PSet.find_key name PSet.BEAM_PRESETS = None ->
     PSet.apply_preset probe name permanent verify w = (Ok false, w))
    /\
    (forall preset, PSet.find_key name PSet.BEAM_PRESETS = Some preset ->
       1 <= probe <= 9 ->
       exists command success w1 k r w',
         PSet.full_command (if permanent then 0x80 + probe else 0xC0 + probe)
                           (PSet.preset_values preset) = Ok command /\
         PSet.set_probe_p_values probe (PSet.preset_values preset) permanent 3 w
         = (Ok success, w1) /\
         1 <= k <= 3 /\
         sent_only command w k w1 /\
         PSet.apply_preset probe name permanent verify w = (Ok r, w') /\
         (verify = false -> r = success /\ w' = w1) /\
         (r = true -> success = true)).
Proof.
  intros port S probe name permanent verify w. split.
  - intros E. unfold PSet.apply_preset. now rewrite E.
  - intros preset E Hp.
    destruct (presets_are_profiles name preset E) as [Hlen Hv].
    destruct (p_set_unfold probe (PSet.preset_values preset) permanent Hp Hlen Hv)
      as (command & Hcmd & Hrun).
    destruct (for_each_outcome (PSet.set_attempt command 3) (ret false)
                (sent_only command w)
                (fun k (_ : bool) w' => sent_only command w k w')
                (fun a w1 n => p_set_attempt_any command 3 a w w1 n)
                (range 3) w 0 (sent_only_start command w))
      as (w1 & k & Hk & Hcase).
    rewrite len_range_any in Hk.
    assert (Hset : exists success,
               PSet.set_probe_p_values probe (PSet.preset_values preset) permanent 3 w
               = (Ok success, w1) /\ 1 <= k <= 3 /\ sent_only command w k w1).
    { destruct Hcase as [(r & Er & Hs & Hlt) | (Ek & HP & Er)].
      - exists r. rewrite Hrun. split; [exact Er|]. split; [lia | exact Hs].
      - exists false. rewrite Hrun, Er. split; [reflexivity|].
        rewrite len_range_any in Ek. split; [lia | exact HP]. }
    destruct Hset as (success & Eset & Hk' & Hs).
    exists command, success, w1, k.
    unfold PSet.apply_preset. rewrite E. unfold bind at 1. rewrite Eset.
    unfold PSet.verify_preset.
    assert (Hdone : forall (success r : bool) (w' : world port),
               (verify = false -> r = success /\ w' = w1) ->
               (r = true -> success = true) ->
               PSet.set_probe_p_values probe (PSet.preset_values preset) permanent 3 w
               = (Ok success, w1) ->
               PSet.full_command (if permanent then 0x80 + probe else 0xC0 + probe)
                                 (PSet.preset_values preset) = Ok command /\
               (Ok success, w1) = (@Ok bool success, w1) /\
               1 <= k <= 3 /\
               sent_only command w k w1 /\
               (@Ok bool r, w') = (Ok r, w') /\
               (verify = false -> r = success /\ w' = w1) /\
               (r = true -> success = true)).
    { intros b r w' H1 H2 _. split; [exact Hcmd|]. split; [reflexivity|].
      split; [exact Hk'|]. split; [exact Hs|]. split; [reflexivity|].
      split; [exact H1 | exact H2]. }
    destruct success, verify; cbn [andb].
    + unfold bind at 1.
      change (sleep 500 w1) with (@Ok unit tt, after_sleep 500 w1). cbv beta iota.
      destruct (p_read_returns probe (after_sleep 500 w1)) as (u & w2 & Eread).
      unfold bind. rewrite Eread.
      destruct u as [[|u us]|].
      * exists true, w2. apply Hdone; [discriminate | reflexivity | exact Eset].
      * destruct (PSet.list_eqb (u :: us) (PSet.preset_values preset));
          eexists; exists w2;
          (apply Hdone; [discriminate | reflexivity | exact Eset]).
      * exists true, w2. apply Hdone; [discriminate | reflexivity | exact Eset].
    + exists true, w1. apply Hdone; [now split | reflexivity | exact Eset].
    + exists false, w1. apply Hdone; [discriminate | discriminate | exact Eset].
    + exists false, w1. apply Hdone; [now split | discriminate | exact Eset].
Qed.

Lemma preset_application_reaches_the_port_witness :
  PSet.find_key "narrow"%string PSet.BEAM_PRESETS
  = Some (PSet.Preset "Narrow Beam (50°x16°)" "Maximum range, narrow field of view"
                      [31; 31; 31; 30; 26; 21; 16; 16; 13; 0; 0; 0; 0; 3; 1; 0; 1])
  /\ 1 <= 1 <= 9
  /\ exists command success w1 k r w',
      PSet.full_command (0xC0 + 1)
                        [31; 31; 31; 30; 26; 21; 16; 16; 13; 0; 0; 0; 0; 3; 1; 0; 1]
      = Ok command /\
      PSet.set_probe_p_values 1 [31; 31; 31; 30; 26; 21; 16; 16; 13; 0; 0; 0; 0; 3; 1; 0; 1]
                              false 3 (boot (Replay [ack 0; narrow_reply] []))
      = (Ok success, w1) /\
      1 <= k <= 3 /\
      sent_only command (boot (Replay [ack 0; narrow_reply] [])) k w1 /\
      PSet.apply_preset 1 "narrow"%string false true
                        (boot (Replay [ack 0; narrow_reply] [])) = (Ok r, w') /\
      (true = false -> r = success /\ w' = w1) /\
      (r = true -> success = true).
Proof.
  split; [reflexivity|]. split; [lia|].
  apply (proj2 (preset_application_reaches_the_port
                  replay replay_serial 1 "narrow"%string false true
                  (boot (Replay [ack 0; narrow_reply] [])))
               (PSet.Preset "Narrow Beam (50°x16°)" "Maximum range, narrow field of view"
                            [31; 31; 31; 30; 26; 21; 16; 16; 13; 0; 0; 0; 0; 3; 1; 0; 1])
               eq_refl ltac:(lia)).
Defined.

(** [load_profile_from_file] gives the array of the document exactly when it
    has seventeen values, all between 0 and 31, and [None] otherwise
    (including when the file cannot be read or parsed).  When nothing is
    loaded, the profile branch of [main] reports failure without a call on
    the port.  When the write of a loaded profile is acknowledged and
    verification is on, it reports success exactly when the profile read back
    equals the profile of the file: a read-back that fails counts as a
    failure here. *)
Theorem profile_is_checked_and_verified_strictly :
  forall (port : Type) (S : Serial port) (probe : Z)
         (document : result (option (list Z))) (permanent : bool) (w : world port),
    (forall p, PSet.load_profile_from_file document = Some p <->
               (document = Ok (Some p) /\ len p = 17 /\
                forall v, In v p -> 0 <= v <= 31))
    /\
    (PSet.load_profile_from_file document = None ->
     forall verify,
       PSet.main_apply_profile probe document permanent verify w = (Ok false, w))
    /\
    (forall p w1 updated w2,
        PSet.load_profile_from_file document = Some p ->
        PSet.set_probe_p_values probe p permanent 3 w = (Ok true, w1) ->
        PSet.read_probe_p_values probe (after_sleep 500 w1) = (Ok updated, w2) ->
        exists ok,
          PSet.main_apply_profile probe document permanent true w = (Ok ok, w2) /\
          (ok = true <-> updated = Some p)).
Proof.
  intros port S probe document permanent w.
  assert (Hload : forall p, PSet.load_profile_from_file document = Some p <->
               (document = Ok (Some p) /\ len p = 17 /\
                forall v, In v p -> 0 <= v <= 31)).
  { intros p. unfold PSet.load_profile_from_file.
    destruct document as [[l|]|e];
      [|split; [discriminate | intros [Hd _]; discriminate Hd]
       |split; [discriminate | intros [Hd _]; discriminate Hd]].
    destruct (len l =? 17) eqn:Hlen.
    - destruct (forallb _ l) eqn:Hall.
      + split.
        * intros E. injection E as <-. split; [reflexivity|].
          apply Z.eqb_eq in Hlen. split; [exact Hlen|].
          intros v Hin. rewrite forallb_forall in Hall. specialize (Hall v Hin).
          apply andb_true_iff in Hall as [H1 H2]. apply Z.leb_le in H1, H2. lia.
        * intros (Hd & _). injection Hd as ->. reflexivity.
      + split; [discriminate|]. intros (Hd & _ & Hv). injection Hd as ->.
        assert (Hall' : forallb (fun p_val => (0 <=? p_val) && (p_val <=? 31)) p = true).
        { apply forallb_forall. intros v Hin. specialize (Hv v Hin).
          apply andb_true_iff. split; apply Z.leb_le; lia. }
        rewrite Hall' in Hall. discriminate Hall.
    - split; [discriminate|]. intros (Hd & Hl & _). injection Hd as ->.
      apply Z.eqb_neq in Hlen. contradiction. }
  split; [exact Hload|]. split.
  - intros E verify. unfold PSet.main_apply_profile. now rewrite E.
  - intros p w1 updated w2 E Eset Eread.
    destruct (proj1 (Hload p) E) as (_ & Hlen & _).
    unfold PSet.main_apply_profile. rewrite E.
    destruct p as [|v vs]; [discriminate Hlen|].
    cbv zeta. unfold bind at 1. rewrite Eset. cbn [andb].
    unfold bind at 1.
    change (sleep 500 w1) with (@Ok unit tt, after_sleep 500 w1). cbv beta iota.
    unfold bind. rewrite Eread.
    destruct updated as [u|].
    + destruct (PSet.list_eqb u (v :: vs)) eqn:Eq.
      * exists true. split; [reflexivity|]. apply list_eqb_eq in Eq. subst u. tauto.
      * exists false. split; [reflexivity|]. split; [discriminate|].
        intros Hu. injection Hu as ->.
        assert (Ht : PSet.list_eqb (v :: vs) (v :: vs) = true)
          by (apply list_eqb_eq; reflexivity).
        rewrite Ht in Eq. discriminate Eq.
    + exists false. split; [reflexivity|]. split; discriminate.
Qed.

Lemma profile_is_checked_and_verified_strictly_witness :
  let p := [31; 31; 31; 30; 26; 21; 16; 16; 13; 0; 0; 0; 0; 3; 1; 0; 1] in
  let w := boot (Replay [ack 0] []) in
  let w1 := snd (PSet.set_probe_p_values 1 p false 3 w) in
  let w2 := snd (PSet.read_probe_p_values 1 (after_sleep 500 w1)) in
  PSet.load_profile_from_file (Ok (Some p)) = Some p /\
  PSet.set_probe_p_values 1 p false 3 w = (Ok true, w1) /\
  PSet.read_probe_p_values 1 (after_sleep 500 w1) = (Ok None, w2) /\
  exists ok,
    PSet.main_apply_profile 1 (Ok (Some p)) false true w = (Ok ok, w2) /\
    (ok = true <-> None = Some p).
Proof.
  intros p w w1 w2.
  split; [reflexivity|]. split; [reflexivity|]. split; [reflexivity|].
  apply (proj2 (proj2 (profile_is_checked_and_verified_strictly
                         replay replay_serial 1 (Ok (Some p)) false w))
               p w1 None w2); reflexivity.
Defined.
